(** * Temporal extraction by project year: a shallow embedding

    The development follows [scripts/08_temporal_extraction.py], its
    companion [scripts/08b_run_designite_temporal.py] and the GraphQL helper
    of [tools/csDetector-fixed].  Every Python function that matters for the
    properties below is written as a Rocq function with the same name; what
    the functions obtain from outside the process (git, the file system, the
    remote API, the clock, the random generator) is an explicit argument.

    Conventions.
    - A naive [datetime] is the number of microseconds since
      0001-01-01T00:00:00; Python keeps exactly this resolution.
    - [time.time()] readings and [time.sleep] durations are microseconds too.
    - A Python [dict] with string keys is a [gmap string _]; where the source
      depends on the insertion order of a dict an association list is used.
    - A call that may raise returns a [result]. *)

From Stdlib Require Import ZArith QArith List Bool Ascii String Lia.
From Stdlib Require Import Sorting.Sorted.
From stdpp Require Import base option list strings gmap fin_maps.

Local Open Scope Z_scope.

(** ** Outcome of a Python call *)

(** [Raised] stands for an exception of class [Exception]; [Interrupted] for
    one that is only a [BaseException] ([KeyboardInterrupt], [SystemExit]),
    which [except Exception] does not catch. *)
Inductive result (A : Type) : Type :=
| Returned (a : A)
| Raised
| Interrupted.
Arguments Returned {A} a.
Arguments Raised {A}.
Arguments Interrupted {A}.

Definition returned {A} (r : result A) : bool :=
  match r with Returned _ => true | _ => false end.

(** ** Calendar arithmetic of [datetime] *)

Module Dates.

Definition US_PER_DAY : Z := 86400000000.

(** [datetime.max.toordinal()] *)
Definition MAXORDINAL : Z := 3652059.

(** One past [datetime.max], in microseconds. *)
Definition DT_LIMIT : Z := MAXORDINAL * US_PER_DAY.

(** [timedelta.max.days] *)
Definition MAX_DELTA_DAYS : Z := 999999999.

Definition datetime := Z.

Definition valid (t : datetime) : Prop := 0 <= t < DT_LIMIT.

Definition is_leap (y : Z) : bool :=
  (y mod 4 =? 0) && (negb (y mod 100 =? 0) || (y mod 400 =? 0)).

Definition days_before_year (year : Z) : Z :=
  let y := year - 1 in y * 365 + y / 4 - y / 100 + y / 400.

Definition DAYS_IN_MONTH (m : Z) : Z :=
  match m with
  | 1 => 31 | 2 => 28 | 3 => 31 | 4 => 30 | 5 => 31 | 6 => 30
  | 7 => 31 | 8 => 31 | 9 => 30 | 10 => 31 | 11 => 30 | 12 => 31
  | _ => 0
  end.

Definition DAYS_BEFORE_MONTH (m : Z) : Z :=
  match m with
  | 1 => 0 | 2 => 31 | 3 => 59 | 4 => 90 | 5 => 120 | 6 => 151
  | 7 => 181 | 8 => 212 | 9 => 243 | 10 => 273 | 11 => 304 | 12 => 334
  | _ => 0
  end.

Definition days_before_month (year month : Z) : Z :=
  DAYS_BEFORE_MONTH month
  + (if (2 <? month) && is_leap year then 1 else 0).

(** Proleptic Gregorian ordinal, 0001-01-01 being day 1. *)
Definition ymd2ord (year month day : Z) : Z :=
  days_before_year year + days_before_month year month + day.

Definition ord2ymd (ordinal : Z) : Z * Z * Z :=
  let n := ordinal - 1 in
  let n400 := n / 146097 in
  let n := n mod 146097 in
  let year := n400 * 400 + 1 in
  let n100 := n / 36524 in
  let n := n mod 36524 in
  let n4 := n / 1461 in
  let n := n mod 1461 in
  let n1 := n / 365 in
  let n := n mod 365 in
  let year := year + n100 * 100 + n4 * 4 + n1 in
  if (n1 =? 4) || (n100 =? 4) then (year - 1, 12, 31)
  else
    let leapyear := (n1 =? 3) && (negb (n4 =? 24) || (n100 =? 3)) in
    let month := Z.shiftr (n + 50) 5 in
    let preceding :=
      DAYS_BEFORE_MONTH month
      + (if (2 <? month) && leapyear then 1 else 0) in
    if n <? preceding then
      let month := month - 1 in
      let preceding :=
        preceding
        - (DAYS_IN_MONTH month
           + (if (month =? 2) && leapyear then 1 else 0)) in
      (year, month, n - preceding + 1)
    else (year, month, n - preceding + 1).

(** [datetime(year, month, day)] at midnight. *)
Definition of_ymd (year month day : Z) : datetime :=
  (ymd2ord year month day - 1) * US_PER_DAY.

Definition toordinal (t : datetime) : Z := t / US_PER_DAY + 1.

Definition ymd (t : datetime) : Z * Z * Z := ord2ymd (toordinal t).

(** [dt + timedelta(days=d)]: [OverflowError] when the delta or the sum
    leaves the representable range. *)
Definition add_days (t : datetime) (d : Z) : option datetime :=
  if (Z.abs d <=? MAX_DELTA_DAYS)
     && (0 <=? t + d * US_PER_DAY) && (t + d * US_PER_DAY <? DT_LIMIT)
  then Some (t + d * US_PER_DAY)
  else None.

(** Decimal digits, most significant first, padded to [width]. *)
Definition digit (d : Z) : Ascii.ascii :=
  Ascii.ascii_of_nat (48 + Z.to_nat (d mod 10)).

Fixpoint pad_digits (width : nat) (n : Z) (acc : string) : string :=
  match width with
  | O => acc
  | S w => pad_digits w (n / 10) (String (digit n) acc)
  end.

(** [t.strftime("%Y-%m-%d")], the year written with four digits. *)
Definition strftime_ymd (t : datetime) : string :=
  let '(y, m, d) := ymd t in
  pad_digits 4 y "" +:+ "-" +:+ pad_digits 2 m "" +:+ "-" +:+ pad_digits 2 d "".

End Dates.

(** ** Values stored in a result row *)

(** A float that the source rounds to a fixed number of decimals
    ([round(x, 4)], [round(x, 2)]) is the rational it denotes. *)
Inductive value : Type :=
| VStr (s : string)
| VInt (n : Z)
| VFloat (q : Q)
| VNone.

(** [d.update(e)]: the entries of [e] win. *)
Definition update {V} (d e : gmap string V) : gmap string V := e ∪ d.

(** [k.replace(" ", "_")] *)
Fixpoint replace_spaces (s : string) : string :=
  match s with
  | EmptyString => EmptyString
  | String c rest =>
      String (if Ascii.eqb c " "%char then "_"%char else c) (replace_spaces rest)
  end.

(** Sum of the values stored under the keys that start with [p]. *)
Definition sum_with_prefix (p : string) (m : gmap string Z) : Z :=
  map_fold (fun k v acc => if String.prefix p k then v + acc else acc) 0 m.

(** ** The files written by the static-analysis tool *)

Module Csv.

(** A row as [csv.DictReader] yields it: a cell is a string, or [None]
    (Python's [None]) when the line has fewer cells than the header. *)
Abbreviation csv_row := (gmap string (option string)).

Inductive csv_file : Type :=
| Missing                       (* [os.path.exists] is false *)
| Broken                        (* opening or reading raises *)
| Table (rows : list csv_row).

(** [row.get(column, "Unknown")] *)
Definition get_cell (column : string) (r : csv_row) : option string :=
  match r !! column with
  | Some cell => cell
  | None => Some "Unknown"%string
  end.

(** [counts[k] = counts.get(k, 0) + 1] on a dict kept in insertion order. *)
Fixpoint bump {K} `{EqDecision K} (k : K) (counts : list (K * Z))
  : list (K * Z) :=
  match counts with
  | [] => [(k, 1)]
  | (k', v) :: rest =>
      if decide (k = k') then (k', v + 1) :: rest
      else (k', v) :: bump k rest
  end.

(** [sum(counts.values())] *)
Definition sum_values {K} (counts : list (K * Z)) : Z :=
  foldr (fun kv acc => kv.2 + acc) 0 counts.

End Csv.

(** ** [DesigniteRunner._parse_results] of 08_temporal_extraction.py *)

Module Parser.
Import Csv.

(** The counting loop: keys are the raw cells, [None] included. *)
Definition count_rows (column : string) (rows : list csv_row)
  : list (option string * Z) :=
  fold_left (fun counts r => bump (get_cell column r) counts) rows [].

(** [for k, v in smell_counts.items(): smells[prefix + safe_key] = v].
    [None.replace] raises [AttributeError]; the enclosing handler logs it,
    so the entries stored before it stay and the rest are not stored. *)
Fixpoint store_counts (pre : string) (counts : list (option string * Z))
    (smells : gmap string Z) : gmap string Z :=
  match counts with
  | [] => smells
  | (None, _) :: _ => smells
  | (Some k, v) :: rest =>
      store_counts pre rest (<[pre +:+ replace_spaces k := v]> smells)
  end.

Definition parse_file (column total pre : string) (f : csv_file)
    (smells : gmap string Z) : gmap string Z :=
  match f with
  | Missing => smells
  | Broken => smells
  | Table rows =>
      let smell_counts := count_rows column rows in
      let smells := <[total := sum_values smell_counts]> smells in
      store_counts pre smell_counts smells
  end.

(** [smells[k]] for a key the function itself has put there. *)
Definition item (smells : gmap string Z) (k : string) : Z :=
  default 0 (smells !! k).

Definition _parse_results (design impl : csv_file) : gmap string Z :=
  let smells : gmap string Z :=
    {[ "total_design_smells"%string := 0;
       "total_impl_smells"%string := 0;
       "total_code_smells"%string := 0 ]} in
  let smells :=
    parse_file "Design Smell" "total_design_smells" "design_" design smells in
  let smells :=
    parse_file "Implementation Smell" "total_impl_smells" "impl_" impl smells in
  <[ "total_code_smells"%string :=
       item smells "total_design_smells" + item smells "total_impl_smells" ]>
    smells.

(** What [subprocess.run] does with the tool. *)
Inductive tool_exit : Type :=
| Exited (returncode : Z)
| TimeoutExpired
| LaunchError          (* any other [Exception] of [subprocess.run] *)
| KeyboardInterrupt.   (* the operator interrupts while the tool runs *)

(** One invocation as the environment decides it: whether
    [os.makedirs(output_dir)] succeeds, how the tool ends, and the two
    files found in the output directory afterwards. *)
Record invocation : Type := {
  makedirs_ok : bool;
  tool : tool_exit;
  design_csv : csv_file;
  impl_csv : csv_file
}.

(** [DesigniteRunner.run]: [os.makedirs] is outside the [try]. *)
Definition run (inv : invocation) : result (gmap string Z) :=
  if makedirs_ok inv then
    match tool inv with
    | Exited _ => Returned (_parse_results (design_csv inv) (impl_csv inv))
    | TimeoutExpired => Returned ∅
    | LaunchError => Returned ∅
    | KeyboardInterrupt => Interrupted
    end
  else Raised.

End Parser.

(** ** [run_designite] of 08b_run_designite_temporal.py *)

Module Parser08b.
Import Csv.

(** [row.get(column, "Unknown").replace(" ", "_")]: [None] when the cell is
    Python's [None], on which [.replace] raises. *)
Definition get_key (column : string) (r : csv_row) : option string :=
  replace_spaces <$> get_cell column r.

(** The counting loop; [None] when a row makes it raise. *)
Fixpoint count_rows (column : string) (rows : list csv_row)
    (counts : list (string * Z)) : option (list (string * Z)) :=
  match rows with
  | [] => Some counts
  | r :: rest =>
      match get_key column r with
      | Some st => count_rows column rest (bump st counts)
      | None => None
      end
  end.

Fixpoint store_counts (pre : string) (counts : list (string * Z))
    (smells : gmap string Z) : gmap string Z :=
  match counts with
  | [] => smells
  | (k, v) :: rest => store_counts pre rest (<[pre +:+ k := v]> smells)
  end.

(** Returns the total and the updated mapping. *)
Definition parse_file (column pre : string) (f : csv_file)
    (smells : gmap string Z) : Z * gmap string Z :=
  match f with
  | Missing => (0, smells)
  | Broken => (0, smells)
  | Table rows =>
      match count_rows column rows [] with
      | None => (0, smells)
      | Some counts => (sum_values counts, store_counts pre counts smells)
      end
  end.

Definition run_designite (inv : Parser.invocation)
  : result (gmap string Z) :=
  if Parser.makedirs_ok inv then
    match Parser.tool inv with
    | Parser.TimeoutExpired => Returned ∅
    | Parser.LaunchError => Returned ∅
    | Parser.KeyboardInterrupt => Interrupted
    | Parser.Exited _ =>
        let smells : gmap string Z := ∅ in
        let '(design_total, smells) :=
          parse_file "Design Smell" "design_" (Parser.design_csv inv) smells in
        let '(impl_total, smells) :=
          parse_file "Implementation Smell" "impl_" (Parser.impl_csv inv) smells in
        let smells := <["total_design_smells"%string := design_total]> smells in
        let smells := <["total_impl_smells"%string := impl_total]> smells in
        Returned (<["total_code_smells"%string := design_total + impl_total]> smells)
    end
  else Raised.

End Parser08b.

(** [range(n)] and [range(a, b)] *)
Definition range (n : Z) : list Z := map Z.of_nat (seq 0 (Z.to_nat n)).
Definition range_from (a b : Z) : list Z :=
  map (fun i => a + Z.of_nat i) (seq 0 (Z.to_nat (b - a))).

Definition US_PER_S : Z := 1000000.

(** An HTTP header that the source passes to [int]. *)
Inductive header : Type :=
| Absent
| IntValue (n : Z)
| Malformed.

(** [int(headers.get(name, dflt))]; [None] is a [ValueError]. *)
Definition int_header (h : header) (dflt : Z) : option Z :=
  match h with
  | Absent => Some dflt
  | IntValue n => Some n
  | Malformed => None
  end.

(** ** [GitHubAPI] of 08_temporal_extraction.py *)

Module GitHubAPI.

Definition REQUEST_DELAY : Z := 800000.

(** What the client does that the outside can observe.  [Request] records
    the tracked budget and reset deadline at the moment the call leaves. *)
Inductive event : Type :=
| Sleep (start duration : Z)
| Request (start budget deadline : Z).

(** The fields of the object, the clock, the number of calls issued so far
    and the events, latest first. *)
Record state : Type := {
  clock : Z;
  remaining : Z;
  reset_time : Z;
  request_count : Z;
  issued : nat;
  trace : list event
}.

(** As [__init__] leaves the object. *)
Definition init (now : Z) : state :=
  {| clock := now; remaining := 5000; reset_time := 0; request_count := 0;
     issued := 0; trace := [] |}.

(** [time.sleep(d)] *)
Definition sleep (d : Z) (s : state) : state :=
  {| clock := clock s + d; remaining := remaining s;
     reset_time := reset_time s; request_count := request_count s;
     issued := issued s; trace := Sleep (clock s) d :: trace s |}.

Definition set_remaining (n : Z) (s : state) : state :=
  {| clock := clock s; remaining := n; reset_time := reset_time s;
     request_count := request_count s; issued := issued s;
     trace := trace s |}.

Definition set_reset_time (n : Z) (s : state) : state :=
  {| clock := clock s; remaining := remaining s; reset_time := n;
     request_count := request_count s; issued := issued s;
     trace := trace s |}.

Definition count_request (s : state) : state :=
  {| clock := clock s; remaining := remaining s;
     reset_time := reset_time s; request_count := request_count s + 1;
     issued := issued s; trace := trace s |}.

(** [urlopen] leaves at [clock s] and comes back [latency] later. *)
Definition send (latency : N) (s : state) : state :=
  {| clock := clock s + Z.of_N latency; remaining := remaining s;
     reset_time := reset_time s; request_count := request_count s;
     issued := S (issued s);
     trace := Request (clock s) (remaining s) (reset_time s) :: trace s |}.

Definition _check_rate_limit (s : state) : state :=
  if remaining s <? 50 then
    sleep (Z.max 0 (reset_time s * US_PER_S - clock s) + 5 * US_PER_S) s
  else s.

Section Client.

(** The decoded body of a response. *)
Context {json : Type}.

Inductive reply : Type :=
| Success (x_remaining x_reset : header) (body : option json)
    (* [body = None]: reading or decoding the body raises *)
| HTTPError (code : Z) (x_reset : header)
| OtherError.  (* any other exception of [urlopen] *)

Record exchange : Type := { latency : N; answer : reply }.

(** The remote side: what the k-th call of this client meets. *)
Variable server : nat -> exchange.

Inductive step : Type :=
| Return (r : result (option json))
| Continue.

(** The two handlers that end with
    [if attempt < 2: time.sleep(5 * (attempt + 1)) else: return None]. *)
Definition retry_or_none (attempt : Z) (s : state) : step * state :=
  if attempt <? 2 then (Continue, sleep (5 * (attempt + 1) * US_PER_S) s)
  else (Return (Returned None), s).

(** One turn of [for attempt in range(3)]. *)
Definition attempt_body (attempt : Z) (s : state) : step * state :=
  let x := server (issued s) in
  let s := send (latency x) s in
  match answer x with
  | Success x_remaining x_reset body =>
      match int_header x_remaining 5000 with
      | None => retry_or_none attempt s
      | Some n =>
          let s := set_remaining n s in
          match int_header x_reset 0 with
          | None => retry_or_none attempt s
          | Some r =>
              let s := count_request (set_reset_time r s) in
              match body with
              | None => retry_or_none attempt s
              | Some data =>
                  (Return (Returned (Some data)), sleep REQUEST_DELAY s)
              end
          end
      end
  | HTTPError code x_reset =>
      if code =? 403 then
        (* a [ValueError] raised inside this handler is not caught *)
        match int_header x_reset 0 with
        | None => (Return Raised, s)
        | Some reset =>
            (Continue,
             sleep (Z.max 0 (reset * US_PER_S - clock s) + 5 * US_PER_S) s)
        end
      else if code =? 404 then (Return (Returned None), s)
      else if code =? 422 then (Return (Returned None), s)
      else retry_or_none attempt s
  | OtherError => retry_or_none attempt s
  end.

Fixpoint attempts (todo : list Z) (s : state)
  : result (option json) * state :=
  match todo with
  | [] => (Returned None, s)
  | attempt :: rest =>
      match attempt_body attempt s with
      | (Return r, s') => (r, s')
      | (Continue, s') => attempts rest s'
      end
  end.

(** [GitHubAPI.get]; the URL and the parameters only select what the
    server answers, which [server] already decides. *)
Definition get (s : state) : result (option json) * state :=
  attempts (range 3) (_check_rate_limit s).

End Client.

(** The entries of an issue listing that the source reads. *)
Record item : Type := {
  created_at : string;
  pull_request : bool;   (* the key ["pull_request"] is present *)
  comments : Z
}.

(** [s[:n]] *)
Fixpoint take_chars (n : nat) (s : string) : string :=
  match n, s with
  | S n', String c rest => String c (take_chars n' rest)
  | _, _ => EmptyString
  end.

(** The [for item in data] loop of [_count_issues_or_prs]: the items kept
    and whether an item created after [until_date] stopped it. *)
Fixpoint scan_page (item_type until_date : string) (data : list item)
    (all_items : list item) : list item * bool :=
  match data with
  | [] => (all_items, false)
  | it :: rest =>
      if String.ltb until_date (take_chars 10 (created_at it))
      then (all_items, true)
      else
        let is_pr := pull_request it in
        let keep :=
          (String.eqb item_type "pr" && is_pr)
          || (String.eqb item_type "issue" && negb is_pr) in
        scan_page item_type until_date rest
          (if keep then all_items ++ [it] else all_items)
      end.

Section Callers.

Variable server : nat -> @exchange (list item).

(** [while page <= max_pages] of [_count_issues_or_prs]; [fuel] bounds
    the number of turns, [page] grows by one at each. *)
Fixpoint pages (fuel : nat) (item_type until_date : string)
    (page max_pages : Z) (all_items : list item) (s : state)
  : result (list item) * state :=
  match fuel with
  | O => (Returned all_items, s)
  | S fuel' =>
      if page <=? max_pages then
        match get server s with
        | (Returned None, s') => (Returned all_items, s')
        | (Returned (Some []), s') => (Returned all_items, s')
        | (Returned (Some data), s') =>
            let '(all_items, passed) :=
              scan_page item_type until_date data all_items in
            let page := if passed then max_pages + 1 else page in
            if Z.of_nat (length data) <? 100 then (Returned all_items, s')
            else pages fuel' item_type until_date (page + 1) max_pages
                   all_items s'
        | (Raised, s') => (Raised, s')
        | (Interrupted, s') => (Interrupted, s')
        end
      else (Returned all_items, s)
  end.

(** [result["count"]] of [_count_issues_or_prs]: the number of items the
    loop keeps, with [max_pages = 20]. *)
Definition _count_issues_or_prs (item_type until_date : string)
    (s : state) : result Z * state :=
  match pages 20 item_type until_date 1 20 [] s with
  | (Returned all_items, s') => (Returned (Z.of_nat (length all_items)), s')
  | (Raised, s') => (Raised, s')
  | (Interrupted, s') => (Interrupted, s')
  end.

End Callers.

End GitHubAPI.

(** ** [runGraphqlRequest] of csDetector-fixed/graphqlAnalysis *)

Module Graphql.

Inductive event : Type :=
| Sleep (start duration : Z)
| Post (start : Z).

Record state : Type := {
  clock : Z;
  posted : nat;          (* calls issued so far *)
  trace : list event     (* latest first *)
}.

(** [time.sleep(seconds)] *)
Definition sleep (seconds : Z) (s : state) : state :=
  {| clock := clock s + seconds * US_PER_S; posted := posted s;
     trace := Sleep (clock s) (seconds * US_PER_S) :: trace s |}.

Definition send (latency : N) (s : state) : state :=
  {| clock := clock s + Z.of_N latency; posted := S (posted s);
     trace := Post (clock s) :: trace s |}.

(** [random.randint(a, b)] from a raw draw. *)
Definition randint (a b raw : Z) : Z := a + raw mod (b - a + 1).

(** [int(time.time())] *)
Definition int_time (s : state) : Z := clock s / US_PER_S.

Section Request.

Context {data : Type}.

Inductive body : Type :=
| HasData (d : data)      (* ["data" in json_data] *)
| HasErrors               (* only ["errors"] *)
| Neither
| NotJson.                (* [request.json()] raises *)

Inductive reply : Type :=
| NetworkError                                (* [RequestException] *)
| Response (status_code : Z) (x_reset : header) (b : body).

Record exchange : Type := { latency : N; answer : reply }.

Variable server : nat -> exchange.
(** The raw draw behind the k-th [random.randint]. *)
Variable draw : nat -> Z.

Inductive step : Type :=
| Return (r : result data)
| Continue.

Definition is_rate_limit (code : Z) : bool :=
  (code =? 403) || (code =? 429).

Definition is_transient (code : Z) : bool :=
  (code =? 403) || (code =? 429) || (code =? 502) || (code =? 503).

(** The wait chosen in the [if request.status_code in (403, 429, 502,
    503)] branch, in seconds; [None] when [int(reset_time)] raises.  An
    empty header is falsy and counts as [Absent]. *)
Definition wait_time (attempt code : Z) (x_reset : header) (s : state)
  : option Z :=
  let wait := 2 ^ (attempt + 2) in
  if is_rate_limit code then
    match x_reset with
    | Absent => Some wait
    | IntValue reset => Some (Z.min (Z.max (reset - int_time s) 10) 300)
    | Malformed => None
    end
  else Some wait.

Definition transient_branch (attempt code : Z) (x_reset : header)
    (s : state) : step * state :=
  if is_transient code then
    match wait_time attempt code x_reset s with
    | Some w => (Continue, sleep w s)
    | None => (Return Raised, s)
    end
  else (Return Raised, s).

(** One turn of [for attempt in range(max_retries)]. *)
Definition attempt_body (attempt : Z) (s : state) : step * state :=
  let sleepTime := randint 1 4 (draw (posted s)) in
  let s := sleep sleepTime s in
  let x := server (posted s) in
  let s := send (latency x) s in
  match answer x with
  | NetworkError => (Continue, sleep (2 ^ attempt) s)
  | Response code x_reset b =>
      if code =? 200 then
        match b with
        | NotJson => (Return Raised, s)
        | HasData d => (Return (Returned d), s)
        | HasErrors => (Continue, sleep (2 ^ attempt) s)
        | Neither => transient_branch attempt code x_reset s
        end
      else transient_branch attempt code x_reset s
  end.

Fixpoint attempts (todo : list Z) (s : state) : result data * state :=
  match todo with
  | [] => (Raised, s)    (* [raise Exception("Query failed after ...")] *)
  | attempt :: rest =>
      match attempt_body attempt s with
      | (Return r, s') => (r, s')
      | (Continue, s') => attempts rest s'
      end
  end.

Definition runGraphqlRequest (max_retries : Z) (s : state)
  : result data * state :=
  attempts (range max_retries) s.

End Request.

End Graphql.

(** ** The working tree of a clone *)

Module Git.

Inductive head : Type :=
| OnBranch (name : string)
| Detached (commit : string).

#[global] Instance head_eq_dec : EqDecision head.
Proof. solve_decision. Defined.

(** What [git checkout <name> --force] does with a name in a clone.  The
    Python code only sees the exit status, which is 0 in the first three
    cases. *)
Inductive resolution : Type :=
| IsBranch                    (* a branch: HEAD is attached to it *)
| IsCommit (commit : string)  (* a tag or an object name and no branch:
                                 HEAD is detached on that commit *)
| KeepsHead                   (* [HEAD] itself, or no revision but a tracked
                                 path: exit 0 and HEAD does not move *)
| Fails.                      (* non-zero exit, time-out or exception *)

(** [subprocess.run(["git", "checkout", ref, "--force"], ...)] followed by
    [returncode == 0], inside the [try]: the flag Python gets, and where
    the working tree is afterwards. *)
Definition checkout_ref (resolve : string -> resolution) (ref : string)
    (h : head) : bool * head :=
  match resolve ref with
  | IsBranch => (true, OnBranch ref)
  | IsCommit c => (true, Detached c)
  | KeepsHead => (true, h)
  | Fails => (false, h)
  end.

(** [GitHelper.checkout]: the argument is a commit hash. *)
Definition checkout (resolve : string -> resolution) (commit_hash : string)
    (h : head) : bool * head :=
  checkout_ref resolve commit_hash h.

(** [for branch in candidates: ... if returncode == 0: return True] *)
Fixpoint try_branches (resolve : string -> resolution)
    (candidates : list string) (h : head) : bool * head :=
  match candidates with
  | [] => (false, h)
  | branch :: rest =>
      match checkout_ref resolve branch h with
      | (true, h') => (true, h')
      | (false, _) => try_branches resolve rest h
      end
  end.

Definition DEFAULT_BRANCHES : list string := ["main"; "master"]%string.

(** [GitHelper.checkout_default_branch] *)
Definition checkout_default_branch (resolve : string -> resolution)
    (h : head) : bool * head :=
  try_branches resolve DEFAULT_BRANCHES h.

(** [checkout_default] of 08b_run_designite_temporal.py *)
Definition checkout_default (resolve : string -> resolution) (h : head)
  : bool * head :=
  try_branches resolve ["main"; "master"; "HEAD"]%string h.

(** A commit as [git log --format=%aI] shows it: its name and its author
    date, read the way the source reads it
    ([datetime.fromisoformat(...).replace(tzinfo=None)]). *)
Record commit : Type := {
  sha : string;
  author_date : Dates.datetime
}.

(** [git log --reverse --max-count=n] on a history listed newest first,
    as [git log] lists it: the limit is applied first, so the output is
    made of the [n] newest commits, and [--reverse] only turns these
    around. *)
Definition log_reverse_max_count (n : nat) (history : list commit)
  : list commit :=
  rev (take n history).

(** The tree is on one of the names [checkout_default_branch] knows. *)
Definition on_default_branch (h : head) : Prop :=
  exists b, b ∈ DEFAULT_BRANCHES /\ h = OnBranch b.

End Git.

(** ** Social metrics *)

Module Social.

(** The dict returned by [SocialMetricsExtractor.extract_for_period].  Its
    numbers come from [git log] and the remote API; the keys are fixed by
    the source. *)
Record metrics : Type := {
  commit_count : Z;
  author_count : Z;
  bus_factor_number : option Q;
  pr_count : Z;
  issue_count : Z;
  pr_participants_mean : Q;
  issue_participants_mean : Q;
  timezone_count : Z;
  days_active : Z
}.

(** The values [extract_for_period] starts from (lines 279-289). *)
Definition initial_metrics : metrics :=
  {| commit_count := 0; author_count := 0; bus_factor_number := None;
     pr_count := 0; issue_count := 0; pr_participants_mean := 0%Q;
     issue_participants_mean := 0%Q; timezone_count := 0;
     days_active := 0 |}.

(** What the loop over the lines of [get_commit_authors_until] computes
    when there are lines. *)
Record commit_stats : Type := {
  line_count : Z;              (* [len(commit_lines)] *)
  authors : Z;                 (* [len(authors)] *)
  timezones : Z;               (* [len(timezones)] *)
  active_days : Z;             (* 0 when no date could be read *)
  top_ratio : option Q         (* [None] when no author was counted *)
}.

(** [extract_for_period], from the commit lines ([None] when the list is
    empty: [if commit_lines:] is false) and from the two results of
    [_count_issues_or_prs] (count and mean). *)
Definition extract_for_period (commit_lines : option commit_stats)
    (pr_data issue_data : Z * Q) : metrics :=
  let m := initial_metrics in
  let m :=
    match commit_lines with
    | None => m
    | Some c =>
        {| commit_count := line_count c; author_count := authors c;
           bus_factor_number := top_ratio c;
           pr_count := pr_count m; issue_count := issue_count m;
           pr_participants_mean := pr_participants_mean m;
           issue_participants_mean := issue_participants_mean m;
           timezone_count := timezones c; days_active := active_days c |}
    end in
  {| commit_count := commit_count m; author_count := author_count m;
     bus_factor_number := bus_factor_number m;
     pr_count := fst pr_data; issue_count := fst issue_data;
     pr_participants_mean := snd pr_data;
     issue_participants_mean := snd issue_data;
     timezone_count := timezone_count m; days_active := days_active m |}.

Definition to_dict (m : metrics) : gmap string value :=
  {[ "commit_count"%string := VInt (commit_count m);
     "author_count"%string := VInt (author_count m);
     "bus_factor_number"%string :=
       match bus_factor_number m with
       | Some bf => VFloat bf
       | None => VNone
       end;
     "pr_count"%string := VInt (pr_count m);
     "issue_count"%string := VInt (issue_count m);
     "pr_participants_mean"%string := VFloat (pr_participants_mean m);
     "issue_participants_mean"%string := VFloat (issue_participants_mean m);
     "timezone_count"%string := VInt (timezone_count m);
     "days_active"%string := VInt (days_active m) ]}.

(** [bf is not None and bf > x] *)
Definition above (bf : option Q) (x : Q) : bool :=
  match bf with
  | Some q => negb (Qle_bool q x)
  | None => false
  end.

Definition flag (b : bool) : value := VInt (if b then 1 else 0).

Definition compute_community_smell_indicators (m : metrics)
  : gmap string value :=
  let bf := bus_factor_number m in
  {[ "lone_wolf"%string := flag (above bf (9 # 10));
     "radio_silence"%string :=
       flag ((pr_count m =? 0) && (issue_count m =? 0));
     "org_silo"%string := VInt 0;
     "org_silo_proxy"%string :=
       flag ((5 <=? author_count m) && above bf (7 # 10)) ]}.

Definition SOCIAL_KEYS : list string :=
  [ "commit_count"; "author_count"; "bus_factor_number"; "pr_count";
    "issue_count"; "pr_participants_mean"; "issue_participants_mean";
    "timezone_count"; "days_active" ]%string.

End Social.

(** ** [TemporalExtractionPipeline] of 08_temporal_extraction.py *)

Module Pipeline.

Definition MAX_PROJECT_YEARS : Z := 5.
Definition DAYS_PER_YEAR : Z := 365.

Abbreviation row := (gmap string value).

(** The command line after [parse_args]. *)
Record args : Type := {
  github_token : option string;
  designite_jar : option string;
  skip_designite : bool;
  dry_run : bool;
  max_years : Z;
  start_from : Z
}.

(** Truth value of an optional string: [None] and [""] are falsy. *)
Definition truthy (o : option string) : bool :=
  match o with
  | Some (String _ _) => true
  | _ => false
  end.

(** [self.api is not None] and [self.designite is not None] after
    [__init__]. *)
Definition has_api (a : args) : bool := truthy (github_token a).
Definition has_designite (a : args) : bool :=
  truthy (designite_jar a) && negb (skip_designite a).

(** A repository as [load_repos] returns it. *)
Record repo : Type := {
  repo_name : string;
  owner : string;
  repo_slug : string
}.

(** What the outside answers while one repository is processed. *)
Record repo_env : Type := {
  (** [clone_repo]: the clone path, [None] when cloning fails *)
  clone : option string;
  (** where the working tree is when processing starts *)
  initial_head : Git.head;
  (** what [git log] lists in the clone, newest first; empty when the
      command fails, times out or prints nothing *)
  git_log : list Git.commit;
  (** [datetime.now()] as read in the turn of year [n] *)
  now : Z -> Dates.datetime;
  (** [GitHelper.get_last_commit_before]; git only sees the date *)
  last_commit_before : string -> option string;
  (** what [git checkout <ref> --force] does with a name *)
  resolve : string -> Git.resolution;
  (** the run of the tool for year [n] *)
  designite_run : Z -> Parser.invocation;
  (** [extract_for_period] for year [n] *)
  social : Z -> result Social.metrics;
  (** [GitHelper.get_commit_count_until] for year [n] *)
  commit_count_until : Z -> Z
}.

(** [GitHelper.get_first_commit_date]:
    [git log --reverse --format=%aI --max-count=1]. *)
Definition get_first_commit_date (env : repo_env) : option Dates.datetime :=
  Git.author_date <$> hd_error (Git.log_reverse_max_count 1 (git_log env)).

Inductive event : Type :=
| Year (year_n : Z) (snapshot_date : Dates.datetime)
| Future (year_n : Z) (snapshot_date : Dates.datetime)
| NoCommit (year_n : Z)
| Checkout (commit : string) (ok : bool)
| Designite (year_n : Z)
| RestoreDefault (ok : bool)
| ExtractSocial (year_n : Z).

(** Working tree, rows collected so far, events (latest first). *)
Record state : Type := {
  head : Git.head;
  results : list row;
  events : list event
}.

Definition log (e : event) (s : state) : state :=
  {| head := head s; results := results s; events := e :: events s |}.

Definition set_head (h : Git.head) (s : state) : state :=
  {| head := h; results := results s; events := events s |}.

Definition append (r : row) (s : state) : state :=
  {| head := head s; results := results s ++ [r]; events := events s |}.

Definition checkout (env : repo_env) (commit_hash : string) (s : state)
  : bool * state :=
  let '(ok, h) := Git.checkout (resolve env) commit_hash (head s) in
  (ok, log (Checkout commit_hash ok) (set_head h s)).

Definition checkout_default_branch (env : repo_env) (s : state) : state :=
  let '(ok, h) := Git.checkout_default_branch (resolve env) (head s) in
  log (RestoreDefault ok) (set_head h s).

Definition year_result (r : repo) (year_n : Z)
    (snapshot_date first_commit_date : Dates.datetime)
    (commit_hash : string) : row :=
  {[ "repo_name"%string := VStr (repo_name r);
     "owner"%string := VStr (owner r);
     "repo_slug"%string := VStr (repo_slug r);
     "project_year"%string := VInt year_n;
     "snapshot_date"%string := VStr (Dates.strftime_ymd snapshot_date);
     "first_commit_date"%string :=
       VStr (Dates.strftime_ymd first_commit_date);
     "snapshot_commit"%string :=
       VStr (GitHubAPI.take_chars 12 commit_hash) ]}.

Definition META_KEYS : list string :=
  [ "repo_name"; "owner"; "repo_slug"; "project_year"; "snapshot_date";
    "first_commit_date"; "snapshot_commit" ]%string.

Section Repo.

Variable a : args.
Variable r : repo.
Variable env : repo_env.

(** Step 3b: checkout, tool, back to the default branch. *)
Definition designite_step (year_n : Z) (commit_hash : string)
    (yr : row) (s : state) : result row * state :=
  if has_designite a && negb (dry_run a) then
    match checkout env commit_hash s with
    | (true, s) =>
        let s := log (Designite year_n) s in
        match Parser.run (designite_run env year_n) with
        | Returned smells =>
            (Returned (update yr (VInt <$> smells)),
             checkout_default_branch env s)
        | Raised => (Raised, s)
        | Interrupted => (Interrupted, s)
        end
    | (false, s) => (Returned yr, s)
    end
  else (Returned yr, s).

(** Step 3c: social metrics, or the commit count of a dry run. *)
Definition social_step (year_n : Z) (yr : row) (s : state)
  : result row * state :=
  if has_api a && negb (dry_run a) then
    let s := log (ExtractSocial year_n) s in
    match social env year_n with
    | Returned m =>
        let yr := update yr (Social.to_dict m) in
        (Returned
           (update yr (Social.compute_community_smell_indicators m)), s)
    | Raised => (Raised, s)
    | Interrupted => (Interrupted, s)
    end
  else if dry_run a then
    (Returned
       (update yr
          {[ "commit_count"%string := VInt (commit_count_until env year_n) ]}),
     s)
  else (Returned yr, s).

Inductive step : Type :=
| Next                      (* go on with the following year *)
| Break
| Abort (interrupted : bool). (* an exception leaves the function *)

(** One turn of [for year_n in range(1, self.max_years + 1)]. *)
Definition year_body (first_commit_date : Dates.datetime) (year_n : Z)
    (s : state) : step * state :=
  match Dates.add_days first_commit_date (year_n * DAYS_PER_YEAR) with
  | None => (Abort false, s)
  | Some snapshot_date =>
      if now env year_n <? snapshot_date then
        (Break, log (Future year_n snapshot_date) s)
      else
        let s := log (Year year_n snapshot_date) s in
        match last_commit_before env (Dates.strftime_ymd snapshot_date) with
        | None => (Next, log (NoCommit year_n) s)
        | Some commit_hash =>
            let yr :=
              year_result r year_n snapshot_date first_commit_date
                commit_hash in
            match designite_step year_n commit_hash yr s with
            | (Returned yr, s) =>
                match social_step year_n yr s with
                | (Returned yr, s) => (Next, append yr s)
                | (Raised, s) => (Abort false, s)
                | (Interrupted, s) => (Abort true, s)
                end
            | (Raised, s) => (Abort false, s)
            | (Interrupted, s) => (Abort true, s)
            end
        end
  end.

Fixpoint years (first_commit_date : Dates.datetime) (todo : list Z)
    (s : state) : step * state :=
  match todo with
  | [] => (Next, s)
  | year_n :: rest =>
      match year_body first_commit_date year_n s with
      | (Next, s') => years first_commit_date rest s'
      | other => other
      end
  end.

(** [process_repo]: the rows returned, and the state it leaves. *)
Definition process_repo : result (list row) * state :=
  let s := {| head := initial_head env; results := []; events := [] |} in
  match clone env with
  | None => (Returned [], s)
  | Some repo_dir =>
      match get_first_commit_date env with
      | None => (Returned [], s)
      | Some first_commit_date =>
          match years first_commit_date
                  (range_from 1 (max_years a + 1)) s with
          | (Abort false, s') => (Raised, s')
          | (Abort true, s') => (Interrupted, s')
          | (_, s') =>
              (* [if repo_dir:] an empty path is falsy *)
              let s' :=
                if truthy (Some repo_dir)
                then checkout_default_branch env s' else s' in
              (Returned (results s'), s')
          end
      end
  end.

End Repo.

(** A file written by [_save_results]. *)
Record file : Type := {
  partial : bool;
  rows : list row
}.

(** [_save_results]: nothing is written for an empty result set. *)
Definition _save_results (results : list row) (is_partial : bool)
    (written : list file) : list file :=
  match results with
  | [] => written
  | _ => {| partial := is_partial; rows := results |} :: written
  end.

(** State of [run]: accumulated rows, failures, files (latest first) and
    the positions of the repositories handed to [process_repo]. *)
Record run_state : Type := {
  all_results : list row;
  failed : Z;
  written : list file;
  processed : list nat
}.

Section Run.

Variable a : args.
(** The outside while the repository at position [i] is processed. *)
Variable env : nat -> repo_env.

(** [for i, repo in enumerate(repos)], from position [i] on; [false]
    when an interrupt leaves the loop. *)
Fixpoint loop (i : nat) (repos : list repo) (st : run_state)
  : bool * run_state :=
  match repos with
  | [] => (true, st)
  | r :: rest =>
      let visited := processed st ++ [i] in
      match fst (process_repo a r (env i)) with
      | Interrupted =>
          (false,
           {| all_results := all_results st; failed := failed st;
              written := written st; processed := visited |})
      | outcome =>
          let all :=
            match outcome with
            | Returned results => all_results st ++ results
            | _ => all_results st
            end in
          let failed' :=
            match outcome with
            | Returned _ => failed st
            | _ => failed st + 1
            end in
          let written' :=
            if (Z.of_nat i + 1) mod 10 =? 0
            then _save_results all true (written st)
            else written st in
          loop (S i) rest
            {| all_results := all; failed := failed';
               written := written'; processed := visited |}
      end
  end.

(** [run], given the list [load_repos] returned. *)
Definition run (repos : list repo) : result unit * run_state :=
  let repos := if dry_run a then take 3 repos else repos in
  let st := {| all_results := []; failed := 0; written := [];
               processed := [] |} in
  match loop 0 repos st with
  | (true, st) =>
      (Returned (),
       {| all_results := all_results st; failed := failed st;
          written := _save_results (all_results st) false (written st);
          processed := processed st |})
  | (false, st) => (Interrupted, st)
  end.

End Run.

End Pipeline.

(** ** [main] of 08b_run_designite_temporal.py *)

Module Temporal08b.

Abbreviation row := (gmap string value).

(** What the outside answers while the row at one position is handled. *)
Record row_env : Type := {
  is_dir : bool;                         (* [os.path.isdir(repo_dir)] *)
  checkout_commit : bool;                (* [checkout_commit] succeeds *)
  designite_run : Parser.invocation
}.

Record state : Type := {
  rows : list row;
  processed : Z;
  failed : Z;
  saved : list (bool * list row);   (* partial?, rows; latest first *)
  visited : list nat                (* positions not skipped *)
}.

(** [row[key]]: [None] is a [KeyError]. *)
Definition field (r : row) (key : string) : option value := r !! key.

Definition _save (is_partial : bool) (st : state) : state :=
  {| rows := rows st; processed := processed st; failed := failed st;
     saved := (is_partial, rows st) :: saved st; visited := visited st |}.

Definition fail (i : nat) (st : state) : state :=
  {| rows := rows st; processed := processed st; failed := failed st + 1;
     saved := saved st; visited := visited st ++ [i] |}.

Section Main.

Variable start_from : Z.
Variable env : nat -> row_env.

(** The body of [for i, row in enumerate(rows)] below the
    [start_from] test. *)
Definition handle (i : nat) (r : row) (st : state) : result state :=
  match field r "repo_name", field r "project_year",
        field r "snapshot_commit" with
  | Some _, Some _, Some _ =>
      if negb (is_dir (env i)) then Returned (fail i st)
      else if negb (checkout_commit (env i)) then Returned (fail i st)
      else
        match Parser08b.run_designite (designite_run (env i)) with
        | Returned smells =>
            let st :=
              {| rows := <[i := update r (VInt <$> smells)]> (rows st);
                 processed := processed st + 1; failed := failed st;
                 saved := saved st; visited := visited st ++ [i] |} in
            Returned (if processed st mod 20 =? 0 then _save true st else st)
        | Raised => Raised
        | Interrupted => Interrupted
        end
  | _, _, _ => Raised
  end.

Fixpoint loop (i : nat) (todo : list row) (st : state) : result state :=
  match todo with
  | [] => Returned st
  | r :: rest =>
      if Z.of_nat i <? start_from then loop (S i) rest st
      else
        match handle i r st with
        | Returned st' => loop (S i) rest st'
        | other => other
        end
  end.

(** [main] from the point where the input table has been read. *)
Definition main (input : list row) : result state :=
  let st := {| rows := input; processed := 0; failed := 0; saved := [];
               visited := [] |} in
  match loop 0 input st with
  | Returned st => Returned (_save false st)
  | other => other
  end.

End Main.

End Temporal08b.

(** ** What is observed of a run *)

Module Observe.

(** The turns of the year loop that went past the date test, in the order
    they happened: project year and snapshot date. *)
Definition year_events (evs : list Pipeline.event)
  : list (Z * Dates.datetime) :=
  omap (fun e => match e with
                 | Pipeline.Year n t => Some (n, t)
                 | _ => None
                 end) (rev evs).

(** The turns that stopped the loop at a date in the future. *)
Definition future_events (evs : list Pipeline.event)
  : list (Z * Dates.datetime) :=
  omap (fun e => match e with
                 | Pipeline.Future n t => Some (n, t)
                 | _ => None
                 end) (rev evs).

(** The date [first] plus [n] times 365 days. *)
Definition target (first : Dates.datetime) (n : Z) : Dates.datetime :=
  first + n * Pipeline.DAYS_PER_YEAR * Dates.US_PER_DAY.

(** Whether a commit is found before the target of year [n]. *)
Definition resolves (env : Pipeline.repo_env) (first : Dates.datetime)
    (n : Z) : bool :=
  bool_decide
    (is_Some (Pipeline.last_commit_before env
                (Dates.strftime_ymd (target first n)))).

(** Project year and snapshot date of a row. *)
Definition stamp (r : Pipeline.row) : option value * option value :=
  (r !! "project_year"%string, r !! "snapshot_date"%string).

(** The stamp of the row built in the turn of offset [n]. *)
Definition stamp_of (first : Dates.datetime) (n : Z)
  : option value * option value :=
  (Some (VInt n), Some (VStr (Dates.strftime_ymd (target first n)))).

(** The offsets of [l], each with its target. *)
Definition with_targets (first : Dates.datetime) (l : list Z)
  : list (Z * Dates.datetime) :=
  map (fun n => (n, target first n)) l.

(** The stamps of the rows that the offsets of [l] produce. *)
Definition resolved_stamps (env : Pipeline.repo_env)
    (first : Dates.datetime) (l : list Z)
  : list (option value * option value) :=
  map (stamp_of first) (filter (fun n => resolves env first n) l).

(** What the turns over the offsets [done] leave when the loop goes from
    state [s] to state [s'] without stopping. *)
Definition went_through (env : Pipeline.repo_env) (first : Dates.datetime)
    (done : list Z) (s s' : Pipeline.state) : Prop :=
  Forall (fun n => target first n <= Pipeline.now env n) done
  /\ year_events (Pipeline.events s')
     = year_events (Pipeline.events s) ++ with_targets first done
  /\ future_events (Pipeline.events s')
     = future_events (Pipeline.events s)
  /\ map stamp (Pipeline.results s')
     = map stamp (Pipeline.results s) ++ resolved_stamps env first done.

(** The columns [_save_results] treats as code-smell counts. *)
Definition technical (k : string) : bool :=
  String.prefix "total_" k || String.prefix "design_" k
  || String.prefix "impl_" k.

(** A step that only calls git, the tool or the API: no row is added, no
    turn of the loop is logged. *)
Definition quiet (s s' : Pipeline.state) : Prop :=
  year_events (Pipeline.events s') = year_events (Pipeline.events s)
  /\ future_events (Pipeline.events s') = future_events (Pipeline.events s)
  /\ Pipeline.results s' = Pipeline.results s.

(** The state in which [process_repo] starts. *)
Definition start (env : Pipeline.repo_env) : Pipeline.state :=
  {| Pipeline.head := Pipeline.initial_head env; Pipeline.results := [];
     Pipeline.events := [] |}.

(** The step of a snapshot for year [n] and commit [c] gets no mapping
    from the tool, or an empty one: the tool is off, the checkout fails, or
    the tool times out or cannot be started.  A tool that exits is not
    among these, whatever its exit code: see [tool_exits]. *)
Definition no_tool_mapping (a : Pipeline.args) (env : Pipeline.repo_env)
    (n : Z) (c : string) : Prop :=
  Pipeline.has_designite a = false \/ Pipeline.dry_run a = true
  \/ Pipeline.resolve env c = Git.Fails
  \/ Parser.tool (Pipeline.designite_run env n) = Parser.TimeoutExpired
  \/ Parser.tool (Pipeline.designite_run env n) = Parser.LaunchError.

(** The tool is run on the snapshot and exits, with code 0 or not: its
    output directory is parsed. *)
Definition tool_exits (a : Pipeline.args) (env : Pipeline.repo_env)
    (n : Z) (c : string) : Prop :=
  Pipeline.has_designite a = true /\ Pipeline.dry_run a = false
  /\ Pipeline.resolve env c <> Git.Fails
  /\ exists code,
       Parser.tool (Pipeline.designite_run env n) = Parser.Exited code.

(** The mapping the parser builds from the files of the run of year [n]. *)
Definition parsed (env : Pipeline.repo_env) (n : Z) : gmap string Z :=
  Parser._parse_results
    (Parser.design_csv (Pipeline.designite_run env n))
    (Parser.impl_csv (Pipeline.designite_run env n)).

(** The origin of a clone: the author date of its oldest commit. *)
Definition origin (env : Pipeline.repo_env) : option Dates.datetime :=
  Git.author_date <$> last (Pipeline.git_log env).

Definition is_meta (k : string) : bool :=
  bool_decide (k ∈ Pipeline.META_KEYS).

Definition is_social (k : string) : bool :=
  bool_decide (k ∈ Social.SOCIAL_KEYS).

(** The command line with another start index. *)
Definition with_start_from (k : Z) (a : Pipeline.args) : Pipeline.args :=
  {| Pipeline.github_token := Pipeline.github_token a;
     Pipeline.designite_jar := Pipeline.designite_jar a;
     Pipeline.skip_designite := Pipeline.skip_designite a;
     Pipeline.dry_run := Pipeline.dry_run a;
     Pipeline.max_years := Pipeline.max_years a;
     Pipeline.start_from := k |}.

(** Number of data rows of a file that was read to the end. *)
Definition table_size (f : Csv.csv_file) : Z :=
  match f with
  | Csv.Table rows => Z.of_nat (length rows)
  | _ => 0
  end.

(** The per-category sum that [Parser08b.store_counts] adds for [p]. *)
Definition stored_sum (p pre : string) (counts : list (string * Z)) : Z :=
  foldr (fun kv acc =>
           (if String.prefix p (pre +:+ kv.1) then kv.2 else 0) + acc)
        0 counts.








End Observe.

(** ** Replies that make a client try again *)

Module Wire.

(** A reply after which [GitHubAPI.get] neither returns data nor stops at
    once: any failure except 404 and 422, a 403 whose reset header is an
    integer or absent, or a success whose headers or body cannot be
    read. *)
Definition retryable {json} (x : @GitHubAPI.reply json) : bool :=
  match x with
  | GitHubAPI.Success x_remaining x_reset body =>
      match int_header x_remaining 5000, int_header x_reset 0, body with
      | Some _, Some _, Some _ => false
      | _, _, _ => true
      end
  | GitHubAPI.HTTPError code x_reset =>
      if code =? 403 then
        match int_header x_reset 0 with Some _ => true | None => false end
      else negb (code =? 404) && negb (code =? 422)
  | GitHubAPI.OtherError => true
  end.

(** A reply after which [runGraphqlRequest] goes to the next attempt. *)
Definition transient {data} (x : @Graphql.reply data) : bool :=
  match x with
  | Graphql.NetworkError => true
  | Graphql.Response code x_reset b =>
      if code =? 200 then
        match b with Graphql.HasErrors => true | _ => false end
      else
        Graphql.is_transient code
        && (negb (Graphql.is_rate_limit code)
            || match x_reset with Malformed => false | _ => true end)
  end.

(** The wait [runGraphqlRequest] takes after a transient reply met in the
    given attempt, in seconds. *)
Definition graphql_wait {data} (attempt now_s : Z) (x : @Graphql.reply data)
  : Z :=
  match x with
  | Graphql.NetworkError => 2 ^ attempt
  | Graphql.Response code x_reset _ =>
      if code =? 200 then 2 ^ attempt
      else
        match x_reset with
        | IntValue reset =>
            if Graphql.is_rate_limit code
            then Z.min (Z.max (reset - now_s) 10) 300
            else 2 ^ (attempt + 2)
        | _ => 2 ^ (attempt + 2)
        end
  end.

(** The wait [GitHubAPI.get] takes after a retryable reply met in the
    given attempt, in microseconds; [None] when it returns instead. *)
Definition rest_wait {json} (attempt now_us : Z) (x : @GitHubAPI.reply json)
  : option Z :=
  let linear :=
    if attempt <? 2 then Some (5 * (attempt + 1) * US_PER_S) else None in
  match x with
  | GitHubAPI.HTTPError code x_reset =>
      if code =? 403 then
        match int_header x_reset 0 with
        | Some reset =>
            Some (Z.max 0 (reset * US_PER_S - now_us) + 5 * US_PER_S)
        | None => None
        end
      else linear
  | _ => linear
  end.

(** The server never reports a negative number of remaining calls. *)
Definition reports_nonneg {json} (server : nat -> @GitHubAPI.exchange json)
  : Prop :=
  forall k n x_reset body,
    GitHubAPI.answer (server k)
    = GitHubAPI.Success (IntValue n) x_reset body ->
    0 <= n.

(** The state in which an attempt of [runGraphqlRequest] receives its
    reply: after the random pause and the call. *)
Definition at_reply {data} (server : nat -> @Graphql.exchange data)
    (draw : nat -> Z) (s : Graphql.state) : Graphql.state :=
  Graphql.send (Graphql.latency (server (Graphql.posted s)))
    (Graphql.sleep (Graphql.randint 1 4 (draw (Graphql.posted s))) s).

(** Events added between two states of the REST client: no call leaves
    before [clock s] or with a negative tracked budget, the clock does not
    go back and the budget stays non-negative. *)
Definition grows (s s' : GitHubAPI.state) : Prop :=
  exists evs,
    GitHubAPI.trace s' = evs ++ GitHubAPI.trace s
    /\ (forall t b d,
          GitHubAPI.Request t b d ∈ evs ->
          GitHubAPI.clock s <= t /\ 0 <= b)
    /\ GitHubAPI.clock s <= GitHubAPI.clock s'
    /\ 0 <= GitHubAPI.remaining s'.

End Wire.

(** ** Concrete inputs used below *)

Module Scenarios.
Import Csv.

(** Two design smells whose names differ only by a space. *)
Definition colliding_rows : list csv_row :=
  [ {[ "Design Smell"%string := Some "Feature Envy"%string ]};
    {[ "Design Smell"%string := Some "Feature_Envy"%string ]} ].

Definition tool_ok (design impl : csv_file) : Parser.invocation :=
  {| Parser.makedirs_ok := true; Parser.tool := Parser.Exited 0;
     Parser.design_csv := design; Parser.impl_csv := impl |}.

Definition commit_sha : string :=
  "0123456789abcdef0123456789abcdef01234567".

(** The tool times out and leaves no file. *)
Definition tool_timeout : Parser.invocation :=
  {| Parser.makedirs_ok := true; Parser.tool := Parser.TimeoutExpired;
     Parser.design_csv := Missing; Parser.impl_csv := Missing |}.

Definition lone_author : Social.metrics :=
  {| Social.commit_count := 3; Social.author_count := 1;
     Social.bus_factor_number := Some (1 # 1)%Q;
     Social.pr_count := 0; Social.issue_count := 0;
     Social.pr_participants_mean := 0%Q;
     Social.issue_participants_mean := 0%Q;
     Social.timezone_count := 1; Social.days_active := 10 |}.

(** The only commit of the clones below, made on 2019-01-01. *)
Definition commit_2019 : Git.commit :=
  {| Git.sha := commit_sha; Git.author_date := Dates.of_ymd 2019 1 1 |}.

(** The names of a clone whose only branch is [branch] and whose only
    commit is [commit_sha]. *)
Definition names_of (branch ref : string) : Git.resolution :=
  if String.eqb ref branch then Git.IsBranch
  else if String.eqb ref commit_sha then Git.IsCommit commit_sha
  else if String.eqb ref "HEAD" then Git.KeepsHead
  else Git.Fails.

(** A clone on [main] with a single commit, of 2019-01-01, seen on
    2024-06-01; git finds that commit before every date asked for. *)
Definition env2019 : Pipeline.repo_env :=
  {| Pipeline.clone := Some "out/repos/demo"%string;
     Pipeline.initial_head := Git.OnBranch "main";
     Pipeline.git_log := [commit_2019];
     Pipeline.now := fun _ => Dates.of_ymd 2024 6 1;
     Pipeline.last_commit_before := fun _ => Some commit_sha;
     Pipeline.resolve := names_of "main";
     Pipeline.designite_run := fun _ => tool_timeout;
     Pipeline.social := fun _ => Returned lone_author;
     Pipeline.commit_count_until := fun _ => 3 |}.

Definition demo : Pipeline.repo :=
  {| Pipeline.repo_name := "demo"; Pipeline.owner := "acme";
     Pipeline.repo_slug := "demo" |}.

Definition alpha : Pipeline.repo :=
  {| Pipeline.repo_name := "alpha"; Pipeline.owner := "acme";
     Pipeline.repo_slug := "alpha" |}.

Definition beta : Pipeline.repo :=
  {| Pipeline.repo_name := "beta"; Pipeline.owner := "acme";
     Pipeline.repo_slug := "beta" |}.

(** [--max-years 5], no token, no jar. *)
Definition plain_args (years start : Z) : Pipeline.args :=
  {| Pipeline.github_token := None; Pipeline.designite_jar := None;
     Pipeline.skip_designite := false; Pipeline.dry_run := false;
     Pipeline.max_years := years; Pipeline.start_from := start |}.

(** Token and jar given. *)
Definition full_args (years : Z) : Pipeline.args :=
  {| Pipeline.github_token := Some "ghp_token"%string;
     Pipeline.designite_jar := Some "tools/DesigniteJava.jar"%string;
     Pipeline.skip_designite := false; Pipeline.dry_run := false;
     Pipeline.max_years := years; Pipeline.start_from := 0 |}.

(** The same clone with [develop] as its only branch: neither [main] nor
    [master] can be checked out, the snapshot commit can. *)
Definition env_develop : Pipeline.repo_env :=
  {| Pipeline.clone := Some "out/repos/demo"%string;
     Pipeline.initial_head := Git.OnBranch "develop";
     Pipeline.git_log := [commit_2019];
     Pipeline.now := fun _ => Dates.of_ymd 2024 6 1;
     Pipeline.last_commit_before := fun _ => Some commit_sha;
     Pipeline.resolve := names_of "develop";
     Pipeline.designite_run := fun _ => tool_timeout;
     Pipeline.social := fun _ => Returned lone_author;
     Pipeline.commit_count_until := fun _ => 3 |}.




(** A REST server that answers 403 with a reset one hour away. *)
Definition rest_403 : nat -> @GitHubAPI.exchange (list GitHubAPI.item) :=
  fun _ => {| GitHubAPI.latency := 0%N;
              GitHubAPI.answer := GitHubAPI.HTTPError 403 (IntValue 3600) |}.

(** A REST server that answers 502, a quarter of a second late. *)
Definition rest_502 : nat -> @GitHubAPI.exchange (list GitHubAPI.item) :=
  fun _ => {| GitHubAPI.latency := 250000%N;
              GitHubAPI.answer := GitHubAPI.HTTPError 502 Absent |}.

(** A REST server whose first answer has headers saying that 10 calls
    remain until the reset in an hour and a body that cannot be read, and
    which answers an empty page afterwards. *)
Definition rest_truncated : nat -> @GitHubAPI.exchange (list GitHubAPI.item) :=
  fun k =>
    match k with
    | O => {| GitHubAPI.latency := 0%N;
              GitHubAPI.answer :=
                GitHubAPI.Success (IntValue 10) (IntValue 3600) None |}
    | _ => {| GitHubAPI.latency := 0%N;
              GitHubAPI.answer :=
                GitHubAPI.Success (IntValue 9) (IntValue 3600) (Some []) |}
    end.

(** A REST server that answers an empty page and reports 10 remaining
    calls until the reset in an hour. *)
Definition rest_low : nat -> @GitHubAPI.exchange (list GitHubAPI.item) :=
  fun _ => {| GitHubAPI.latency := 0%N;
              GitHubAPI.answer :=
                GitHubAPI.Success (IntValue 10) (IntValue 3600) (Some []) |}.

(** The client after one call to that server. *)
Definition low_budget : GitHubAPI.state :=
  snd (GitHubAPI.get rest_low (GitHubAPI.init 0)).

(** A GraphQL server that answers 502. *)
Definition graphql_502 : nat -> @Graphql.exchange unit :=
  fun _ => {| Graphql.latency := 0%N;
              Graphql.answer := Graphql.Response 502 Absent Graphql.Neither |}.

Definition graphql_start : Graphql.state :=
  {| Graphql.clock := 0; Graphql.posted := 0; Graphql.trace := [] |}.

(** A row of the table 08b reads. *)
Definition input_row (name : string) (year : Z) : Temporal08b.row :=
  {[ "repo_name"%string := VStr name;
     "project_year"%string := VInt year;
     "snapshot_commit"%string := VStr "0123456789ab" ]}.

Definition env08b : Temporal08b.row_env :=
  {| Temporal08b.is_dir := true; Temporal08b.checkout_commit := true;
     Temporal08b.designite_run := tool_timeout |}.

(** The output directory of the tool cannot be created. *)
Definition tool_no_dir : Parser.invocation :=
  {| Parser.makedirs_ok := false; Parser.tool := Parser.Exited 0;
     Parser.design_csv := Missing; Parser.impl_csv := Missing |}.

(** The clone of [env2019] when the output directory of the tool cannot
    be created. *)
Definition env_no_dir : Pipeline.repo_env :=
  {| Pipeline.clone := Some "out/repos/demo"%string;
     Pipeline.initial_head := Git.OnBranch "main";
     Pipeline.git_log := [commit_2019];
     Pipeline.now := fun _ => Dates.of_ymd 2024 6 1;
     Pipeline.last_commit_before := fun _ => Some commit_sha;
     Pipeline.resolve := names_of "main";
     Pipeline.designite_run := fun _ => tool_no_dir;
     Pipeline.social := fun _ => Returned lone_author;
     Pipeline.commit_count_until := fun _ => 3 |}.

(** A clone on [master] that has no branch [main] but a tracked directory
    of that name: [git checkout main --force] restores the directory,
    exits with 0 and leaves HEAD where it is. *)
Definition names_main_path (ref : string) : Git.resolution :=
  if String.eqb ref "main" then Git.KeepsHead
  else names_of "master" ref.

Definition env_main_path : Pipeline.repo_env :=
  {| Pipeline.clone := Some "out/repos/demo"%string;
     Pipeline.initial_head := Git.OnBranch "master";
     Pipeline.git_log := [commit_2019];
     Pipeline.now := fun _ => Dates.of_ymd 2024 6 1;
     Pipeline.last_commit_before := fun _ => Some commit_sha;
     Pipeline.resolve := names_main_path;
     Pipeline.designite_run := fun _ => tool_timeout;
     Pipeline.social := fun _ => Returned lone_author;
     Pipeline.commit_count_until := fun _ => 3 |}.

Definition newer_sha : string :=
  "89abcdef0123456789abcdef0123456789abcdef".

(** A second commit, made on 2021-03-01. *)
Definition commit_2021 : Git.commit :=
  {| Git.sha := newer_sha; Git.author_date := Dates.of_ymd 2021 3 1 |}.

(** A clone on [main] with two commits, of 2019-01-01 and of 2021-03-01,
    seen on 2024-06-01.  [git log --before] finds the newest commit that
    is not after the date asked for. *)
Definition env_two_commits : Pipeline.repo_env :=
  {| Pipeline.clone := Some "out/repos/demo"%string;
     Pipeline.initial_head := Git.OnBranch "main";
     Pipeline.git_log := [commit_2021; commit_2019];
     Pipeline.now := fun _ => Dates.of_ymd 2024 6 1;
     Pipeline.last_commit_before :=
       fun d => if String.ltb d "2019-01-01" then None
                else if String.ltb d "2021-03-01" then Some commit_sha
                else Some newer_sha;
     Pipeline.resolve := names_of "main";
     Pipeline.designite_run := fun _ => tool_timeout;
     Pipeline.social := fun _ => Returned lone_author;
     Pipeline.commit_count_until := fun _ => 3 |}.

(** The tool exits with code 1 and writes no file. *)
Definition tool_failed : Parser.invocation :=
  {| Parser.makedirs_ok := true; Parser.tool := Parser.Exited 1;
     Parser.design_csv := Missing; Parser.impl_csv := Missing |}.

(** The clone of [env2019] with that tool, and with a [git log] that
    prints no commit line for the period. *)
Definition env_tool_failed : Pipeline.repo_env :=
  {| Pipeline.clone := Some "out/repos/demo"%string;
     Pipeline.initial_head := Git.OnBranch "main";
     Pipeline.git_log := [commit_2019];
     Pipeline.now := fun _ => Dates.of_ymd 2024 6 1;
     Pipeline.last_commit_before := fun _ => Some commit_sha;
     Pipeline.resolve := names_of "main";
     Pipeline.designite_run := fun _ => tool_failed;
     Pipeline.social :=
       fun _ => Returned (Social.extract_for_period None (0, 0%Q) (0, 0%Q));
     Pipeline.commit_count_until := fun _ => 3 |}.

(** The clone of [env2019] when the social extraction raises in the
    second year. *)
Definition env_social_raises : Pipeline.repo_env :=
  {| Pipeline.clone := Some "out/repos/demo"%string;
     Pipeline.initial_head := Git.OnBranch "main";
     Pipeline.git_log := [commit_2019];
     Pipeline.now := fun _ => Dates.of_ymd 2024 6 1;
     Pipeline.last_commit_before := fun _ => Some commit_sha;
     Pipeline.resolve := names_of "main";
     Pipeline.designite_run := fun _ => tool_timeout;
     Pipeline.social :=
       fun n => if n =? 2 then Raised else Returned lone_author;
     Pipeline.commit_count_until := fun _ => 3 |}.

End Scenarios.

(** ** [GitHubAPI.get_paginated] of 08_temporal_extraction.py *)

Module Paginated.

Section Pages.

Context {A : Type}.
Variable server : nat -> @GitHubAPI.exchange (list A).

(** [while page <= max_pages] with [page] starting at 1 and growing by one
    at the end of each turn: the turns are those of the pages of
    [range(1, max_pages + 1)], unless a [break] ends them. *)
Fixpoint turns (todo : list Z) (all_items : list A) (s : GitHubAPI.state)
  : result (list A) * GitHubAPI.state :=
  match todo with
  | [] => (Returned all_items, s)
  | page :: rest =>
      match GitHubAPI.get server s with
      | (Returned None, s') => (Returned all_items, s')
      | (Returned (Some []), s') => (Returned all_items, s')
      | (Returned (Some data), s') =>
          let all_items := all_items ++ data in
          if Z.of_nat (length data) <? 100 then (Returned all_items, s')
          else turns rest all_items s'
      | (Raised, s') => (Raised, s')
      | (Interrupted, s') => (Interrupted, s')
      end
  end.

Definition get_paginated (max_pages : Z) (s : GitHubAPI.state)
  : result (list A) * GitHubAPI.state :=
  turns (range_from 1 (max_pages + 1)) [] s.

End Pages.

End Paginated.

(** ** The columns of the tables *)

Module Columns.

Abbreviation row := (gmap string value).

(** [sorted(keys)] on strings without repetition: insertion in the order of
    the character codes. *)
Fixpoint insert_sorted (x : string) (l : list string) : list string :=
  match l with
  | [] => [x]
  | y :: rest =>
      if String.leb x y then x :: l else y :: insert_sorted x rest
  end.

Definition sorted (l : list string) : list string :=
  foldr insert_sorted [] l.

(** The order [sorted] puts strings in. *)
Definition in_order (x y : string) : Prop := String.leb x y = true.

Definition meta_cols : list string :=
  [ "repo_name"; "owner"; "repo_slug"; "project_year"; "snapshot_date";
    "first_commit_date"; "snapshot_commit" ]%string.

Definition social_cols : list string :=
  [ "commit_count"; "author_count"; "days_active"; "bus_factor_number";
    "pr_count"; "issue_count"; "pr_participants_mean";
    "issue_participants_mean"; "timezone_count" ]%string.

Definition indicator_cols : list string :=
  [ "lone_wolf"; "radio_silence"; "org_silo"; "org_silo_proxy" ]%string.

(** [all_keys]: the union of the keys of the rows. *)
Definition all_keys (results : list row) : gset string :=
  ⋃ (dom <$> results).

(** [k.startswith("total_") or k.startswith("design_") or
    k.startswith("impl_")] *)
Definition is_smell_col (k : string) : bool :=
  String.prefix "total_" k || String.prefix "design_" k
  || String.prefix "impl_" k.

Definition smell_cols (keys : gset string) : list string :=
  sorted (filter (fun k => is_smell_col k) (elements keys)).

(** [for col in cols: if col not in fieldnames: fieldnames.append(col)] *)
Definition append_new (fieldnames cols : list string) : list string :=
  fold_left
    (fun acc col => if bool_decide (col ∈ acc) then acc else acc ++ [col])
    cols fieldnames.

(** The [fieldnames] that [_save_results] of 08_temporal_extraction.py
    builds from the keys found in the rows. *)
Definition fieldnames (keys : gset string) : list string :=
  let first :=
    filter (fun col => col ∈ keys)
      (meta_cols ++ social_cols ++ indicator_cols ++ smell_cols keys) in
  append_new first (sorted (elements keys)).

(** [writer.writerow(r)]: one cell for each field, [None] standing for the
    empty cell of a key the row lacks. *)
Definition line (fields : list string) (r : row) : list (option value) :=
  map (fun k => r !! k) fields.

(** Header and lines of the table [_save_results] writes. *)
Definition table (results : list row)
  : list string * list (list (option value)) :=
  let fields := fieldnames (all_keys results) in
  (fields, map (line fields) results).

(** The [all_fields] that [_save] of 08b_run_designite_temporal.py builds
    from the header of the input table and the smell keys met. *)
Definition save_fields (original_fieldnames : list string)
    (smell_keys : gset string) : list string :=
  append_new original_fieldnames (sorted (elements smell_keys)).

End Columns.

(** ** What is observed of the further functions *)

Module Survey.

(** An item that [_count_issues_or_prs] keeps for [item_type]: created on
    the day [until_date] or before, and of the kind asked for. *)
Definition wanted (item_type until_date : string) (it : GitHubAPI.item)
  : bool :=
  negb (String.ltb until_date
          (GitHubAPI.take_chars 10 (GitHubAPI.created_at it)))
  && ((String.eqb item_type "pr" && GitHubAPI.pull_request it)
      || (String.eqb item_type "issue"
          && negb (GitHubAPI.pull_request it))).



(** The names of a file do not collide: no cell of [column] is [None] and
    no two names that were counted apart become equal when their spaces are
    replaced. *)
Definition distinct_names (column : string) (f : Csv.csv_file) : Prop :=
  match f with
  | Csv.Table rows =>
      exists names : list (string * Z),
        Parser.count_rows column rows
        = map (fun kv => (Some kv.1, kv.2)) names
        /\ NoDup (map (fun kv => replace_spaces kv.1) names)
  | _ => True
  end.

(** The calls a list of GraphQL replies stands for: [k] transient ones,
    then one with data. *)
Definition succeeds_after {data} (server : nat -> @Graphql.exchange data)
    (from k : nat) (d : data) : Prop :=
  (forall j, (from <= j < from + k)%nat ->
             Wire.transient (Graphql.answer (server j)) = true)
  /\ exists code x_reset,
       Graphql.answer (server (from + k)%nat)
       = Graphql.Response code x_reset (Graphql.HasData d)
       /\ code = 200.



End Survey.

(** ** Further concrete inputs *)

Module Cases.

(** A REST server that answers 404. *)
Definition rest_404 : nat -> @GitHubAPI.exchange (list GitHubAPI.item) :=
  fun _ => {| GitHubAPI.latency := 0%N;
              GitHubAPI.answer := GitHubAPI.HTTPError 404 Absent |}.

(** A GraphQL server that answers 401. *)
Definition graphql_401 : nat -> @Graphql.exchange unit :=
  fun _ => {| Graphql.latency := 0%N;
              Graphql.answer := Graphql.Response 401 Absent Graphql.Neither |}.

(** A GraphQL server that answers 502 once and 200 with data afterwards. *)
Definition graphql_recovers : nat -> @Graphql.exchange unit :=
  fun k =>
    match k with
    | O => {| Graphql.latency := 0%N;
              Graphql.answer := Graphql.Response 502 Absent Graphql.Neither |}
    | _ => {| Graphql.latency := 0%N;
              Graphql.answer :=
                Graphql.Response 200 Absent (Graphql.HasData tt) |}
    end.

(** Only [HEAD] can be checked out. *)
Definition only_head (ref : string) : Git.resolution :=
  if String.eqb ref "HEAD" then Git.KeepsHead else Git.Fails.

(** A file with one design smell. *)
Definition one_design_row : Csv.csv_file :=
  Csv.Table [ {[ "Design Smell"%string := Some "Feature Envy"%string ]} ].

(** [--dry-run], no token, no jar. *)
Definition dry_args : Pipeline.args :=
  {| Pipeline.github_token := None; Pipeline.designite_jar := None;
     Pipeline.skip_designite := false; Pipeline.dry_run := true;
     Pipeline.max_years := 5; Pipeline.start_from := 0 |}.

(** The table 08b reads, with two rows. *)
Definition two_rows : list Temporal08b.row :=
  [ Scenarios.input_row "alpha" 1; Scenarios.input_row "beta" 2 ].

End Cases.

(** * Properties *)

(** ** The result parser *)

Section ParserFacts.
Import Csv Observe.

Lemma sum_values_bump {K} `{EqDecision K} (k : K) (counts : list (K * Z)) :
  sum_values (bump k counts) = sum_values counts + 1.
Proof.
  induction counts as [|[k' v] rest IH]; simpl; [lia|].
  destruct (decide (k = k')); simpl; unfold sum_values in *; simpl; lia.
Qed.

Lemma bump_keys {K} `{EqDecision K} (k : K) (counts : list (K * Z)) :
  forall j, j ∈ (bump k counts).*1 <-> j = k \/ j ∈ counts.*1.
Proof.
  induction counts as [|[k' v] rest IH]; intros j; simpl.
  - rewrite list_elem_of_singleton. set_solver.
  - destruct (decide (k = k')) as [->|Hne]; simpl.
    + set_solver.
    + rewrite !elem_of_cons, IH. naive_solver.
Qed.

Lemma bump_NoDup {K} `{EqDecision K} (k : K) (counts : list (K * Z)) :
  NoDup counts.*1 -> NoDup (bump k counts).*1.
Proof.
  induction counts as [|[k' v] rest IH]; simpl; intros Hnd.
  - apply NoDup_singleton.
  - apply NoDup_cons in Hnd as [Hnotin Hnd].
    destruct (decide (k = k')) as [->|Hne]; simpl.
    + apply NoDup_cons; auto.
    + apply NoDup_cons; split; [|auto].
      rewrite bump_keys. naive_solver.
Qed.

(** The counts of the run add up to the number of rows. *)
Lemma count_rows_sum column rows :
  sum_values (Parser.count_rows column rows) = Z.of_nat (length rows).
Proof.
  unfold Parser.count_rows.
  assert (forall acc,
    sum_values (fold_left (fun counts r => bump (get_cell column r) counts)
                  rows acc)
    = sum_values acc + Z.of_nat (length rows)) as H.
  { induction rows as [|r rows IH]; intros acc; simpl length.
    - simpl. lia.
    - cbn [fold_left]. rewrite IH, sum_values_bump. lia. }
  rewrite H. reflexivity.
Qed.

Lemma store_counts_other pre counts (m : gmap string Z) k :
  (forall x, k <> pre +:+ x) ->
  Parser.store_counts pre counts m !! k = m !! k.
Proof.
  intros Hk. revert m.
  induction counts as [|[[key|] v] rest IH]; intros m; simpl; auto.
  rewrite IH. apply lookup_insert_ne. intros Heq. apply (Hk _ (eq_sym Heq)).
Qed.

Lemma parse_file_other column total pre f (m : gmap string Z) k :
  k <> total -> (forall x, k <> pre +:+ x) ->
  Parser.parse_file column total pre f m !! k = m !! k.
Proof.
  intros Hne Hk. destruct f as [| |rows]; simpl; auto.
  rewrite store_counts_other by assumption.
  apply lookup_insert_ne. congruence.
Qed.

Lemma parse_file_total column total pre f (m : gmap string Z) :
  (forall x, total <> pre +:+ x) ->
  Parser.parse_file column total pre f m !! total
  = match f with
    | Table rows => Some (Z.of_nat (length rows))
    | _ => m !! total
    end.
Proof.
  intros Hk. destruct f as [| |rows]; simpl; auto.
  rewrite store_counts_other by assumption.
  rewrite lookup_insert_eq, count_rows_sum. reflexivity.
Qed.

Lemma parse_results_design_total design impl :
  Parser._parse_results design impl !! "total_design_smells"%string
  = Some (table_size design).
Proof.
  unfold Parser._parse_results.
  rewrite lookup_insert_ne by discriminate.
  rewrite parse_file_other by (intros; discriminate).
  rewrite parse_file_total by (intros; discriminate).
  destruct design; reflexivity.
Qed.

Lemma parse_results_impl_total design impl :
  Parser._parse_results design impl !! "total_impl_smells"%string
  = Some (table_size impl).
Proof.
  unfold Parser._parse_results.
  rewrite lookup_insert_ne by discriminate.
  rewrite parse_file_total by (intros; discriminate).
  destruct impl; [| |reflexivity];
    (rewrite parse_file_other by (intros; discriminate); reflexivity).
Qed.

(** The grand total is the sum of the two totals, for every input. *)
Lemma parse_results_code_total design impl :
  Parser._parse_results design impl !! "total_code_smells"%string
  = Some (table_size design + table_size impl).
Proof.
  pose proof (parse_results_design_total design impl) as Hd.
  pose proof (parse_results_impl_total design impl) as Hi.
  unfold Parser._parse_results in *.
  rewrite lookup_insert_ne in Hd, Hi by discriminate.
  rewrite lookup_insert_eq. unfold Parser.item.
  rewrite Hd, Hi. reflexivity.
Qed.

(** *** The sum over a prefix *)

Lemma sum_with_prefix_empty p : sum_with_prefix p ∅ = 0.
Proof. unfold sum_with_prefix. apply map_fold_empty. Qed.

Lemma sum_with_prefix_insert p k v (m : gmap string Z) :
  m !! k = None ->
  sum_with_prefix p (<[k := v]> m)
  = (if String.prefix p k then v else 0) + sum_with_prefix p m.
Proof.
  intros Hfresh. unfold sum_with_prefix.
  rewrite map_fold_insert_L; [destruct (String.prefix p k); lia | | exact Hfresh].
  intros j1 j2 z1 z2 y _ _ _.
  destruct (String.prefix p j1), (String.prefix p j2); lia.
Qed.

Lemma prefix_app pre k : String.prefix pre (pre +:+ k) = true.
Proof.
  induction pre as [|c pre IH]; simpl.
  - destruct k; reflexivity.
  - destruct (ascii_dec c c); [exact IH | congruence].
Qed.

Lemma store_counts08b_lookup pre counts (m : gmap string Z) k :
  (forall x, k <> pre +:+ x) ->
  Parser08b.store_counts pre counts m !! k = m !! k.
Proof.
  intros Hk. revert m.
  induction counts as [|[key v] rest IH]; intros m; simpl; auto.
  rewrite IH. apply lookup_insert_ne. intros Heq. apply (Hk _ (eq_sym Heq)).
Qed.

Lemma store_counts08b_fresh pre counts (m : gmap string Z) x :
  x ∉ counts.*1 -> m !! (pre +:+ x) = None ->
  Parser08b.store_counts pre counts m !! (pre +:+ x) = None.
Proof.
  revert m. induction counts as [|[key v] rest IH]; intros m Hx Hm; simpl; auto.
  simpl in Hx. apply not_elem_of_cons in Hx as [Hne Hx].
  apply IH; [exact Hx|].
  rewrite lookup_insert_ne; [exact Hm|].
  intros Heq. apply Hne. symmetry. exact (inj (String.app pre) _ _ Heq).
Qed.

Lemma store_counts08b_sum p pre counts (m : gmap string Z) :
  NoDup counts.*1 ->
  (forall x, x ∈ counts.*1 -> m !! (pre +:+ x) = None) ->
  sum_with_prefix p (Parser08b.store_counts pre counts m)
  = stored_sum p pre counts + sum_with_prefix p m.
Proof.
  revert m. induction counts as [|[key v] rest IH]; intros m Hnd Hfresh.
  - simpl. lia.
  - simpl in Hnd. apply NoDup_cons in Hnd as [Hnotin Hnd].
    cbn [Parser08b.store_counts stored_sum foldr fst snd].
    rewrite IH; [| exact Hnd |].
    + rewrite sum_with_prefix_insert.
      * fold (stored_sum p pre rest). lia.
      * apply Hfresh. simpl. apply elem_of_cons. left. reflexivity.
    + intros x Hx. rewrite lookup_insert_ne.
      * apply Hfresh. simpl. apply elem_of_cons. right. exact Hx.
      * intros Heq. apply Hnotin.
        rewrite (inj (String.app pre) _ _ Heq). exact Hx.
Qed.

Lemma stored_sum_same pre counts :
  stored_sum pre pre counts = sum_values counts.
Proof.
  induction counts as [|[key v] rest IH]; [reflexivity|].
  unfold stored_sum, sum_values in *. cbn [foldr fst snd].
  rewrite prefix_app, IH. reflexivity.
Qed.

Lemma stored_sum_disjoint p pre counts :
  (forall x, String.prefix p (pre +:+ x) = false) ->
  stored_sum p pre counts = 0.
Proof.
  intros Hdis. induction counts as [|[key v] rest IH]; [reflexivity|].
  unfold stored_sum in *. cbn [foldr fst snd]. rewrite Hdis, IH. reflexivity.
Qed.

Lemma count_rows08b_NoDup column rows counts counts' :
  NoDup counts.*1 ->
  Parser08b.count_rows column rows counts = Some counts' ->
  NoDup counts'.*1.
Proof.
  revert counts. induction rows as [|r rows IH]; intros counts Hnd; simpl.
  - intros [= <-]. exact Hnd.
  - destruct (Parser08b.get_key column r) as [st|]; [|discriminate].
    apply IH. apply bump_NoDup. exact Hnd.
Qed.

(** What one file contributes in 08b: the total it returns is the sum,
    over the mapping it returns, of the entries under its own prefix, and
    it leaves the sums under a disjoint prefix alone. *)
Lemma parse_file08b_sums column pre f (m : gmap string Z) total m' :
  (forall x, m !! (pre +:+ x) = None) ->
  Parser08b.parse_file column pre f m = (total, m') ->
  sum_with_prefix pre m' = total + sum_with_prefix pre m
  /\ (forall p, (forall x, String.prefix p (pre +:+ x) = false) ->
                sum_with_prefix p m' = sum_with_prefix p m)
  /\ (forall k, (forall x, k <> pre +:+ x) -> m' !! k = m !! k).
Proof.
  intros Hfresh Hparse.
  destruct f as [| |rows]; simpl in Hparse;
    try (injection Hparse as <- <-; repeat split; auto; lia).
  destruct (Parser08b.count_rows column rows []) as [counts|] eqn:Hcount;
    [|injection Hparse as <- <-; repeat split; auto; lia].
  injection Hparse as <- <-.
  assert (NoDup counts.*1) as Hnd.
  { eapply count_rows08b_NoDup; [|exact Hcount]. apply NoDup_nil_2. }
  repeat split.
  - rewrite store_counts08b_sum by auto. rewrite stored_sum_same. reflexivity.
  - intros p Hdis. rewrite store_counts08b_sum by auto.
    rewrite stored_sum_disjoint by exact Hdis. lia.
  - intros k Hk. apply store_counts08b_lookup. exact Hk.
Qed.

(** In 08b every mapping built from the two files satisfies both
    identities: names are normalised before they are counted. *)
Lemma run_designite_sums inv code :
  Parser.makedirs_ok inv = true ->
  Parser.tool inv = Parser.Exited code ->
  exists (m : gmap string Z) d i,
    Parser08b.run_designite inv = Returned m
    /\ m !! "total_design_smells"%string = Some d
    /\ m !! "total_impl_smells"%string = Some i
    /\ m !! "total_code_smells"%string = Some (d + i)
    /\ sum_with_prefix "design_" m = d
    /\ sum_with_prefix "impl_" m = i.
Proof.
  intros Hmk Htool. unfold Parser08b.run_designite. rewrite Hmk, Htool.
  destruct (Parser08b.parse_file "Design Smell" "design_"
              (Parser.design_csv inv) ∅) as [d m1] eqn:H1.
  destruct (Parser08b.parse_file "Implementation Smell" "impl_"
              (Parser.impl_csv inv) m1) as [i m2] eqn:H2.
  apply parse_file08b_sums in H1 as (Hd1 & Hother1 & Hkeep1);
    [|intros; apply lookup_empty].
  assert (forall x, m1 !! ("impl_" +:+ x) = None) as Hfresh2.
  { intros x. rewrite Hkeep1 by (intros; discriminate). apply lookup_empty. }
  apply parse_file08b_sums in H2 as (Hi2 & Hother2 & Hkeep2); [|exact Hfresh2].
  assert (forall k, (forall x, k <> "design_" +:+ x) ->
                    (forall x, k <> "impl_" +:+ x) -> m2 !! k = None) as Hnone.
  { intros k Hkd Hki. rewrite Hkeep2, Hkeep1 by assumption. apply lookup_empty. }
  eexists; exists d, i. split; [reflexivity|].
  rewrite lookup_insert_ne, lookup_insert_ne, lookup_insert_eq by discriminate.
  rewrite lookup_insert_ne, lookup_insert_eq by discriminate.
  rewrite lookup_insert_eq.
  repeat split.
  - rewrite !sum_with_prefix_insert; simpl.
    + rewrite Hother2 by (intros; reflexivity).
      rewrite Hd1, sum_with_prefix_empty. lia.
    + apply Hnone; intros; discriminate.
    + rewrite lookup_insert_ne by discriminate.
      apply Hnone; intros; discriminate.
    + rewrite !lookup_insert_ne by discriminate.
      apply Hnone; intros; discriminate.
  - rewrite !sum_with_prefix_insert; simpl.
    + rewrite Hi2, Hother1 by (intros; reflexivity).
      rewrite sum_with_prefix_empty. lia.
    + apply Hnone; intros; discriminate.
    + rewrite lookup_insert_ne by discriminate.
      apply Hnone; intros; discriminate.
    + rewrite !lookup_insert_ne by discriminate.
      apply Hnone; intros; discriminate.
Qed.

(** C10, at a failing input of 08_temporal_extraction.py.  The tool reports
    two design smells named "Feature Envy" and "Feature_Envy".
    [_parse_results] counts them under their raw names and only then
    replaces spaces, so both land on the key [design_Feature_Envy]: the
    mapping has [total_design_smells = 2] and [total_code_smells = 2] while
    its [design_*] entries add up to 1. *)
Theorem parse_results_collision :
  let m := Parser._parse_results (Table Scenarios.colliding_rows) Missing in
  m !! "total_design_smells"%string = Some 2
  /\ m !! "total_code_smells"%string = Some 2
  /\ m !! "design_Feature_Envy"%string = Some 1
  /\ sum_with_prefix "design_" m = 1.
Proof. vm_compute. repeat split; reflexivity. Qed.

End ParserFacts.

(** ** The start index *)

Section StartIndex.
Import Pipeline Observe.

(** [run] never reads [--start-from]. *)
Lemma run_start_from_irrelevant k a env repos :
  run (with_start_from k a) env repos = run a env repos.
Proof. reflexivity. Qed.

Lemma loop_processed a env repos : forall i st ok st',
  loop a env i repos st = (ok, st') ->
  ok = true ->
  processed st' = processed st ++ seq i (length repos).
Proof.
  induction repos as [|r rest IH]; intros i st ok st' Hloop Hok.
  - simpl in Hloop. injection Hloop as _ <-. simpl. rewrite app_nil_r.
    reflexivity.
  - cbn [loop] in Hloop.
    destruct (fst (process_repo a r (env i))) as [rows| |];
      try (apply IH in Hloop; [|exact Hok]; rewrite Hloop; cbn [processed];
           rewrite <- app_assoc; reflexivity).
    injection Hloop as <- _. discriminate.
Qed.

(** A run that is not interrupted hands every repository of the list to
    [process_repo], whatever the start index. *)
Lemma run_processes_all a env repos st :
  dry_run a = false ->
  run a env repos = (Returned (), st) ->
  processed st = seq 0 (length repos).
Proof.
  intros Hdry. unfold run. rewrite Hdry.
  destruct (loop a env 0 repos _) as [[|] st0] eqn:Hloop; [|discriminate].
  intros [= <-]. cbn [processed].
  apply loop_processed in Hloop; [|reflexivity]. exact Hloop.
Qed.

(** C7, at a failing input of 08_temporal_extraction.py: with
    [--start-from 1] and a list of two repositories, [run] processes
    position 0 as well and its rows are in the final table. *)
Theorem run_ignores_start_from :
  let a := Scenarios.plain_args 1 1 in
  let out := run a (fun _ => Scenarios.env2019)
               [Scenarios.alpha; Scenarios.beta] in
  start_from a = 1
  /\ fst out = Returned ()
  /\ processed (snd out) = [0; 1]%nat
  /\ map (fun r : row => r !! "repo_name"%string) (all_results (snd out))
     = [Some (VStr "alpha"); Some (VStr "beta")].
Proof. vm_compute. repeat split; reflexivity. Qed.

(** The companion script does skip the prefix. *)
Lemma loop08b_visited start env todo : forall i st st',
  Temporal08b.loop start env i todo st = Returned st' ->
  Temporal08b.visited st'
  = Temporal08b.visited st
    ++ filter (fun j => start <= Z.of_nat j) (seq i (length todo)).
Proof.
  induction todo as [|r rest IH]; intros i st st' Hloop.
  - simpl in Hloop. injection Hloop as <-. simpl. rewrite app_nil_r.
    reflexivity.
  - cbn [Temporal08b.loop] in Hloop. cbn [length seq].
    rewrite filter_cons.
    destruct (Z.ltb_spec (Z.of_nat i) start) as [Hlt|Hge].
    + rewrite decide_False by lia. apply IH. exact Hloop.
    + rewrite decide_True by lia.
      destruct (Temporal08b.handle env i r st) as [st1| |] eqn:Hh;
        try discriminate.
      apply IH in Hloop. rewrite Hloop.
      assert (Temporal08b.visited st1 = Temporal08b.visited st ++ [i]) as ->.
      { unfold Temporal08b.handle in Hh.
        repeat match type of Hh with
               | context [match ?x with _ => _ end] => destruct x
               end;
          try discriminate; injection Hh as <-; reflexivity. }
      rewrite <- app_assoc. reflexivity.
Qed.

Lemma main08b_skips_prefix start env input st :
  Temporal08b.main start env input = Returned st ->
  Temporal08b.visited st
  = filter (fun j => start <= Z.of_nat j) (seq 0 (length input)).
Proof.
  unfold Temporal08b.main.
  destruct (Temporal08b.loop start env 0 input _) as [st0| |] eqn:Hloop;
    try discriminate.
  intros [= <-]. apply loop08b_visited in Hloop. exact Hloop.
Qed.

End StartIndex.

(** ** The year loop of [process_repo] *)

Section YearLoop.
Import Pipeline Observe.

Lemma add_days_Some t d t' :
  Dates.add_days t d = Some t' -> t' = t + d * Dates.US_PER_DAY.
Proof.
  unfold Dates.add_days.
  destruct (_ && _); [intros [= <-]; reflexivity | discriminate].
Qed.

Lemma range_from_lookup a b (i : nat) x :
  range_from a b !! i = Some x <->
  x = a + Z.of_nat i /\ (i < Z.to_nat (b - a))%nat.
Proof.
  unfold range_from. rewrite list_lookup_fmap.
  destruct (decide (i < Z.to_nat (b - a))%nat) as [Hlt|Hge].
  - rewrite lookup_seq_lt by exact Hlt. simpl. split.
    + intros [= <-]. split; [reflexivity | exact Hlt].
    + intros [-> _]. reflexivity.
  - rewrite lookup_seq_ge by lia. simpl. split; [discriminate|].
    intros [_ Hlt]. contradiction.
Qed.

Lemma range_from_length a b : length (range_from a b) = Z.to_nat (b - a).
Proof. unfold range_from. rewrite length_map, length_seq. reflexivity. Qed.

(** A prefix of [range(1, m + 1)] is [range(1, k + 1)]. *)
Lemma range_from_prefix m done rest :
  range_from 1 (m + 1) = done ++ rest ->
  done = range_from 1 (Z.of_nat (length done) + 1)
  /\ Z.of_nat (length done) + Z.of_nat (length rest) = Z.max 0 m.
Proof.
  intros Heq.
  assert (length (range_from 1 (m + 1)) = length (done ++ rest))
    as Hlen by (rewrite Heq; reflexivity).
  rewrite range_from_length, length_app in Hlen.
  split; [|lia].
  apply list_eq. intros i.
  destruct (decide (i < length done)%nat) as [Hlt|Hge].
  - rewrite <- (lookup_app_l done rest), <- Heq by exact Hlt.
    transitivity (Some (1 + Z.of_nat i)); [|symmetry];
      apply range_from_lookup; split; (reflexivity || lia).
  - rewrite lookup_ge_None_2 by lia.
    symmetry. apply lookup_ge_None_2. rewrite range_from_length. lia.
Qed.

Lemma range_from_max m :
  range_from 1 (Z.max 0 m + 1) = range_from 1 (m + 1).
Proof. unfold range_from. f_equal. f_equal. lia. Qed.

Lemma year_events_cons e evs :
  year_events (e :: evs)
  = year_events evs ++ match e with Year n t => [(n, t)] | _ => [] end.
Proof.
  unfold year_events. cbn [rev]. rewrite omap_app. destruct e; reflexivity.
Qed.

Lemma future_events_cons e evs :
  future_events (e :: evs)
  = future_events evs ++ match e with Future n t => [(n, t)] | _ => [] end.
Proof.
  unfold future_events. cbn [rev]. rewrite omap_app. destruct e; reflexivity.
Qed.

Variable a : args.
Variable r : repo.
Variable env : repo_env.

(** The keys of the parser's mapping are the three totals and keys that
    start with [design_] or [impl_]. *)
Lemma parse_results_keys design impl k :
  k <> "total_design_smells"%string -> k <> "total_impl_smells"%string ->
  k <> "total_code_smells"%string ->
  (forall x, k <> "design_" +:+ x) -> (forall x, k <> "impl_" +:+ x) ->
  Parser._parse_results design impl !! k = None.
Proof.
  intros Hd Hi Hc Hpd Hpi. unfold Parser._parse_results.
  rewrite lookup_insert_ne by congruence.
  rewrite !parse_file_other by assumption.
  rewrite !lookup_insert_ne by congruence.
  apply lookup_singleton_ne. congruence.
Qed.

Lemma run_keys inv smells k :
  Parser.run inv = Returned smells ->
  k <> "total_design_smells"%string -> k <> "total_impl_smells"%string ->
  k <> "total_code_smells"%string ->
  (forall x, k <> "design_" +:+ x) -> (forall x, k <> "impl_" +:+ x) ->
  smells !! k = None.
Proof.
  unfold Parser.run. destruct (Parser.makedirs_ok inv); [|discriminate].
  destruct (Parser.tool inv); intros H; try discriminate;
    injection H as <-; intros;
    first [apply parse_results_keys; assumption | apply lookup_empty].
Qed.

Lemma run_no_stamp inv smells :
  Parser.run inv = Returned smells ->
  smells !! "project_year"%string = None
  /\ smells !! "snapshot_date"%string = None.
Proof.
  intros Hrun.
  split; apply (run_keys _ _ _ Hrun); intros; discriminate.
Qed.

Lemma update_lookup_None {V} (d e : gmap string V) k :
  e !! k = None -> update d e !! k = d !! k.
Proof. intros He. unfold update. apply lookup_union_r. exact He. Qed.

Lemma quiet_refl s : quiet s s.
Proof. repeat split. Qed.

Lemma quiet_log e s :
  match e with Year _ _ | Future _ _ => False | _ => True end ->
  quiet s (log e s).
Proof.
  intros He. unfold quiet. cbn [events results log].
  rewrite year_events_cons, future_events_cons.
  destruct e; try contradiction; rewrite !app_nil_r; repeat split.
Qed.

Lemma quiet_set_head h s : quiet s (set_head h s).
Proof. repeat split. Qed.

Lemma quiet_trans s1 s2 s3 : quiet s1 s2 -> quiet s2 s3 -> quiet s1 s3.
Proof.
  intros (A1 & B1 & C1) (A2 & B2 & C2). repeat split; congruence.
Qed.

Lemma quiet_checkout c s ok s' :
  checkout env c s = (ok, s') -> quiet s s'.
Proof.
  unfold checkout. destruct (Git.checkout _ _ _) as [ok' h].
  intros [= _ <-].
  eapply quiet_trans; [apply quiet_set_head | apply quiet_log; exact I].
Qed.

Lemma quiet_checkout_default_branch s :
  quiet s (checkout_default_branch env s).
Proof.
  unfold checkout_default_branch.
  destruct (Git.checkout_default_branch _ _) as [ok h].
  eapply quiet_trans; [apply quiet_set_head | apply quiet_log; exact I].
Qed.

(** Step 3b keeps the project year of the row it is given. *)
Lemma designite_step_spec n c yr s res s' :
  designite_step a env n c yr s = (res, s') ->
  quiet s s'
  /\ (forall yr', res = Returned yr' -> stamp yr' = stamp yr).
Proof.
  unfold designite_step.
  destruct (has_designite a && negb (dry_run a));
    [|intros [= <- <-]; split; [apply quiet_refl|];
      intros ? [= <-]; reflexivity].
  destruct (checkout env c s) as [[|] s1] eqn:Hco;
    apply quiet_checkout in Hco.
  - assert (quiet s (log (Designite n) s1)) as Hq.
    { eapply quiet_trans; [exact Hco | apply quiet_log; exact I]. }
    destruct (Parser.run _) as [smells| |] eqn:Hrun;
      intros [= <- <-]; (split; [|try discriminate]).
    + eapply quiet_trans; [exact Hq | apply quiet_checkout_default_branch].
    + intros ? [= <-]. unfold stamp.
      destruct (run_no_stamp _ _ Hrun) as [Hn1 Hn2].
      rewrite !update_lookup_None
        by (rewrite lookup_fmap, ?Hn1, ?Hn2; reflexivity).
      reflexivity.
    + exact Hq.
    + exact Hq.
  - intros [= <- <-]. split; [exact Hco|]. intros ? [= <-]. reflexivity.
Qed.

Lemma social_step_spec n yr s res s' :
  social_step a env n yr s = (res, s') ->
  quiet s s'
  /\ (forall yr', res = Returned yr' -> stamp yr' = stamp yr).
Proof.
  unfold social_step.
  destruct (has_api a && negb (dry_run a)).
  - destruct (social env n) as [m| |]; intros [= <- <-];
      (split; [apply quiet_log; exact I | try discriminate]).
    intros ? [= <-]. unfold stamp.
    rewrite !update_lookup_None by reflexivity. reflexivity.
  - destruct (dry_run a); intros [= <- <-];
      (split; [apply quiet_refl|]); intros ? [= <-]; [|reflexivity].
    unfold stamp. rewrite !update_lookup_None by reflexivity. reflexivity.
Qed.

(** One turn of the loop. *)
Lemma year_body_spec first n s st s' :
  year_body a r env first n s = (st, s') ->
  match st with
  | Next => went_through env first [n] s s'
  | Break =>
      now env n < target first n
      /\ year_events (events s') = year_events (events s)
      /\ future_events (events s')
         = future_events (events s) ++ [(n, target first n)]
      /\ results s' = results s
  | Abort _ => True
  end.
Proof.
  unfold year_body, went_through, resolved_stamps, with_targets, resolves.
  destruct (Dates.add_days first (n * DAYS_PER_YEAR)) as [t|] eqn:Hadd;
    [|intros [= <- <-]; exact I].
  apply add_days_Some in Hadd. fold (target first n) in Hadd. subst t.
  destruct (Z.ltb_spec (now env n) (target first n)) as [Hfut|Hpast].
  { intros [= <- <-]. cbn [events results log].
    rewrite year_events_cons, future_events_cons, app_nil_r. auto. }
  assert (forall s1, quiet (log (Year n (target first n)) s) s1 ->
    year_events (events s1) = year_events (events s) ++ [(n, target first n)]
    /\ future_events (events s1) = future_events (events s)
    /\ results s1 = results s) as Hlog.
  { intros s1 (A & B & C). rewrite A, B, C. cbn [events results log].
    rewrite year_events_cons, future_events_cons, app_nil_r. auto. }
  rewrite filter_cons, filter_nil.
  destruct (last_commit_before env _) as [c|] eqn:Hc.
  - rewrite decide_True by (apply bool_decide_pack; eauto).
    destruct (designite_step _ _ _ _ _ _) as [[yr1| |] s1] eqn:Hd;
      try (intros [= <- <-]; exact I).
    apply designite_step_spec in Hd as (Hq1 & Hy1).
    destruct (social_step _ _ _ _ _) as [[yr2| |] s2] eqn:Hs;
      try (intros [= <- <-]; exact I).
    apply social_step_spec in Hs as (Hq2 & Hy2).
    intros [= <- <-].
    destruct (Hlog s2 (quiet_trans _ _ _ Hq1 Hq2)) as (A & B & C).
    cbn [events results append]. rewrite A, B, C.
    split; [repeat constructor; exact Hpast|]. repeat split.
    rewrite map_app. cbn [map].
    rewrite (Hy2 _ eq_refl), (Hy1 _ eq_refl). reflexivity.
  - rewrite decide_False
      by (intros Hs; apply bool_decide_unpack in Hs as [? ?]; discriminate).
    intros [= <- <-].
    destruct (Hlog _ (quiet_log (NoCommit n) _ I)) as (A & B & C).
    rewrite A, B, C.
    split; [repeat constructor; exact Hpast|]. repeat split.
    simpl. rewrite app_nil_r. reflexivity.
Qed.

Lemma went_through_nil first s : went_through env first [] s s.
Proof.
  unfold went_through, with_targets, resolved_stamps. simpl.
  rewrite !app_nil_r. repeat split. constructor.
Qed.

Lemma went_through_cons first n done s s1 s' :
  went_through env first [n] s s1 ->
  went_through env first done s1 s' ->
  went_through env first (n :: done) s s'.
Proof.
  intros (A1 & B1 & C1 & D1) (A2 & B2 & C2 & D2).
  unfold went_through, with_targets, resolved_stamps in *.
  split; [|split; [|split]].
  - constructor; [|exact A2]. inversion A1; assumption.
  - rewrite B2, B1, <- app_assoc. reflexivity.
  - congruence.
  - rewrite D2, D1, <- app_assoc. f_equal.
    rewrite !filter_cons, filter_nil.
    destruct (decide _); reflexivity.
Qed.

Lemma years_spec first todo : forall s st s',
  years a r env first todo s = (st, s') ->
  match st with
  | Next => went_through env first todo s s'
  | Break =>
      exists done n rest s1,
        todo = done ++ n :: rest
        /\ went_through env first done s s1
        /\ now env n < target first n
        /\ year_events (events s') = year_events (events s1)
        /\ future_events (events s')
           = future_events (events s1) ++ [(n, target first n)]
        /\ results s' = results s1
  | Abort _ => True
  end.
Proof.
  induction todo as [|n todo IH]; intros s st s' Hy.
  - simpl in Hy. injection Hy as <- <-. apply went_through_nil.
  - cbn [years] in Hy.
    destruct (year_body a r env first n s) as [st1 s1] eqn:Hb.
    apply year_body_spec in Hb.
    destruct st1 as [| |b].
    + apply IH in Hy.
      destruct st as [| |b]; [| |exact I].
      * eapply went_through_cons; eassumption.
      * destruct Hy as (done & m & rest & s2 & -> & Hthrough & Hrest).
        exists (n :: done), m, rest, s2.
        split; [reflexivity|]. split; [|exact Hrest].
        eapply went_through_cons; eassumption.
    + injection Hy as <- <-.
      exists [], n, todo, s.
      split; [reflexivity|]. split; [apply went_through_nil | exact Hb].
    + injection Hy as <- <-. exact I.
Qed.


(** Shared by the statements below: once the clone is there and
    [get_first_commit_date] gave a date, a call that returns went through
    the offsets 1..k and stopped, if at all, at the date test of offset
    k + 1. *)
Lemma process_repo_years dir first rows s' :
  clone env = Some dir ->
  get_first_commit_date env = Some first ->
  process_repo a r env = (Returned rows, s') ->
  exists k : Z,
    0 <= k <= Z.max 0 (max_years a)
    /\ rows = results s'
    /\ Forall (fun n => target first n <= now env n) (range_from 1 (k + 1))
    /\ year_events (events s') = with_targets first (range_from 1 (k + 1))
    /\ map stamp rows = resolved_stamps env first (range_from 1 (k + 1))
    /\ (k = Z.max 0 (max_years a) -> future_events (events s') = [])
    /\ (k < max_years a ->
        now env (k + 1) < target first (k + 1)
        /\ future_events (events s') = [(k + 1, target first (k + 1))]).
Proof.
  intros Hclone Hfirst. unfold process_repo. rewrite Hclone, Hfirst.
  fold (start env).
  destruct (years a r env first (range_from 1 (max_years a + 1)) (start env))
    as [st s1] eqn:Hy.
  apply years_spec in Hy. cbv zeta.
  assert (quiet s1 (if truthy (Some dir)
                    then checkout_default_branch env s1 else s1))
    as (Qy & Qf & Qr).
  { destruct (truthy (Some dir));
      [apply quiet_checkout_default_branch | apply quiet_refl]. }
  set (s2 := if truthy (Some dir) then _ else _) in *.
  destruct st as [| |b].
  - destruct Hy as (Hall & Hev & Hfu & Hrows).
    intros [= <- <-].
    exists (Z.max 0 (max_years a)).
    rewrite Qy, Qf, Qr, range_from_max.
    split; [lia|]. split; [reflexivity|]. split; [exact Hall|].
    split; [exact Hev|]. split; [exact Hrows|].
    split; [intros _; exact Hfu | lia].
  - destruct Hy as (done & n & rest & s3 & Heq & (Hall & Hev & Hfu & Hrows)
                    & Hfut & Hev' & Hfu' & Hrows').
    intros [= <- <-].
    pose proof (range_from_prefix _ _ _ Heq) as [Hdone Hlen].
    assert (n = Z.of_nat (length done) + 1) as ->.
    { assert (range_from 1 (max_years a + 1) !! length done = Some n) as Hl.
      { rewrite Heq. rewrite lookup_app_r by lia.
        rewrite Nat.sub_diag. reflexivity. }
      apply range_from_lookup in Hl as [-> _]. lia. }
    simpl in Hlen.
    exists (Z.of_nat (length done)).
    rewrite Qy, Qf, Qr, Hev', Hfu', Hrows', <- Hdone.
    split; [lia|]. split; [reflexivity|]. split; [exact Hall|].
    split; [exact Hev|]. split; [exact Hrows|].
    split; [lia|]. intros _. split; [exact Hfut|].
    rewrite Hfu. reflexivity.
  - destruct b; discriminate.
Qed.

(** The targets of the loop, from the date [get_first_commit_date]
    returned.  For a repository whose clone succeeds, for which
    [get_first_commit_date] returns [first] and whose processing returns,
    the loop went past the date test exactly for the offsets 1..k, each
    with the target date [first] + n * 365 days; offsets and target dates
    grow strictly along that sequence; none of these targets is later than
    the clock reading of its turn; when k is below the maximum the loop
    stopped at offset k + 1, the first whose target exceeds the clock; and
    the rows returned are those of the offsets 1..k for which a commit was
    found, in that order, each carrying its offset and its target date. *)
Lemma process_repo_project_years dir first rows s' :
  clone env = Some dir ->
  get_first_commit_date env = Some first ->
  process_repo a r env = (Returned rows, s') ->
  exists k : Z,
    0 <= k <= Z.max 0 (max_years a)
    /\ year_events (events s')
       = map (fun n => (n, first + n * 365 * Dates.US_PER_DAY))
           (range_from 1 (k + 1))
    /\ (forall (i j : nat) p q,
          year_events (events s') !! i = Some p ->
          year_events (events s') !! j = Some q ->
          (i < j)%nat -> p.1 < q.1 /\ p.2 < q.2)
    /\ (forall n, 1 <= n <= k ->
                  first + n * 365 * Dates.US_PER_DAY <= now env n)
    /\ (k < max_years a ->
        now env (k + 1) < first + (k + 1) * 365 * Dates.US_PER_DAY
        /\ future_events (events s')
           = [(k + 1, first + (k + 1) * 365 * Dates.US_PER_DAY)])
    /\ rows = results s'
    /\ map stamp rows
       = map (fun n =>
                (Some (VInt n),
                 Some (VStr (Dates.strftime_ymd
                               (first + n * 365 * Dates.US_PER_DAY)))))
           (filter (fun n => resolves env first n) (range_from 1 (k + 1))).
Proof.
  intros Hclone Hfirst Hret.
  destruct (process_repo_years _ _ _ _ Hclone Hfirst Hret)
    as (k & Hk & Hrows & Hall & Hev & Hyears & _ & Hstop).
  exists k.
  split; [exact Hk|]. split; [exact Hev|].
  split; [|split; [|split; [exact Hstop | split; [exact Hrows | exact Hyears]]]].
  - intros i j p q Hp Hq Hij. rewrite Hev in Hp, Hq.
    unfold with_targets in Hp, Hq. rewrite list_lookup_fmap in Hp, Hq.
    destruct (range_from 1 (k + 1) !! i) as [x|] eqn:Hx; [|discriminate].
    destruct (range_from 1 (k + 1) !! j) as [y|] eqn:Hy'; [|discriminate].
    apply range_from_lookup in Hx as [-> _].
    apply range_from_lookup in Hy' as [-> _].
    simpl in Hp, Hq. injection Hp as <-. injection Hq as <-.
    unfold target, DAYS_PER_YEAR, Dates.US_PER_DAY. simpl. lia.
  - intros n Hn. rewrite Forall_forall in Hall. apply (Hall n).
    apply list_elem_of_lookup.
    exists (Z.to_nat (n - 1)). apply range_from_lookup. lia.
Qed.

(** C1, at a failing input of 08_temporal_extraction.py: a clone with two
    commits, of 2019-01-01 and of 2021-03-01, seen on 2024-06-01 with
    [--max-years 5].  The origin is 2019-01-01, and the five targets origin
    + n * 365 days (2020-01-01 for n = 1) are all past.  But
    [get_first_commit_date] returns 2021-03-01, the date of the newest
    commit: [--max-count=1] limits the log before [--reverse] turns it
    around.  So the loop takes the targets 2022-03-01, 2023-03-01 and
    2024-02-29, stops at offset 4, and returns three rows with these
    dates. *)
Theorem process_repo_targets_from_newest_commit :
  let env := Scenarios.env_two_commits in
  let out := process_repo (Scenarios.plain_args 5 0) Scenarios.demo env in
  origin env = Some (Dates.of_ymd 2019 1 1)
  /\ target (Dates.of_ymd 2019 1 1) 1 = Dates.of_ymd 2020 1 1
  /\ Forall (fun n => target (Dates.of_ymd 2019 1 1) n <= now env n)
       [1; 2; 3; 4; 5]
  /\ get_first_commit_date env = Some (Dates.of_ymd 2021 3 1)
  /\ returned (fst out) = true
  /\ year_events (events (snd out))
     = [ (1, Dates.of_ymd 2022 3 1); (2, Dates.of_ymd 2023 3 1);
         (3, Dates.of_ymd 2024 2 29) ]
  /\ future_events (events (snd out)) = [ (4, Dates.of_ymd 2025 2 28) ]
  /\ map stamp (results (snd out))
     = [ (Some (VInt 1), Some (VStr "2022-03-01"));
         (Some (VInt 2), Some (VStr "2023-03-01"));
         (Some (VInt 3), Some (VStr "2024-02-29")) ].
Proof.
  cbv zeta.
  split; [reflexivity|]. split; [vm_compute; reflexivity|].
  split; [repeat constructor; vm_compute; discriminate|].
  split; [reflexivity|]. split; [vm_compute; reflexivity|].
  split; [vm_compute; reflexivity|]. split; vm_compute; reflexivity.
Qed.

End YearLoop.

(** ** The scenario of 2019 *)

Section Scenario2019.
Import Pipeline Observe.





End Scenario2019.

(** ** Missing parts of a snapshot *)

Section PartialSnapshot.
Import Pipeline Observe.

Variable a : args.
Variable r : repo.
Variable env : repo_env.

Lemma technical_design x : technical ("design_" +:+ x) = true.
Proof. destruct x; reflexivity. Qed.

Lemma technical_impl x : technical ("impl_" +:+ x) = true.
Proof. destruct x; reflexivity. Qed.

(** Every key of the tool's mapping is a technical one. *)
Lemma run_keys_technical inv smells k :
  Parser.run inv = Returned smells ->
  technical k = false -> smells !! k = None.
Proof.
  intros Hrun Hk. apply (run_keys _ _ _ Hrun);
    try (intros ->; discriminate);
    intros x ->; [rewrite technical_design in Hk | rewrite technical_impl in Hk];
    discriminate.
Qed.

Lemma update_empty {V} (d : gmap string V) : update d ∅ = d.
Proof. unfold update. apply (left_id ∅ (∪)). Qed.

(** A key is absent from a mapping when no key of the mapping passes the
    test the key passes. *)
Lemma absent_by_keys (P : string -> bool) (m : gmap string value) k :
  forallb (fun j => negb (P j)) (elements (dom m)) = true ->
  P k = true -> m !! k = None.
Proof.
  intros Hall Hk. destruct (m !! k) as [v|] eqn:Hm; [|reflexivity].
  assert (k ∈ elements (dom m)) as Hin.
  { apply elem_of_elements, elem_of_dom. eauto. }
  rewrite forallb_forall in Hall.
  apply list_elem_of_In, Hall in Hin. rewrite Hk in Hin. discriminate.
Qed.

Lemma designite_step_row n c yr s :
  Parser.makedirs_ok (designite_run env n) = true ->
  Parser.tool (designite_run env n) <> Parser.KeyboardInterrupt ->
  exists yr1 s1,
    designite_step a env n c yr s = (Returned yr1, s1)
    /\ results s1 = results s
    /\ (forall k, technical k = false -> yr1 !! k = yr !! k)
    /\ (no_tool_mapping a env n c -> yr1 = yr)
    /\ (tool_exits a env n c -> yr1 = update yr (VInt <$> parsed env n)).
Proof.
  intros Hmk Hint. unfold designite_step, no_tool_mapping, tool_exits.
  destruct (has_designite a) eqn:Hd; simpl;
    [|exists yr, s; repeat split; auto; intros (H & _); discriminate].
  destruct (dry_run a) eqn:Hdry; simpl;
    [exists yr, s; repeat split; auto; intros (_ & H & _); discriminate|].
  assert (forall s0,
    exists yr1 s1,
      match Parser.run (designite_run env n) with
      | Returned smells =>
          (Returned (update yr (VInt <$> smells)),
           checkout_default_branch env s0)
      | Raised => (Raised, s0)
      | Interrupted => (Interrupted, s0)
      end = (Returned yr1, s1)
      /\ results s1 = results s0
      /\ (forall k, technical k = false -> yr1 !! k = yr !! k)
      /\ (Parser.tool (designite_run env n) = Parser.TimeoutExpired
          \/ Parser.tool (designite_run env n) = Parser.LaunchError ->
          yr1 = yr)
      /\ ((exists code,
             Parser.tool (designite_run env n) = Parser.Exited code) ->
          yr1 = update yr (VInt <$> parsed env n))) as Hran.
  { intros s0. unfold Parser.run, checkout_default_branch, parsed.
    rewrite Hmk.
    destruct (Git.checkout_default_branch _ _) as [ok h].
    destruct (Parser.tool (designite_run env n)) eqn:Htool;
      try contradiction.
    - eexists _, _. split; [reflexivity|]. split; [reflexivity|]. split.
      + intros k Hk. apply update_lookup_None. rewrite lookup_fmap.
        erewrite run_keys_technical; [reflexivity | | exact Hk].
        unfold Parser.run. rewrite Hmk, Htool. reflexivity.
      + split; [intros [H|H]; discriminate | intros _; reflexivity].
    - eexists _, _. rewrite fmap_empty, update_empty.
      split; [reflexivity|]. split; [reflexivity|].
      split; [reflexivity|]. split; [reflexivity|].
      intros (code & H). discriminate.
    - eexists _, _. rewrite fmap_empty, update_empty.
      split; [reflexivity|]. split; [reflexivity|].
      split; [reflexivity|]. split; [reflexivity|].
      intros (code & H). discriminate. }
  unfold checkout, Git.checkout, Git.checkout_ref.
  destruct (resolve env c) as [|c'| |] eqn:Hco;
    [ destruct (Hran (log (Designite n)
                         (log (Checkout c true)
                            (set_head (Git.OnBranch c) s))))
        as (yr1 & s1 & H1 & H2 & H3 & H4 & H5)
    | destruct (Hran (log (Designite n)
                         (log (Checkout c true)
                            (set_head (Git.Detached c') s))))
        as (yr1 & s1 & H1 & H2 & H3 & H4 & H5)
    | destruct (Hran (log (Designite n)
                         (log (Checkout c true) (set_head (head s) s))))
        as (yr1 & s1 & H1 & H2 & H3 & H4 & H5)
    | ];
    try (exists yr1, s1; split; [exact H1|]; split; [exact H2|];
         split; [exact H3|]; split;
         [ intros [H|[H|[H|H]]]; try discriminate; apply H4; exact H
         | intros (_ & _ & _ & H); apply H5; exact H ]).
  eexists _, _. split; [reflexivity|]. split; [reflexivity|].
  split; [reflexivity|]. split; [reflexivity|].
  intros (_ & _ & H & _). contradiction.
Qed.

Lemma social_step_row n yr s :
  returned (social env n) = true ->
  exists yr2 s2,
    social_step a env n yr s = (Returned yr2, s2)
    /\ results s2 = results s
    /\ (forall k, technical k = true -> yr2 !! k = yr !! k)
    /\ (forall k, is_meta k = true -> yr2 !! k = yr !! k)
    /\ (has_api a = true -> dry_run a = false ->
        forall m, social env n = Returned m ->
        yr2 = update (update yr (Social.to_dict m))
                (Social.compute_community_smell_indicators m))
    /\ (has_api a = false -> dry_run a = false -> yr2 = yr).
Proof.
  intros Hsoc. unfold social_step.
  destruct (has_api a) eqn:Hapi, (dry_run a) eqn:Hdry; simpl.
  - eexists _, _. split; [reflexivity|]. split; [reflexivity|].
    split; [|split; [|split; intros; discriminate]].
    + intros k Hk. apply update_lookup_None.
      apply (absent_by_keys technical); [reflexivity | exact Hk].
    + intros k Hk. apply update_lookup_None.
      apply (absent_by_keys is_meta); [reflexivity | exact Hk].
  - destruct (social env n) as [m| |]; try discriminate.
    eexists _, _. split; [reflexivity|]. split; [reflexivity|].
    split; [|split; [|split; [|discriminate]]].
    + intros k Hk.
      rewrite !update_lookup_None; [reflexivity| |];
        apply (absent_by_keys technical); (reflexivity || exact Hk).
    + intros k Hk.
      rewrite !update_lookup_None; [reflexivity| |];
        apply (absent_by_keys is_meta); (reflexivity || exact Hk).
    + intros _ _ m' [= <-]. reflexivity.
  - eexists _, _. split; [reflexivity|]. split; [reflexivity|].
    split; [|split; [|split; intros; discriminate]].
    + intros k Hk. apply update_lookup_None.
      apply (absent_by_keys technical); [reflexivity | exact Hk].
    + intros k Hk. apply update_lookup_None.
      apply (absent_by_keys is_meta); [reflexivity | exact Hk].
  - eexists _, _. split; [reflexivity|]. split; [reflexivity|].
    split; [reflexivity|]. split; [reflexivity|].
    split; [discriminate | reflexivity].
Qed.

(** C9, as the code has it.  In the turn of a year whose target is not in
    the future and has a commit before it, a row is built and appended to
    the rows collected so far, whatever the tool and the credentials do,
    short of an exception that leaves the function (the output directory
    cannot be created, the operator interrupts, the social extraction
    raises).  The row has the identity fields, with the values of the
    snapshot.  When the tool gives no mapping (it is off, the checkout
    fails, it times out or cannot be started) the row has no technical
    field.  When the tool is run and exits, with whatever code, its output
    directory is parsed and the technical fields are those of the parser:
    the three totals are there, 0 for a file that is missing.  With a token
    the nine social fields are there with the values the extraction
    returned, and so are the indicators computed from them; without a
    token, outside a dry run, no social field is there. *)
Theorem snapshot_row_with_missing_parts first n t c s :
  Dates.add_days first (n * DAYS_PER_YEAR) = Some t ->
  t <= now env n ->
  last_commit_before env (Dates.strftime_ymd t) = Some c ->
  Parser.makedirs_ok (designite_run env n) = true ->
  Parser.tool (designite_run env n) <> Parser.KeyboardInterrupt ->
  returned (social env n) = true ->
  exists row s',
    year_body a r env first n s = (Next, s')
    /\ results s' = results s ++ [row]
    /\ (forall k, k ∈ META_KEYS ->
          row !! k = year_result r n t first c !! k /\ is_Some (row !! k))
    /\ (no_tool_mapping a env n c ->
        forall k, technical k = true -> row !! k = None)
    /\ (tool_exits a env n c ->
        (forall k, technical k = true ->
           row !! k = VInt <$> parsed env n !! k)
        /\ row !! "total_design_smells"%string
           = Some (VInt (table_size
                           (Parser.design_csv (designite_run env n))))
        /\ row !! "total_impl_smells"%string
           = Some (VInt (table_size
                           (Parser.impl_csv (designite_run env n))))
        /\ row !! "total_code_smells"%string
           = Some (VInt (table_size
                           (Parser.design_csv (designite_run env n))
                         + table_size
                             (Parser.impl_csv (designite_run env n)))))
    /\ (has_api a = true -> dry_run a = false ->
        forall m, social env n = Returned m ->
        (forall k, k ∈ Social.SOCIAL_KEYS ->
           row !! k = Social.to_dict m !! k /\ is_Some (row !! k))
        /\ (forall k v,
              Social.compute_community_smell_indicators m !! k = Some v ->
              row !! k = Some v))
    /\ (has_api a = false -> dry_run a = false ->
        forall k, k ∈ Social.SOCIAL_KEYS -> row !! k = None).
Proof.
  intros Hadd Hdue Hc Hmk Hint Hsoc. unfold year_body.
  rewrite Hadd. destruct (Z.ltb_spec (now env n) t) as [Hlt|_]; [lia|].
  rewrite Hc.
  set (yr := year_result r n t first c).
  destruct (designite_step_row n c yr (log (Year n t) s) Hmk Hint)
    as (yr1 & s1 & Hd & Hr1 & Hk1 & Hno & Hexit).
  rewrite Hd.
  destruct (social_step_row n yr1 s1 Hsoc)
    as (yr2 & s2 & Hs & Hr2 & Ht2 & Hm2 & Hpresent & Habsent).
  rewrite Hs. exists yr2, (append yr2 s2).
  split; [reflexivity|].
  split; [cbn [results append]; rewrite Hr2, Hr1; reflexivity|].
  assert (forall k, technical k = true -> yr !! k = None) as Hyr.
  { intros k Hk. apply (absent_by_keys technical); [reflexivity | exact Hk]. }
  split; [|split; [|split; [|split]]].
  - intros k Hk.
    rewrite Hm2 by (apply bool_decide_eq_true_2; exact Hk).
    unfold META_KEYS in Hk.
    repeat (apply elem_of_cons in Hk as [->|Hk];
            [rewrite Hk1 by reflexivity; split;
             [reflexivity | eexists; reflexivity]|]).
    apply elem_of_nil in Hk. contradiction.
  - intros Hnone k Hk. rewrite Ht2 by exact Hk. rewrite (Hno Hnone).
    apply Hyr. exact Hk.
  - intros Hex.
    assert (forall k, technical k = true ->
                      yr2 !! k = VInt <$> parsed env n !! k) as Htech.
    { intros k Hk. rewrite Ht2 by exact Hk. rewrite (Hexit Hex).
      unfold update. rewrite lookup_union, (Hyr k Hk), lookup_fmap.
      destruct (parsed env n !! k); reflexivity. }
    split; [exact Htech|].
    split; [|split]; rewrite Htech by reflexivity; unfold parsed.
    + rewrite parse_results_design_total. reflexivity.
    + rewrite parse_results_impl_total. reflexivity.
    + rewrite parse_results_code_total. reflexivity.
  - intros Hapi Hdry m Hm. rewrite (Hpresent Hapi Hdry m Hm). split.
    + intros k Hk.
      rewrite update_lookup_None
        by (apply (absent_by_keys is_social);
            [reflexivity | apply bool_decide_eq_true_2; exact Hk]).
      unfold Social.SOCIAL_KEYS in Hk.
      repeat (apply elem_of_cons in Hk as [->|Hk];
              [unfold update;
               erewrite lookup_union_Some_l by reflexivity;
               split; [reflexivity | eexists; reflexivity]|]).
      apply elem_of_nil in Hk. contradiction.
    + intros k v Hv. unfold update. apply lookup_union_Some_l. exact Hv.
  - intros Hapi Hdry k Hk. rewrite (Habsent Hapi Hdry).
    unfold Social.SOCIAL_KEYS in Hk.
    repeat (apply elem_of_cons in Hk as [->|Hk];
            [rewrite Hk1 by reflexivity; reflexivity|]).
    apply elem_of_nil in Hk. contradiction.
Qed.

(** What the claim says of a tool failure, of an empty history and of the
    row does not hold as stated.  A tool that exits with code 1 and writes
    no file leaves the three totals in the row, with value 0.  With a
    token, a [git log] that prints no line for the period leaves the social
    fields in the row, with their initial values.  And the row of a year is
    lost when a later year raises: when the social extraction raises in
    the second year, [process_repo] raises and returns no row, although the
    row of the first year had been built. *)
Lemma snapshot_fields_not_absent :
  let a := Scenarios.full_args 1 in
  let env := Scenarios.env_tool_failed in
  let out := process_repo a Scenarios.demo env in
  let out2 := process_repo (Scenarios.full_args 2) Scenarios.demo
                Scenarios.env_social_raises in
  Parser.tool (designite_run env 1) = Parser.Exited 1
  /\ returned (fst out) = true
  /\ map (fun row : row =>
            (row !! "total_design_smells"%string,
             row !! "total_impl_smells"%string,
             row !! "total_code_smells"%string))
       (results (snd out))
     = [ (Some (VInt 0), Some (VInt 0), Some (VInt 0)) ]
  /\ social env 1 = Returned Social.initial_metrics
  /\ map (fun row : row =>
            (row !! "commit_count"%string, row !! "author_count"%string,
             row !! "bus_factor_number"%string))
       (results (snd out))
     = [ (Some (VInt 0), Some (VInt 0), Some VNone) ]
  /\ fst out2 = Raised
  /\ map stamp (results (snd out2))
     = [ (Some (VInt 1), Some (VStr "2020-01-01")) ].
Proof.
  cbv zeta.
  split; [reflexivity|]. split; [vm_compute; reflexivity|].
  split; [vm_compute; reflexivity|]. split; [reflexivity|].
  split; [vm_compute; reflexivity|]. split; vm_compute; reflexivity.
Qed.

End PartialSnapshot.

(** ** Back to the default branch *)

Section DefaultBranch.
Import Pipeline Observe.

(** The restore tries [main]; only when that checkout fails does it try
    [master], and then reports what that one gave. *)
Lemma checkout_default_branch_cases resolve h :
  Git.checkout_default_branch resolve h
  = if fst (Git.checkout_ref resolve "main" h)
    then Git.checkout_ref resolve "main" h
    else Git.checkout_ref resolve "master" h.
Proof.
  unfold Git.checkout_default_branch, Git.DEFAULT_BRANCHES.
  cbn [Git.try_branches]. unfold Git.checkout_ref.
  destruct (resolve "main"%string), (resolve "master"%string); reflexivity.
Qed.

(** C2, at failing inputs of 08_temporal_extraction.py, each with the tool
    on and one project year.
    - A clone whose only branch is [develop]: [process_repo] returns its
      row, the restore is attempted last and fails, since neither [main]
      nor [master] can be checked out, and the tree is left detached on
      the snapshot commit.
    - A clone with a branch [main], the output directory of the tool
      cannot be created: [process_repo] raises right after the checkout
      of the snapshot, no restore is attempted and the tree is left
      detached on the snapshot commit.
    - A clone with a branch [master], no branch [main] and a tracked
      directory [main]: [git checkout main --force] exits with 0 without
      moving HEAD, so the restore reports success, [master] is never
      tried and the tree is left detached on the snapshot commit. *)
Theorem process_repo_left_detached :
  let a := Scenarios.full_args 1 in
  let out := process_repo a Scenarios.demo Scenarios.env_develop in
  let out2 := process_repo a Scenarios.demo Scenarios.env_no_dir in
  let out3 := process_repo a Scenarios.demo Scenarios.env_main_path in
  (returned (fst out) = true
   /\ hd_error (events (snd out)) = Some (RestoreDefault false)
   /\ head (snd out) = Git.Detached Scenarios.commit_sha
   /\ ~ Git.on_default_branch (head (snd out)))
  /\ (resolve Scenarios.env_no_dir "main" = Git.IsBranch
      /\ fst out2 = Raised
      /\ events (snd out2)
         = [ Designite 1; Checkout Scenarios.commit_sha true;
             Year 1 (Dates.of_ymd 2020 1 1) ]
      /\ head (snd out2) = Git.Detached Scenarios.commit_sha)
  /\ (resolve Scenarios.env_main_path "master" = Git.IsBranch
      /\ returned (fst out3) = true
      /\ hd_error (events (snd out3)) = Some (RestoreDefault true)
      /\ head (snd out3) = Git.Detached Scenarios.commit_sha
      /\ ~ Git.on_default_branch (head (snd out3))).
Proof.
  cbv zeta.
  assert (forall h, h = Git.Detached Scenarios.commit_sha ->
                    ~ Git.on_default_branch h) as Hnot
    by (intros h -> (b & _ & Hb); discriminate).
  split; [|split].
  - split; [vm_compute; reflexivity|]. split; [vm_compute; reflexivity|].
    split; [vm_compute; reflexivity|]. apply Hnot. vm_compute. reflexivity.
  - split; [reflexivity|]. split; [vm_compute; reflexivity|].
    split; vm_compute; reflexivity.
  - split; [reflexivity|]. split; [vm_compute; reflexivity|].
    split; [vm_compute; reflexivity|].
    split; [vm_compute; reflexivity|]. apply Hnot. vm_compute. reflexivity.
Qed.

End DefaultBranch.

(** ** Checkpoints of [run] *)

Section Checkpoints.
Import Pipeline Observe.

Variable a : args.
Variable env : nat -> repo_env.










End Checkpoints.

(** ** The REST client *)

Section RestClient.
Import GitHubAPI.

Context {json : Type}.
Variable server : nat -> @exchange json.

Lemma issued_check_rate_limit s : issued (_check_rate_limit s) = issued s.
Proof. unfold _check_rate_limit. destruct (_ <? _); reflexivity. Qed.

(** After a retryable reply the turn goes on, or, from the third attempt
    on, returns [None]; one call was issued. *)
Lemma attempt_body_retryable attempt s :
  Wire.retryable (answer (server (issued s))) = true ->
  exists s',
    issued s' = S (issued s)
    /\ (attempt_body server attempt s = (Continue, s')
        \/ (2 <= attempt
            /\ attempt_body server attempt s = (Return (Returned None), s'))).
Proof.
  unfold attempt_body, Wire.retryable, retry_or_none.
  destruct (answer (server (issued s)))
    as [x_remaining x_reset body|code x_reset|].
  - destruct (int_header x_remaining 5000) as [n|];
      [destruct (int_header x_reset 0) as [rs|];
       [destruct body as [d|]; [discriminate|]|]|];
      intros _; destruct (Z.ltb_spec attempt 2);
      eexists; (split; [|first [left; reflexivity
                               | right; split; [lia | reflexivity]]]);
      reflexivity.
  - destruct (code =? 403).
    + destruct (int_header x_reset 0) as [rs|]; [|discriminate].
      intros _. eexists. split; [|left; reflexivity]. reflexivity.
    + destruct (code =? 404); [discriminate|].
      destruct (code =? 422); [discriminate|].
      intros _; destruct (Z.ltb_spec attempt 2);
        eexists; (split; [|first [left; reflexivity
                                 | right; split; [lia | reflexivity]]]);
        reflexivity.
  - intros _; destruct (Z.ltb_spec attempt 2);
      eexists; (split; [|first [left; reflexivity
                               | right; split; [lia | reflexivity]]]);
      reflexivity.
Qed.

(** Three calls that all meet a retryable reply: [get] returns [None]. *)
Lemma get_exhausted s :
  (forall k, (issued s <= k < issued s + 3)%nat ->
             Wire.retryable (answer (server k)) = true) ->
  get server s = (Returned None, snd (get server s))
  /\ issued (snd (get server s)) = (issued s + 3)%nat.
Proof.
  intros Hall. unfold get. change (range 3) with [0; 1; 2].
  pose proof (issued_check_rate_limit s) as H0.
  set (s0 := _check_rate_limit s) in *.
  cbn [attempts].
  destruct (attempt_body_retryable 0 s0) as (s1 & H1 & [E1|[? _]]);
    [apply Hall; lia | | lia].
  rewrite E1.
  destruct (attempt_body_retryable 1 s1) as (s2 & H2 & [E2|[? _]]);
    [apply Hall; lia | | lia].
  rewrite E2.
  destruct (attempt_body_retryable 2 s2) as (s3 & H3 & [E3|[_ E3]]);
    [apply Hall; lia | |]; rewrite E3; cbn [snd]; split; auto; lia.
Qed.

End RestClient.

(** ** The GraphQL helper *)

Section GraphqlHelper.
Import Graphql.

Context {data : Type}.
Variable server : nat -> @exchange data.
Variable draw : nat -> Z.

Lemma randint_1_4 raw : 1 <= randint 1 4 raw <= 4.
Proof.
  unfold randint. change (4 - 1 + 1) with 4.
  pose proof (Z.mod_pos_bound raw 4). lia.
Qed.

(** An attempt that meets a transient reply sleeps and goes on. *)
Lemma attempt_body_transient attempt s :
  Wire.transient (answer (server (posted s))) = true ->
  attempt_body server draw attempt s
  = (Continue,
     sleep (Wire.graphql_wait attempt (int_time (Wire.at_reply server draw s))
              (answer (server (posted s))))
       (Wire.at_reply server draw s)).
Proof.
  unfold attempt_body, Wire.at_reply, Wire.transient, Wire.graphql_wait.
  cbn [posted sleep].
  destruct (answer (server (posted s))) as [|code x_reset b];
    [reflexivity|].
  destruct (code =? 200) eqn:H200.
  - destruct b; try discriminate. reflexivity.
  - unfold transient_branch, wait_time.
    destruct (is_transient code); [|discriminate]. cbn [andb].
    destruct (is_rate_limit code), x_reset; try discriminate; reflexivity.
Qed.

Lemma attempt_body_posted attempt s :
  posted (snd (attempt_body server draw attempt s)) = S (posted s).
Proof.
  unfold attempt_body, transient_branch, wait_time. cbn [posted sleep].
  destruct (answer (server (posted s))) as [|code x_reset b];
    [reflexivity|].
  destruct (code =? 200), b, (is_transient code), (is_rate_limit code),
    x_reset; reflexivity.
Qed.

Lemma attempts_posted todo : forall s,
  (posted (snd (attempts server draw todo s))
   <= posted s + length todo)%nat.
Proof.
  induction todo as [|attempt todo IH]; intros s; cbn [attempts length].
  - simpl. lia.
  - pose proof (attempt_body_posted attempt s) as Hp.
    destruct (attempt_body server draw attempt s) as [[res|] s1];
      cbn [snd] in *.
    + lia.
    + specialize (IH s1). lia.
Qed.

Lemma attempts_transient todo : forall s,
  (forall k, (posted s <= k < posted s + length todo)%nat ->
             Wire.transient (answer (server k)) = true) ->
  fst (attempts server draw todo s) = Raised
  /\ posted (snd (attempts server draw todo s))
     = (posted s + length todo)%nat.
Proof.
  induction todo as [|attempt todo IH]; intros s Hall; cbn [attempts length].
  - simpl. split; [reflexivity | lia].
  - pose proof (attempt_body_posted attempt s) as Hp.
    assert (Wire.transient (answer (server (posted s))) = true) as Ht
      by (apply Hall; simpl; lia).
    rewrite (attempt_body_transient _ _ Ht) in *.
    cbn [snd] in Hp. set (s1 := sleep _ (Wire.at_reply server draw s)) in *.
    destruct (IH s1) as [E1 E2].
    { intros k Hk. apply Hall. simpl. lia. }
    split; [exact E1 | rewrite E2; lia].
Qed.

Lemma range_length n : length (range n) = Z.to_nat n.
Proof. unfold range. rewrite length_map, length_seq. reflexivity. Qed.

End GraphqlHelper.

(** ** Exhausted retries *)

Section Exhausted.

Variable rest : nat -> @GitHubAPI.exchange (list GitHubAPI.item).
Variable graphql : nat -> @Graphql.exchange unit.
Variable draw : nat -> Z.

(** C4, as the code has it.  When each of its three attempts meets a
    retryable reply, [GitHubAPI.get] returns [None] after exactly three
    calls and does not raise; [_count_issues_or_prs], which calls it, then
    counts zero items.  [runGraphqlRequest] ends differently: when each of
    its [max_retries] attempts meets a transient reply it raises. *)
Theorem retries_exhausted item_type until_date max_retries
    (s : GitHubAPI.state) (g : Graphql.state) :
  (forall k, (GitHubAPI.issued s <= k < GitHubAPI.issued s + 3)%nat ->
             Wire.retryable (GitHubAPI.answer (rest k)) = true) ->
  (forall k, (Graphql.posted g <= k
              < Graphql.posted g + Z.to_nat max_retries)%nat ->
             Wire.transient (Graphql.answer (graphql k)) = true) ->
  fst (GitHubAPI.get rest s) = Returned None
  /\ GitHubAPI.issued (snd (GitHubAPI.get rest s))
     = (GitHubAPI.issued s + 3)%nat
  /\ fst (GitHubAPI._count_issues_or_prs rest item_type until_date s)
     = Returned 0
  /\ fst (Graphql.runGraphqlRequest graphql draw max_retries g) = Raised
  /\ Graphql.posted
       (snd (Graphql.runGraphqlRequest graphql draw max_retries g))
     = (Graphql.posted g + Z.to_nat max_retries)%nat.
Proof.
  intros Hrest Hgql.
  destruct (get_exhausted rest s Hrest) as [Hget Hissued].
  split; [rewrite Hget; reflexivity|]. split; [exact Hissued|].
  split.
  - unfold GitHubAPI._count_issues_or_prs. cbn [GitHubAPI.pages].
    change (1 <=? 20) with true. cbv iota. rewrite Hget. reflexivity.
  - unfold Graphql.runGraphqlRequest.
    rewrite <- (range_length max_retries) in Hgql |- *.
    apply attempts_transient. exact Hgql.
Qed.

(** "Never raises" does not hold for the GraphQL helper: five answers 502
    and the call raises. *)
Lemma graphql_raises_when_exhausted :
  let out := Graphql.runGraphqlRequest Scenarios.graphql_502 (fun _ => 0) 5
               Scenarios.graphql_start in
  fst out = Raised /\ Graphql.posted (snd out) = 5%nat.
Proof. vm_compute. split; reflexivity. Qed.

End Exhausted.

(** ** Waits between attempts *)

Section Backoff.

Context {json data : Type}.
Variable rest : nat -> @GitHubAPI.exchange json.
Variable graphql : nat -> @Graphql.exchange data.
Variable draw : nat -> Z.

(** What one REST attempt adds to the trace after a retryable reply. *)
Lemma rest_attempt_trace attempt (s : GitHubAPI.state) :
  let x := rest (GitHubAPI.issued s) in
  let back := GitHubAPI.clock s + Z.of_N (GitHubAPI.latency x) in
  Wire.retryable (GitHubAPI.answer x) = true ->
  exists st s',
    GitHubAPI.attempt_body rest attempt s = (st, s')
    /\ GitHubAPI.trace s'
       = match Wire.rest_wait attempt back (GitHubAPI.answer x) with
         | Some w => [GitHubAPI.Sleep back w]
         | None => []
         end
         ++ GitHubAPI.Request (GitHubAPI.clock s) (GitHubAPI.remaining s)
              (GitHubAPI.reset_time s)
            :: GitHubAPI.trace s
    /\ st = match Wire.rest_wait attempt back (GitHubAPI.answer x) with
            | Some _ => GitHubAPI.Continue
            | None => GitHubAPI.Return (Returned None)
            end.
Proof.
  cbv zeta. unfold GitHubAPI.attempt_body, Wire.retryable, Wire.rest_wait,
    GitHubAPI.retry_or_none.
  destruct (GitHubAPI.answer (rest (GitHubAPI.issued s)))
    as [x_remaining x_reset body|code x_reset|].
  - destruct (int_header x_remaining 5000) as [n|];
      [destruct (int_header x_reset 0) as [rs|];
       [destruct body as [d|]; [discriminate|]|]|];
      intros _; destruct (attempt <? 2); eexists _, _;
      (split; [reflexivity|]); split; reflexivity.
  - destruct (code =? 403).
    + destruct (int_header x_reset 0) as [rs|]; [|discriminate].
      intros _. eexists _, _. split; [reflexivity|]. split; reflexivity.
    + destruct (code =? 404); [discriminate|].
      destruct (code =? 422); [discriminate|].
      intros _; destruct (attempt <? 2); eexists _, _;
        (split; [reflexivity|]); split; reflexivity.
  - intros _; destruct (attempt <? 2); eexists _, _;
      (split; [reflexivity|]); split; reflexivity.
Qed.

Lemma rest_attempts_issued todo : forall s,
  (GitHubAPI.issued (snd (GitHubAPI.attempts rest todo s))
   <= GitHubAPI.issued s + length todo)%nat.
Proof.
  induction todo as [|attempt todo IH]; intros s;
    cbn [GitHubAPI.attempts length]; [simpl; lia|].
  assert (GitHubAPI.issued (snd (GitHubAPI.attempt_body rest attempt s))
          = S (GitHubAPI.issued s)) as Hp.
  { unfold GitHubAPI.attempt_body, GitHubAPI.retry_or_none.
    destruct (GitHubAPI.answer _) as [x_remaining x_reset body|code x_reset|];
      [destruct (int_header x_remaining 5000);
       [destruct (int_header x_reset 0); [destruct body|]|]
      |destruct (code =? 403);
       [destruct (int_header x_reset 0)
       |destruct (code =? 404); [|destruct (code =? 422)]]
      |];
      try destruct (attempt <? 2); reflexivity. }
  destruct (GitHubAPI.attempt_body rest attempt s) as [[res|] s1];
    cbn [snd] in *; [lia|].
  specialize (IH s1). lia.
Qed.

(** C5, as the code has it.
    [runGraphqlRequest] does what the claim says: before each attempt it
    sleeps a random 1..4 s; after a transient reply it sleeps [2 ^ attempt]
    s (transport or GraphQL error) or [2 ^ (attempt + 2)] s (HTTP 403, 429,
    502, 503), except that a 403 or 429 with a reset header makes it sleep
    until the reset, no less than 10 s and no more than 300 s; it issues at
    most [max_retries] calls.
    [GitHubAPI.get] issues at most three calls, has no jitter and no
    ceiling: after a 403 it sleeps until the reset header's time plus 5 s,
    however far that is; after any other retryable reply it sleeps
    [5 * (attempt + 1)] s in the first two attempts and returns [None] in
    the third. *)
Theorem retry_waits attempt max_retries (g : Graphql.state)
    (s : GitHubAPI.state) :
  0 <= attempt ->
  Wire.transient (Graphql.answer (graphql (Graphql.posted g))) = true ->
  Wire.retryable (GitHubAPI.answer (rest (GitHubAPI.issued s))) = true ->
  (exists jitter wait g',
      Graphql.attempt_body graphql draw attempt g = (Graphql.Continue, g')
      /\ Graphql.trace g'
         = Graphql.Sleep (Graphql.clock (Wire.at_reply graphql draw g))
             (wait * US_PER_S)
           :: Graphql.Post (Graphql.clock g + jitter * US_PER_S)
           :: Graphql.Sleep (Graphql.clock g) (jitter * US_PER_S)
           :: Graphql.trace g
      /\ 1 <= jitter <= 4
      /\ wait = Wire.graphql_wait attempt
                  (Graphql.int_time (Wire.at_reply graphql draw g))
                  (Graphql.answer (graphql (Graphql.posted g)))
      /\ 1 <= wait
      /\ (forall code reset b,
            Graphql.answer (graphql (Graphql.posted g))
            = Graphql.Response code (IntValue reset) b ->
            Graphql.is_rate_limit code = true ->
            10 <= wait <= 300))
  /\ (Graphql.posted
       (snd (Graphql.runGraphqlRequest graphql draw max_retries g))
     <= Graphql.posted g + Z.to_nat max_retries)%nat
  /\ (exists st s',
        GitHubAPI.attempt_body rest attempt s = (st, s')
        /\ GitHubAPI.trace s'
           = match Wire.rest_wait attempt
                     (GitHubAPI.clock s
                      + Z.of_N (GitHubAPI.latency
                                  (rest (GitHubAPI.issued s))))
                     (GitHubAPI.answer (rest (GitHubAPI.issued s))) with
             | Some w =>
                 [GitHubAPI.Sleep
                    (GitHubAPI.clock s
                     + Z.of_N (GitHubAPI.latency
                                 (rest (GitHubAPI.issued s)))) w]
             | None => []
             end
             ++ GitHubAPI.Request (GitHubAPI.clock s)
                  (GitHubAPI.remaining s) (GitHubAPI.reset_time s)
                :: GitHubAPI.trace s)
  /\ (GitHubAPI.issued (snd (GitHubAPI.get rest s))
     <= GitHubAPI.issued s + 3)%nat.
Proof.
  intros Hattempt Hgql Hrest.
  split; [|split; [|split]].
  - exists (Graphql.randint 1 4 (draw (Graphql.posted g))).
    eexists _, _.
    split; [apply attempt_body_transient; exact Hgql|].
    split; [reflexivity|].
    split; [apply randint_1_4|].
    split; [reflexivity|].
    unfold Wire.graphql_wait, Wire.transient in *.
    assert (1 <= 2 ^ attempt) as Hp1
      by (pose proof (Z.pow_pos_nonneg 2 attempt); lia).
    assert (1 <= 2 ^ (attempt + 2)) as Hp2
      by (pose proof (Z.pow_pos_nonneg 2 (attempt + 2)); lia).
    destruct (Graphql.answer (graphql (Graphql.posted g)))
      as [|code x_reset b].
    + split; [exact Hp1 | discriminate].
    + destruct (code =? 200) eqn:H200.
      * split; [exact Hp1|]. intros c rs b' [= -> -> ->] Hrl.
        apply Z.eqb_eq in H200. subst c. discriminate.
      * destruct x_reset as [|reset|]; [split; [exact Hp2 | discriminate]| |
                                        split; [exact Hp2 | discriminate]].
        destruct (Graphql.is_rate_limit code) eqn:Hrl.
        -- split; [lia|]. intros; lia.
        -- split; [exact Hp2|]. intros c rs b' [= -> -> ->] Hrl'.
           congruence.
  - unfold Graphql.runGraphqlRequest.
    rewrite <- (range_length max_retries). apply attempts_posted.
  - destruct (rest_attempt_trace attempt s Hrest) as (st & s' & E & T & _).
    exists st, s'. split; [exact E | exact T].
  - unfold GitHubAPI.get. rewrite <- (issued_check_rate_limit s).
    apply (rest_attempts_issued (range 3)).
Qed.

  End Backoff.

(** The REST client has neither ceiling nor jitter: told by a 403 that the
    reset is an hour away it sleeps 3605 s, twelve times the 300 s at which
    the GraphQL helper stops, and after a 502 it sleeps exactly 5 s, then
    exactly 10 s. *)
Lemma rest_wait_uncapped :
  GitHubAPI.trace
    (snd (GitHubAPI.get Scenarios.rest_403 (GitHubAPI.init 0)))
  = [ GitHubAPI.Sleep 3610000000 (5 * US_PER_S);
      GitHubAPI.Request 3610000000 5000 0;
      GitHubAPI.Sleep 3605000000 (5 * US_PER_S);
      GitHubAPI.Request 3605000000 5000 0;
      GitHubAPI.Sleep 0 (3605 * US_PER_S);
      GitHubAPI.Request 0 5000 0 ]
  /\ 300 * US_PER_S < 3605 * US_PER_S
  /\ GitHubAPI.trace
       (snd (GitHubAPI.get Scenarios.rest_502 (GitHubAPI.init 0)))
     = [ GitHubAPI.Request 15500000 5000 0;
         GitHubAPI.Sleep 5500000 (10 * US_PER_S);
         GitHubAPI.Request 5250000 5000 0;
         GitHubAPI.Sleep 250000 (5 * US_PER_S);
         GitHubAPI.Request 0 5000 0 ].
Proof.
  split; [vm_compute; reflexivity|].
  split; [reflexivity | vm_compute; reflexivity].
Qed.

(** ** The tracked budget *)

Section Budget.
Import GitHubAPI Wire.

Context {json : Type}.
Variable server : nat -> @exchange json.

Lemma grows_trans s1 s2 s3 : grows s1 s2 -> grows s2 s3 -> grows s1 s3.
Proof.
  intros (e1 & T1 & R1 & C1 & B1) (e2 & T2 & R2 & C2 & B2).
  exists (e2 ++ e1). split; [rewrite T2, T1, app_assoc; reflexivity|].
  split; [|split; [lia | exact B2]].
  intros t b d Hin. apply elem_of_app in Hin as [Hin|Hin].
  - destruct (R2 _ _ _ Hin). split; [lia | assumption].
  - apply (R1 _ _ _ Hin).
Qed.

Lemma grows_sleep d s : 0 <= d -> 0 <= remaining s -> grows s (sleep d s).
Proof.
  intros Hd Hb. exists [Sleep (clock s) d]. split; [reflexivity|].
  split; [|split; [cbn [clock sleep]; lia | exact Hb]].
  intros t b d' Hin. apply elem_of_cons in Hin as [Heq|Hin];
    [discriminate | apply elem_of_nil in Hin; contradiction].
Qed.

Lemma grows_send l s : 0 <= remaining s -> grows s (send l s).
Proof.
  intros Hb. exists [Request (clock s) (remaining s) (reset_time s)].
  split; [reflexivity|].
  split; [|split; [cbn [clock send]; lia | exact Hb]].
  intros t b d' Hin. apply elem_of_cons in Hin as [[= -> -> ->]|Hin];
    [split; [lia | exact Hb] | apply elem_of_nil in Hin; contradiction].
Qed.

Lemma grows_refl s : 0 <= remaining s -> grows s s.
Proof.
  intros Hb. exists []. split; [reflexivity|].
  split; [|split; [lia | exact Hb]].
  intros t b d Hin. apply elem_of_nil in Hin. contradiction.
Qed.

(** Storing what the headers say keeps the trace and the clock. *)
Lemma grows_headers n r s :
  0 <= n -> 0 <= remaining s ->
  grows s (set_remaining n s)
  /\ grows s (count_request (set_reset_time r (set_remaining n s))).
Proof.
  intros Hn Hb.
  split; (exists []; split; [reflexivity|];
          split; [|split; [cbn; lia | exact Hn]];
          intros t b d Hin; apply elem_of_nil in Hin; contradiction).
Qed.

Lemma grows_retry_or_none attempt s st s' :
  0 <= attempt -> 0 <= remaining s ->
  @retry_or_none json attempt s = (st, s') -> grows s s'.
Proof.
  intros Ha Hb. unfold retry_or_none.
  destruct (attempt <? 2); intros [= _ <-];
    [apply grows_sleep; [unfold US_PER_S; lia | exact Hb]
    | apply grows_refl; exact Hb].
Qed.

Lemma grows_attempt_body attempt s st s' :
  Wire.reports_nonneg server ->
  0 <= attempt -> 0 <= remaining s ->
  attempt_body server attempt s = (st, s') -> grows s s'.
Proof.
  intros Hsrv Ha Hb. unfold attempt_body.
  set (x := server (issued s)).
  pose proof (grows_send (latency x) s Hb) as Hsend.
  set (s0 := send (latency x) s) in *.
  assert (0 <= remaining s0) as Hb0 by exact Hb.
  destruct (answer x) as [x_remaining x_reset body|code x_reset|] eqn:Hx.
  - assert (forall n, int_header x_remaining 5000 = Some n -> 0 <= n) as Hn.
    { destruct x_remaining as [|n'|]; simpl; intros n [= <-]; [lia|].
      eapply Hsrv. exact Hx. }
    destruct (int_header x_remaining 5000) as [n|];
      [|intros H; eapply grows_trans;
        [exact Hsend
        | eapply grows_retry_or_none; [exact Ha | exact Hb0 | exact H]]].
    specialize (Hn n eq_refl).
    destruct (grows_headers n 0 s0 Hn Hb0) as [G1 _].
    destruct (int_header x_reset 0) as [rs|].
    + destruct (grows_headers n rs s0 Hn Hb0) as [_ G2].
      destruct body as [d|].
      * intros [= _ <-].
        eapply grows_trans; [exact Hsend|].
        eapply grows_trans; [exact G2|].
        apply grows_sleep; [unfold REQUEST_DELAY; lia | exact Hn].
      * intros H. eapply grows_trans; [exact Hsend|].
        eapply grows_trans; [exact G2|].
        eapply grows_retry_or_none; [exact Ha | exact Hn | exact H].
    + intros H. eapply grows_trans; [exact Hsend|].
      eapply grows_trans; [exact G1|].
      eapply grows_retry_or_none; [exact Ha | exact Hn | exact H].
  - destruct (code =? 403).
    + destruct (int_header x_reset 0) as [rs|]; intros [= _ <-];
        [|exact Hsend].
      eapply grows_trans; [exact Hsend|].
      apply grows_sleep; [unfold US_PER_S; lia | exact Hb0].
    + destruct (code =? 404); [intros [= _ <-]; exact Hsend|].
      destruct (code =? 422); [intros [= _ <-]; exact Hsend|].
      intros H. eapply grows_trans; [exact Hsend|].
      eapply grows_retry_or_none; [exact Ha | exact Hb0 | exact H].
  - intros H. eapply grows_trans; [exact Hsend|].
    eapply grows_retry_or_none; [exact Ha | exact Hb0 | exact H].
Qed.

Lemma grows_attempts todo : forall s r s',
  Wire.reports_nonneg server ->
  Forall (fun attempt => 0 <= attempt) todo ->
  0 <= remaining s ->
  attempts server todo s = (r, s') -> grows s s'.
Proof.
  induction todo as [|attempt todo IH]; intros s r s' Hsrv Hall Hb;
    cbn [attempts].
  - intros [= _ <-]. apply grows_refl. exact Hb.
  - apply Forall_cons in Hall as [Ha Hall].
    destruct (attempt_body server attempt s) as [[res|] s1] eqn:Hbody;
      apply (grows_attempt_body _ _ _ _ Hsrv Ha Hb) in Hbody.
    + intros [= _ <-]. exact Hbody.
    + intros H. eapply grows_trans; [exact Hbody|].
      eapply IH; [exact Hsrv | exact Hall | | exact H].
      destruct Hbody as (_ & _ & _ & _ & Hb1). exact Hb1.
Qed.

(** C6, as the code has it.  If the server never reports a negative count,
    the tracked budget is never negative: not when [get] is left, and not
    when any of its calls leaves.  The budget is looked at once, on entry:
    if it is below 50, [get] first sleeps until the tracked reset time
    plus 5 s, so every call it then issues leaves at or after that
    moment. *)
Theorem budget_checked_on_entry s :
  Wire.reports_nonneg server ->
  0 <= remaining s ->
  let s' := snd (get server s) in
  0 <= remaining s'
  /\ (exists evs,
        trace s' = evs ++ trace s
        /\ forall t b d, Request t b d ∈ evs -> clock s <= t /\ 0 <= b)
  /\ (remaining s < 50 ->
      exists evs,
        trace s'
        = evs
          ++ Sleep (clock s)
               (Z.max 0 (reset_time s * US_PER_S - clock s) + 5 * US_PER_S)
             :: trace s
        /\ forall t b d,
             Request t b d ∈ evs ->
             reset_time s * US_PER_S + 5 * US_PER_S <= t).
Proof.
  intros Hsrv Hb. cbv zeta. unfold get.
  destruct (attempts server (range 3) (_check_rate_limit s)) as [r s'] eqn:H.
  cbn [snd].
  assert (0 <= remaining (_check_rate_limit s)) as Hb0
    by (unfold _check_rate_limit; destruct (_ <? _); exact Hb).
  apply grows_attempts in H; [| exact Hsrv | | exact Hb0];
    [|change (range 3) with [0; 1; 2]; repeat constructor; lia].
  assert (grows s (_check_rate_limit s)) as Hcheck.
  { unfold _check_rate_limit. destruct (_ <? _);
      [apply grows_sleep; [unfold US_PER_S; lia | exact Hb]
      | apply grows_refl; exact Hb]. }
  destruct (grows_trans _ _ _ Hcheck H) as (evs & T & R & _ & B).
  split; [exact B|]. split; [exists evs; split; [exact T | exact R]|].
  intros Hlow. destruct H as (evs' & T' & R' & _ & _).
  unfold _check_rate_limit in T', R'.
  destruct (Z.ltb_spec (remaining s) 50) as [_|Hge]; [|lia].
  exists evs'. split; [exact T'|].
  intros t b d Hin. destruct (R' _ _ _ Hin) as [Ht _].
  cbn [clock sleep] in Ht. lia.
Qed.

  End Budget.

(** The check is not repeated inside a call.  The first answer says, in its
    headers, that 10 calls remain until the reset an hour away, and its body
    cannot be read; the retry leaves 5 s later with a tracked budget of 10,
    an hour before the reset, after the ordinary 5 s pause. *)
Lemma retry_not_rechecked :
  GitHubAPI.trace
    (snd (GitHubAPI.get Scenarios.rest_truncated (GitHubAPI.init 0)))
  = [ GitHubAPI.Sleep 5000000 GitHubAPI.REQUEST_DELAY;
      GitHubAPI.Request 5000000 10 3600;
      GitHubAPI.Sleep 0 (5 * US_PER_S);
      GitHubAPI.Request 0 5000 0 ]
  /\ 10 < 50
  /\ 5000000 < 3600 * US_PER_S + 5 * US_PER_S.
Proof. split; [vm_compute; reflexivity | split; reflexivity]. Qed.

(** ** The statements at concrete inputs *)


Lemma snapshot_row_with_missing_parts_witness :
  let a := Scenarios.full_args 5 in
  let env := Scenarios.env2019 in
  let first := Dates.of_ymd 2019 1 1 in
  Dates.add_days first (1 * Pipeline.DAYS_PER_YEAR)
  = Some (Dates.of_ymd 2020 1 1)
  /\ Dates.of_ymd 2020 1 1 <= Pipeline.now env 1
  /\ Parser.tool (Pipeline.designite_run env 1) = Parser.TimeoutExpired
  /\ Pipeline.has_api a = true
  /\ Pipeline.social env 1 = Returned Scenarios.lone_author
  /\ exists row s',
       Pipeline.year_body a Scenarios.demo env first 1 (Observe.start env)
       = (Pipeline.Next, s')
       /\ Pipeline.results s' = [row]
       /\ (forall k, Observe.technical k = true -> row !! k = None)
       /\ (forall k, k ∈ Social.SOCIAL_KEYS ->
             row !! k = Social.to_dict Scenarios.lone_author !! k
             /\ is_Some (row !! k)).
Proof.
  cbv zeta.
  assert (Dates.of_ymd 2020 1 1 <= Pipeline.now Scenarios.env2019 1) as Hdue
    by (vm_compute; discriminate).
  split; [reflexivity|]. split; [exact Hdue|].
  split; [reflexivity|]. split; [reflexivity|]. split; [reflexivity|].
  destruct (snapshot_row_with_missing_parts (Scenarios.full_args 5)
              Scenarios.demo Scenarios.env2019 (Dates.of_ymd 2019 1 1) 1
              (Dates.of_ymd 2020 1 1) Scenarios.commit_sha
              (Observe.start Scenarios.env2019)
              eq_refl Hdue eq_refl eq_refl
              ltac:(discriminate) eq_refl)
    as (row & s' & Hbody & Hres & _ & Htech & _ & Hsoc & _).
  exists row, s'. split; [exact Hbody|]. split; [exact Hres|].
  split.
  - apply Htech. right. right. right. left. reflexivity.
  - apply (Hsoc eq_refl eq_refl Scenarios.lone_author eq_refl).
Defined.

Lemma retries_exhausted_witness :
  let s := GitHubAPI.init 0 in
  let g := Scenarios.graphql_start in
  (forall k, Wire.retryable (GitHubAPI.answer (Scenarios.rest_502 k)) = true)
  /\ (forall k,
        Wire.transient (Graphql.answer (Scenarios.graphql_502 k)) = true)
  /\ fst (GitHubAPI.get Scenarios.rest_502 s) = Returned None
  /\ fst (GitHubAPI._count_issues_or_prs Scenarios.rest_502 "issue"
            "2020-01-01" s) = Returned 0
  /\ fst (Graphql.runGraphqlRequest Scenarios.graphql_502 (fun _ => 0) 5 g)
     = Raised.
Proof.
  cbv zeta.
  destruct (retries_exhausted Scenarios.rest_502 Scenarios.graphql_502
              (fun _ => 0) "issue" "2020-01-01" 5 (GitHubAPI.init 0)
              Scenarios.graphql_start
              (fun _ _ => eq_refl) (fun _ _ => eq_refl))
    as (Hget & _ & Hcount & Hgql & _).
  split; [intros k; reflexivity|]. split; [intros k; reflexivity|].
  split; [exact Hget|]. split; [exact Hcount | exact Hgql].
Defined.

Lemma retry_waits_witness :
  let g := Scenarios.graphql_start in
  let s := GitHubAPI.init 0 in
  Wire.transient (Graphql.answer (Scenarios.graphql_502 (Graphql.posted g)))
  = true
  /\ Wire.retryable (GitHubAPI.answer (Scenarios.rest_403 (GitHubAPI.issued s)))
     = true
  /\ (exists jitter wait g',
        Graphql.attempt_body Scenarios.graphql_502 (fun _ => 0) 3 g
        = (Graphql.Continue, g')
        /\ 1 <= jitter <= 4
        /\ wait = 32)
  /\ (exists st s',
        GitHubAPI.attempt_body Scenarios.rest_403 3 s = (st, s')
        /\ GitHubAPI.trace s'
           = [ GitHubAPI.Sleep 0 (3605 * US_PER_S);
               GitHubAPI.Request 0 5000 0 ]).
Proof.
  cbv zeta.
  destruct (retry_waits Scenarios.rest_403 Scenarios.graphql_502 (fun _ => 0)
              3 5 Scenarios.graphql_start (GitHubAPI.init 0)
              ltac:(lia) eq_refl eq_refl)
    as ((jitter & wait & g' & Hbody & _ & Hj & Hw & _) & _
        & (st & s' & Hrest & Htrace) & _).
  split; [reflexivity|]. split; [reflexivity|]. split.
  - exists jitter, wait, g'. split; [exact Hbody|]. split; [exact Hj|].
    rewrite Hw. reflexivity.
  - exists st, s'. split; [exact Hrest | exact Htrace].
Defined.

Lemma budget_checked_on_entry_witness :
  let s := Scenarios.low_budget in
  let s' := snd (GitHubAPI.get Scenarios.rest_low s) in
  Wire.reports_nonneg Scenarios.rest_low
  /\ GitHubAPI.remaining s = 10
  /\ GitHubAPI.reset_time s = 3600
  /\ 0 <= GitHubAPI.remaining s'
  /\ exists evs,
       GitHubAPI.trace s'
       = evs ++ GitHubAPI.Sleep (GitHubAPI.clock s)
                  (Z.max 0 (3600 * US_PER_S - GitHubAPI.clock s)
                   + 5 * US_PER_S)
                :: GitHubAPI.trace s
       /\ forall t b d,
            GitHubAPI.Request t b d ∈ evs ->
            3600 * US_PER_S + 5 * US_PER_S <= t.
Proof.
  cbv zeta.
  assert (Wire.reports_nonneg Scenarios.rest_low) as Hsrv.
  { intros k n x_reset body H. injection H as <- _ _. lia. }
  destruct (budget_checked_on_entry Scenarios.rest_low Scenarios.low_budget
              Hsrv ltac:(vm_compute; discriminate))
    as (Hb & _ & Hwait).
  split; [exact Hsrv|]. split; [reflexivity|]. split; [reflexivity|].
  split; [exact Hb|].
  apply Hwait. reflexivity.
Defined.

(** * Further properties *)

(** ** More on the REST client *)

Section RestAny.
Import GitHubAPI.

Context {json : Type}.
Variable server : nat -> @exchange json.

(** X1.  A readable answer ends [get] at once: the data is returned, the
    tracked budget and reset time are those of the headers (5000 and 0 for
    a header that is absent), one more request is counted, and the client
    pauses [REQUEST_DELAY] before it returns. *)
Theorem get_success s x_remaining x_reset data :
  answer (server (issued s)) = Success x_remaining x_reset (Some data) ->
  x_remaining <> Malformed -> x_reset <> Malformed ->
  let s' := snd (get server s) in
  fst (get server s) = Returned (Some data)
  /\ remaining s' = match x_remaining with IntValue n => n | _ => 5000 end
  /\ reset_time s' = match x_reset with IntValue n => n | _ => 0 end
  /\ request_count s' = request_count s + 1
  /\ issued s' = S (issued s)
  /\ clock s'
     = clock (_check_rate_limit s) + Z.of_N (latency (server (issued s)))
       + REQUEST_DELAY.
Proof.
  intros Hans Hrem Hreset. cbv zeta.
  unfold get. change (range 3) with [0; 1; 2]. cbn [attempts].
  unfold attempt_body. rewrite issued_check_rate_limit, Hans.
  assert (request_count (_check_rate_limit s) = request_count s) as Hrc
    by (unfold _check_rate_limit; destruct (_ <? _); reflexivity).
  pose proof (issued_check_rate_limit s) as His.
  destruct x_remaining as [|n|], x_reset as [|r|]; try contradiction;
    cbn; rewrite Hrc, His; repeat split; reflexivity.
Qed.

(** One turn of the attempt loop issues one call and counts at most one
    request. *)
Lemma attempt_body_accounting attempt s :
  let s' := snd (attempt_body server attempt s) in
  issued s' = S (issued s)
  /\ request_count s <= request_count s' <= request_count s + 1.
Proof.
  cbv zeta. unfold attempt_body, retry_or_none.
  destruct (answer _) as [x_remaining x_reset body|code x_reset|];
    [destruct (int_header x_remaining 5000);
     [destruct (int_header x_reset 0); [destruct body|]|]
    |destruct (code =? 403);
     [destruct (int_header x_reset 0)
     |destruct (code =? 404); [|destruct (code =? 422)]]
    |];
    try destruct (attempt <? 2); cbn; split; lia.
Qed.

Lemma attempts_accounting todo : forall s,
  let s' := snd (attempts server todo s) in
  (issued s <= issued s' <= issued s + length todo)%nat
  /\ (todo <> [] -> (issued s < issued s')%nat)
  /\ request_count s <= request_count s'
     <= request_count s + Z.of_nat (issued s' - issued s).
Proof.
  induction todo as [|attempt todo IH]; intros s; cbv zeta;
    cbn [attempts length].
  - cbn [snd]. split; [lia|]. split; [congruence | lia].
  - pose proof (attempt_body_accounting attempt s) as [Hi Hr].
    destruct (attempt_body server attempt s) as [[res|] s1]; cbn [snd] in *.
    + split; [lia|]. split; [intros _; lia | lia].
    + destruct (IH s1) as (Hi1 & _ & Hr1).
      split; [lia|]. split; [intros _; lia | lia].
Qed.

Lemma get_calls s :
  let s' := snd (get server s) in
  (issued s < issued s' <= issued s + 3)%nat
  /\ request_count s <= request_count s'
     <= request_count s + Z.of_nat (issued s' - issued s).
Proof.
  cbv zeta. unfold get.
  destruct (attempts_accounting (range 3) (_check_rate_limit s))
    as (Hi & Hpos & Hr).
  rewrite issued_check_rate_limit in *.
  assert (request_count (_check_rate_limit s) = request_count s) as Hrc
    by (unfold _check_rate_limit; destruct (_ <? _); reflexivity).
  rewrite Hrc in Hr.
  change (length (range 3)) with 3%nat in Hi.
  specialize (Hpos ltac:(discriminate)).
  split; [lia | exact Hr].
Qed.

(** X2.  Whatever the server answers, one [get] issues at least one call and
    at most three, and [request_count], which the end-of-run summary prints,
    grows by no more than the number of calls issued: it counts the answers
    whose headers were read, not the calls. *)
Theorem get_accounting s :
  let s' := snd (get server s) in
  (issued s < issued s' <= issued s + 3)%nat
  /\ request_count s <= request_count s'
     <= request_count s + Z.of_nat (issued s' - issued s).
Proof. exact (get_calls s). Qed.

End RestAny.

(** ** [get_paginated] *)

Section PaginatedFacts.
Import GitHubAPI.

Context {A : Type}.
Variable server : nat -> @exchange (list A).

Lemma turns_calls todo : forall all_items s,
  (issued (snd (Paginated.turns server todo all_items s))
   <= issued s + 3 * length todo)%nat.
Proof.
  induction todo as [|page todo IH]; intros all_items s;
    cbn [Paginated.turns length]; [cbn [snd]; lia|].
  pose proof (get_calls server s) as [Hi _]. cbv zeta in Hi.
  destruct (get server s) as [[[[|x data]|]| |] s1]; cbn [fst snd] in *;
    try lia.
  destruct (Z.of_nat (length (x :: data)) <? 100); [cbn [snd]; lia|].
  specialize (IH (all_items ++ x :: data) s1). lia.
Qed.

(** X3.  [get_paginated] issues at most three calls for each of its
    [max_pages] pages; with [max_pages] of zero or less it returns the empty
    list without calling at all; and when the first page cannot be had
    ([get] returns [None]) it returns the empty list instead of raising. *)
Theorem get_paginated_bounded max_pages s :
  (issued (snd (Paginated.get_paginated server max_pages s))
   <= issued s + 3 * Z.to_nat max_pages)%nat
  /\ (max_pages <= 0 ->
      Paginated.get_paginated server max_pages s = (Returned [], s))
  /\ (fst (get server s) = Returned None ->
      fst (Paginated.get_paginated server max_pages s) = Returned []).
Proof.
  unfold Paginated.get_paginated. split; [|split].
  - pose proof (turns_calls (range_from 1 (max_pages + 1)) [] s) as H.
    rewrite range_from_length in H.
    replace (Z.to_nat (max_pages + 1 - 1)) with (Z.to_nat max_pages) in H
      by lia.
    exact H.
  - intros Hle. unfold range_from.
    replace (Z.to_nat (max_pages + 1 - 1)) with 0%nat by lia. reflexivity.
  - intros Hnone.
    destruct (range_from 1 (max_pages + 1)) as [|page rest];
      [reflexivity|].
    cbn [Paginated.turns].
    destruct (get server s) as [[[d|]| |] s1]; cbn [fst] in Hnone;
      try discriminate.
    reflexivity.
Qed.

End PaginatedFacts.

Section RestItems.
Import GitHubAPI.

Variable server : nat -> @exchange (list item).

(** X4.  A 404 or a 422 is final: [get] returns [None] after that single
    call, with no pause and no second attempt, and
    [_count_issues_or_prs] counts zero items after that one call. *)
Theorem get_definitive_absence s code x_reset item_type until_date :
  answer (server (issued s)) = HTTPError code x_reset ->
  code = 404 \/ code = 422 ->
  get server s
  = (Returned None, send (latency (server (issued s))) (_check_rate_limit s))
  /\ _count_issues_or_prs server item_type until_date s
     = (Returned 0,
        send (latency (server (issued s))) (_check_rate_limit s)).
Proof.
  intros Hans Hcode.
  assert (get server s
          = (Returned None,
             send (latency (server (issued s))) (_check_rate_limit s)))
    as Hget.
  { unfold get. change (range 3) with [0; 1; 2]. cbn [attempts].
    unfold attempt_body. rewrite issued_check_rate_limit, Hans.
    destruct Hcode as [-> | ->]; reflexivity. }
  split; [exact Hget|].
  unfold _count_issues_or_prs. cbn [pages].
  change (1 <=? 20) with true. cbv iota. rewrite Hget. reflexivity.
Qed.

(** Every item kept by the page loop was wanted. *)
Lemma scan_page_wanted item_type until_date data : forall all_items,
  Forall (fun it => Survey.wanted item_type until_date it = true) all_items ->
  Forall (fun it => Survey.wanted item_type until_date it = true)
    (fst (scan_page item_type until_date data all_items)).
Proof.
  induction data as [|it data IH]; intros all_items Hall; cbn [scan_page];
    [exact Hall|].
  destruct (String.ltb until_date (take_chars 10 (created_at it))) eqn:Hlate;
    [exact Hall|].
  apply IH.
  destruct ((String.eqb item_type "pr" && pull_request it)
            || (String.eqb item_type "issue" && negb (pull_request it)))
    eqn:Hkind; [|exact Hall].
  apply Forall_app. split; [exact Hall|].
  apply Forall_singleton. unfold Survey.wanted. rewrite Hlate, Hkind.
  reflexivity.
Qed.

Lemma pages_wanted item_type until_date max_pages fuel :
  forall page all_items s,
  Forall (fun it => Survey.wanted item_type until_date it = true) all_items ->
  match fst (pages server fuel item_type until_date page max_pages
               all_items s) with
  | Returned items =>
      Forall (fun it => Survey.wanted item_type until_date it = true) items
  | _ => True
  end
  /\ (issued (snd (pages server fuel item_type until_date page max_pages
                     all_items s))
      <= issued s + 3 * fuel)%nat.
Proof.
  induction fuel as [|fuel IH]; intros page all_items s Hall; cbn [pages].
  - cbn [fst snd]. split; [exact Hall | lia].
  - destruct (page <=? max_pages); [|cbn [fst snd]; split; [exact Hall | lia]].
    pose proof (get_calls server s) as [Hi _]. cbv zeta in Hi.
    destruct (get server s) as [[[[|it data]|]| |] s1]; cbn [fst snd] in *;
      try (split; [first [exact Hall | exact I] | lia]).
    pose proof (scan_page_wanted item_type until_date (it :: data)
                  all_items Hall) as Hscan.
    destruct (scan_page item_type until_date (it :: data) all_items)
      as [kept passed].
    cbn [fst] in Hscan.
    destruct (Z.of_nat (length (it :: data)) <? 100);
      [cbn [fst snd]; split; [exact Hscan | lia]|].
    destruct (IH ((if passed then max_pages + 1 else page) + 1) kept s1 Hscan)
      as [Hw Hb].
    split; [exact Hw | lia].
Qed.

(** X5.  [_count_issues_or_prs] only keeps what was asked for: every item
    it counts was created on the cut-off day or before and is a pull request
    when ["pr"] is asked, an issue when ["issue"] is asked; for any other
    item type it counts nothing.  It issues at most 60 calls (20 pages of at
    most three attempts). *)
Theorem count_issues_or_prs_kept item_type until_date s :
  let out := pages server 20 item_type until_date 1 20 [] s in
  match fst out with
  | Returned items =>
      Forall (fun it => Survey.wanted item_type until_date it = true) items
      /\ fst (_count_issues_or_prs server item_type until_date s)
         = Returned (Z.of_nat (length items))
      /\ (item_type <> "pr"%string -> item_type <> "issue"%string ->
          items = [])
  | _ => True
  end
  /\ (issued (snd out) <= issued s + 60)%nat.
Proof.
  cbv zeta.
  destruct (pages_wanted item_type until_date 20 20 1 [] s (Forall_nil_2 _))
    as [Hw Hb].
  split; [|exact Hb].
  unfold _count_issues_or_prs.
  destruct (pages server 20 item_type until_date 1 20 [] s)
    as [[items| |] s1]; cbn [fst] in *; try exact I.
  split; [exact Hw|]. split; [reflexivity|].
  intros Hpr Hissue.
  destruct items as [|it items]; [reflexivity|].
  apply Forall_cons in Hw as [Hit _]. unfold Survey.wanted in Hit.
  apply String.eqb_neq in Hpr, Hissue. rewrite Hpr, Hissue in Hit.
  cbn [andb orb] in Hit. rewrite andb_false_r in Hit. discriminate.
Qed.

End RestItems.

(** ** More on the GraphQL helper *)

Section GraphqlMore.
Import Graphql.

Context {data : Type}.
Variable server : nat -> @exchange data.
Variable draw : nat -> Z.

(** X6.  With [max_retries] of zero or less [runGraphqlRequest] sends
    nothing and raises at once. *)
Theorem graphql_no_attempt max_retries g :
  max_retries <= 0 ->
  runGraphqlRequest server draw max_retries g = (Raised, g).
Proof.
  intros Hle. unfold runGraphqlRequest, range.
  replace (Z.to_nat max_retries) with 0%nat by lia. reflexivity.
Qed.

(** X7.  A status that is neither 200 nor one of 403, 429, 502, 503 is not
    retried: whatever attempts remain, the call raises after the random
    pause and that single request, without a further wait. *)
Theorem graphql_fatal_status max_retries g code x_reset b :
  1 <= max_retries ->
  answer (server (posted g)) = Response code x_reset b ->
  code <> 200 -> is_transient code = false ->
  runGraphqlRequest server draw max_retries g
  = (Raised, Wire.at_reply server draw g).
Proof.
  intros Hmax Hans H200 Htr. unfold runGraphqlRequest, range.
  destruct (Z.to_nat max_retries) as [|n] eqn:Hn; [lia|].
  cbn [seq map attempts]. unfold attempt_body. cbn [posted sleep].
  rewrite Hans.
  apply Z.eqb_neq in H200. rewrite H200.
  unfold transient_branch. rewrite Htr. reflexivity.
Qed.

Lemma attempts_succeed k d : forall todo g,
  Survey.succeeds_after server (posted g) k d ->
  (k < length todo)%nat ->
  fst (attempts server draw todo g) = Returned d
  /\ posted (snd (attempts server draw todo g)) = (posted g + k + 1)%nat.
Proof.
  induction k as [|k IH]; intros todo g [Htrans (code & x_reset & Hans & ->)]
    Hlen; (destruct todo as [|attempt todo]; [simpl in Hlen; lia|]);
    cbn [attempts].
  - rewrite Nat.add_0_r in Hans.
    unfold attempt_body. cbn [posted sleep]. rewrite Hans.
    cbn. split; [reflexivity | lia].
  - rewrite attempt_body_transient by (apply Htrans; lia).
    set (g1 := sleep _ (Wire.at_reply server draw g)).
    assert (posted g1 = S (posted g)) as Hp by reflexivity.
    destruct (IH todo g1) as [Hres Hposted].
    + split.
      * intros j Hj. apply Htrans. lia.
      * exists 200, x_reset. split; [|reflexivity].
        rewrite Hp. replace (S (posted g) + k)%nat with (posted g + S k)%nat
          by lia. exact Hans.
    + simpl in Hlen. lia.
    + split; [exact Hres | rewrite Hposted, Hp; lia].
Qed.

(** X8.  Retrying pays off: when [k] transient answers are followed by an
    answer 200 with data, and [k] is below [max_retries], the call returns
    that data after [k + 1] requests. *)
Theorem graphql_succeeds_after_retries max_retries g k d :
  Survey.succeeds_after server (posted g) k d ->
  Z.of_nat k < max_retries ->
  fst (runGraphqlRequest server draw max_retries g) = Returned d
  /\ posted (snd (runGraphqlRequest server draw max_retries g))
     = (posted g + k + 1)%nat.
Proof.
  intros Hok Hk. unfold runGraphqlRequest.
  apply attempts_succeed; [exact Hok|].
  rewrite range_length. lia.
Qed.

End GraphqlMore.

(** ** More on the checkouts *)

Section GitMore.

(** X9.  The third candidate of [checkout_default] in
    08b_run_designite_temporal.py, [HEAD], restores nothing: when neither
    [main] nor [master] can be checked out, checking out [HEAD] exits with
    0 and does not move the tree, so the function reports success and the
    working tree is exactly where it was, while [checkout_default_branch]
    of 08_temporal_extraction.py reports the failure. *)
Theorem checkout_default_head_fallback resolve h :
  resolve "main"%string = Git.Fails -> resolve "master"%string = Git.Fails ->
  resolve "HEAD"%string = Git.KeepsHead ->
  Git.checkout_default resolve h = (true, h)
  /\ Git.checkout_default_branch resolve h = (false, h).
Proof.
  intros Hmain Hmaster Hhead.
  unfold Git.checkout_default, Git.checkout_default_branch,
    Git.DEFAULT_BRANCHES.
  cbn [Git.try_branches]. unfold Git.checkout_ref.
  rewrite Hmain, Hmaster, Hhead. split; reflexivity.
Qed.

(** X10.  Restoring twice is restoring once: a second
    [checkout_default_branch] right after the first gives the same answer
    and leaves the tree where the first left it. *)
Theorem checkout_default_branch_idempotent resolve h :
  Git.checkout_default_branch resolve
    (snd (Git.checkout_default_branch resolve h))
  = Git.checkout_default_branch resolve h.
Proof.
  rewrite !checkout_default_branch_cases. unfold Git.checkout_ref.
  destruct (resolve "main"%string), (resolve "master"%string); reflexivity.
Qed.

End GitMore.

(** ** The community smell indicators *)

Section Indicators.
Import Social.

Lemma above_mono bf x y :
  (x <= y)%Q -> above bf y = true -> above bf x = true.
Proof.
  unfold above. destruct bf as [q|]; [|discriminate].
  intros Hxy Hy. apply negb_true_iff in Hy. apply negb_true_iff.
  destruct (Qle_bool q x) eqn:Hqx; [|reflexivity].
  apply Qle_bool_iff in Hqx.
  assert (Qle_bool q y = true) as Hqy
    by (apply Qle_bool_iff; eapply Qle_trans; eassumption).
  congruence.
Qed.

(** X11.  The indicators are four flags, 0 or 1.  [org_silo] is always 0.
    Without a bus factor neither [lone_wolf] nor [org_silo_proxy] is set.
    [lone_wolf] (bus factor above 0.9) with five authors or more implies
    [org_silo_proxy] (bus factor above 0.7).  [radio_silence] is set exactly
    when there is neither a pull request nor an issue. *)
Theorem indicators_shape m :
  let ind := compute_community_smell_indicators m in
  (forall k v, ind !! k = Some v -> v = VInt 0 \/ v = VInt 1)
  /\ ind !! "org_silo"%string = Some (VInt 0)
  /\ (bus_factor_number m = None ->
      ind !! "lone_wolf"%string = Some (VInt 0)
      /\ ind !! "org_silo_proxy"%string = Some (VInt 0))
  /\ (ind !! "lone_wolf"%string = Some (VInt 1) -> 5 <= author_count m ->
      ind !! "org_silo_proxy"%string = Some (VInt 1))
  /\ (ind !! "radio_silence"%string = Some (VInt 1)
      <-> pr_count m = 0 /\ issue_count m = 0).
Proof.
  cbv zeta. unfold compute_community_smell_indicators.
  split; [|split; [reflexivity|split; [|split]]].
  - intros k v Hk.
    apply lookup_insert_Some in Hk as [[_ <-]|[_ Hk]];
      [unfold flag; destruct (above _ _); auto|].
    apply lookup_insert_Some in Hk as [[_ <-]|[_ Hk]];
      [unfold flag; destruct (_ && _); auto|].
    apply lookup_insert_Some in Hk as [[_ <-]|[_ Hk]]; [auto|].
    apply lookup_singleton_Some in Hk as [_ <-].
    unfold flag; destruct (_ && _); auto.
  - intros Hbf. rewrite Hbf. cbn [above]. rewrite andb_false_r.
    split; reflexivity.
  - intros Hlone Hauthors.
    assert (above (bus_factor_number m) (9 # 10) = true) as Hab.
    { destruct (above (bus_factor_number m) (9 # 10)) eqn:E; [reflexivity|].
      rewrite lookup_insert_eq in Hlone. cbn in Hlone. discriminate. }
    apply (above_mono _ (7 # 10)) in Hab; [|unfold Qle; simpl; lia].
    assert ((5 <=? author_count m) = true) as Hfive by (apply Z.leb_le; lia).
    rewrite !lookup_insert_ne by discriminate.
    rewrite lookup_singleton_eq, Hfive, Hab. reflexivity.
  - rewrite lookup_insert_ne, lookup_insert_eq by discriminate.
    unfold flag. split.
    + destruct (pr_count m =? 0) eqn:Hp, (issue_count m =? 0) eqn:Hi;
        cbn; try discriminate.
      intros _. split; apply Z.eqb_eq; assumption.
    + intros [-> ->]. reflexivity.
Qed.

End Indicators.

(** ** More on the result parsers *)

Section ParserMore.
Import Csv Observe.

(** X12.  The three totals of [_parse_results] count data rows: the design
    total is the number of rows of designCodeSmells.csv, the implementation
    total that of implementationCodeSmells.csv, a missing or unreadable
    file counting 0, and the code total is their sum. *)
Theorem parse_results_totals design impl :
  let m := Parser._parse_results design impl in
  m !! "total_design_smells"%string = Some (table_size design)
  /\ m !! "total_impl_smells"%string = Some (table_size impl)
  /\ m !! "total_code_smells"%string
     = Some (table_size design + table_size impl)
  /\ (design = Missing \/ design = Broken -> table_size design = 0).
Proof.
  cbv zeta.
  split; [apply parse_results_design_total|].
  split; [apply parse_results_impl_total|].
  split; [apply parse_results_code_total|].
  intros [-> | ->]; reflexivity.
Qed.

(** Writing over a key outside the prefix leaves the sum alone. *)
Lemma sum_with_prefix_insert_other p k v (m : gmap string Z) :
  String.prefix p k = false ->
  sum_with_prefix p (<[k := v]> m) = sum_with_prefix p m.
Proof.
  intros Hk.
  rewrite <- (insert_delete_eq m k v).
  rewrite sum_with_prefix_insert by apply lookup_delete_eq.
  rewrite Hk.
  destruct (m !! k) as [v0|] eqn:Hm.
  - rewrite <- (insert_delete_id m k v0 Hm) at 2.
    rewrite sum_with_prefix_insert by apply lookup_delete_eq.
    rewrite Hk. reflexivity.
  - rewrite delete_id by exact Hm. lia.
Qed.

(** With every cell present, storing under the raw names is storing under
    the names with their spaces replaced. *)
Lemma store_counts_named pre (names : list (string * Z)) :
  forall m : gmap string Z,
  Parser.store_counts pre (map (fun kv => (Some kv.1, kv.2)) names) m
  = Parser08b.store_counts pre
      (map (fun kv => (replace_spaces kv.1, kv.2)) names) m.
Proof.
  induction names as [|[k v] names IH]; intros m; [reflexivity|].
  cbn [map Parser.store_counts Parser08b.store_counts fst snd].
  apply IH.
Qed.

Lemma sum_values_named (names : list (string * Z)) :
  sum_values (map (fun kv => (replace_spaces kv.1, kv.2)) names)
  = sum_values (map (fun kv => (Some kv.1, kv.2)) names).
Proof.
  unfold sum_values.
  induction names as [|[k v] names IH]; [reflexivity|].
  cbn [map foldr fst snd]. rewrite IH. reflexivity.
Qed.

Lemma parse_file_sums column total pre f (m : gmap string Z) :
  Survey.distinct_names column f ->
  String.prefix pre total = false ->
  (forall x, m !! (pre +:+ x) = None) ->
  (forall x, total <> pre +:+ x) ->
  sum_with_prefix pre (Parser.parse_file column total pre f m)
  = table_size f + sum_with_prefix pre m
  /\ (forall p, (forall x, String.prefix p (pre +:+ x) = false) ->
                String.prefix p total = false ->
                sum_with_prefix p (Parser.parse_file column total pre f m)
                = sum_with_prefix p m).
Proof.
  intros Hnames Htotal Hfresh Hne.
  destruct f as [| |rows]; cbn [Parser.parse_file table_size];
    try (split; [lia | intros; reflexivity]).
  destruct Hnames as (names & Hcount & Hnd).
  pose proof (count_rows_sum column rows) as Hsum.
  rewrite Hcount in *. rewrite store_counts_named.
  set (named := map (fun kv => (replace_spaces kv.1, kv.2)) names).
  assert (NoDup named.*1) as Hnd'.
  { unfold named. rewrite <- list_fmap_compose. exact Hnd. }
  assert (forall x, (<[total := sum_values
                                  (map (fun kv => (Some kv.1, kv.2)) names)]>
                       m) !! (pre +:+ x) = None) as Hfresh'.
  { intros x. rewrite lookup_insert_ne by apply Hne. apply Hfresh. }
  split.
  - rewrite store_counts08b_sum by auto.
    rewrite stored_sum_same, sum_with_prefix_insert_other by exact Htotal.
    unfold named. rewrite sum_values_named, Hsum. reflexivity.
  - intros p Hdis Hp. rewrite store_counts08b_sum by auto.
    rewrite stored_sum_disjoint by exact Hdis.
    rewrite sum_with_prefix_insert_other by exact Hp. lia.
Qed.

(** X13.  When the names of each file do not collide (no missing cell, no
    two names equal up to spaces), [_parse_results] keeps the sums: the
    [design_*] entries add up to [total_design_smells] and the [impl_*]
    entries to [total_impl_smells]. *)
Theorem parse_results_sums_when_distinct design impl :
  Survey.distinct_names "Design Smell" design ->
  Survey.distinct_names "Implementation Smell" impl ->
  let m := Parser._parse_results design impl in
  sum_with_prefix "design_" m = table_size design
  /\ sum_with_prefix "impl_" m = table_size impl
  /\ m !! "total_design_smells"%string = Some (table_size design)
  /\ m !! "total_impl_smells"%string = Some (table_size impl).
Proof.
  intros Hd Hi. cbv zeta.
  split; [|split; [|split; [apply parse_results_design_total
                           |apply parse_results_impl_total]]];
    unfold Parser._parse_results;
    set (init := ({[ "total_design_smells"%string := 0;
                     "total_impl_smells"%string := 0;
                     "total_code_smells"%string := 0 ]} : gmap string Z));
    set (m1 := Parser.parse_file "Design Smell" "total_design_smells"
                 "design_" design init);
    assert (forall x, init !! ("design_" +:+ x) = None) as Hf1
      by (intros x; reflexivity);
    assert (forall x, m1 !! ("impl_" +:+ x) = None) as Hf2
      by (intros x; unfold m1;
          rewrite parse_file_other by (intros; discriminate); reflexivity);
    destruct (parse_file_sums "Design Smell" "total_design_smells" "design_"
                design init Hd eq_refl Hf1 ltac:(intros; discriminate))
      as [Hd1 Hd2];
    destruct (parse_file_sums "Implementation Smell" "total_impl_smells"
                "impl_" impl m1 Hi eq_refl Hf2 ltac:(intros; discriminate))
      as [Hi1 Hi2];
    fold m1 in Hd1, Hd2;
    rewrite sum_with_prefix_insert_other by reflexivity.
  - rewrite Hi2 by (intros; reflexivity). rewrite Hd1.
    change (sum_with_prefix "design_" init) with 0. lia.
  - rewrite Hi1. rewrite Hd2 by (intros; reflexivity).
    change (sum_with_prefix "impl_" init) with 0. lia.
Qed.

(** X14.  [run_designite] of 08b_run_designite_temporal.py: a time-out or a
    tool that cannot be started gives the empty mapping, without totals;
    when the tool exits, the mapping has the three totals, the code total
    is the sum of the other two, and each of these is the sum of the
    entries under its prefix, whatever the names in the files. *)
Theorem run_designite_identities inv :
  Parser.makedirs_ok inv = true ->
  match Parser.tool inv with
  | Parser.Exited _ =>
      exists (m : gmap string Z) d i,
        Parser08b.run_designite inv = Returned m
        /\ m !! "total_design_smells"%string = Some d
        /\ m !! "total_impl_smells"%string = Some i
        /\ m !! "total_code_smells"%string = Some (d + i)
        /\ sum_with_prefix "design_" m = d
        /\ sum_with_prefix "impl_" m = i
  | Parser.KeyboardInterrupt => Parser08b.run_designite inv = Interrupted
  | _ => Parser08b.run_designite inv = Returned ∅
  end.
Proof.
  intros Hmk. destruct (Parser.tool inv) as [code| | |] eqn:Htool;
    try (unfold Parser08b.run_designite; rewrite Hmk, Htool; reflexivity).
  eapply run_designite_sums; eassumption.
Qed.

End ParserMore.

(** ** More on [process_repo] and [run] *)

Section PipelineMore.
Import Pipeline Observe.

Variable a : args.

Lemma range_from_cons m :
  1 <= m -> range_from 1 (m + 1) = 1 :: range_from 2 (m + 1).
Proof.
  intros Hm. unfold range_from.
  replace (Z.to_nat (m + 1 - 1)) with (S (Z.to_nat (m + 1 - 2))) by lia.
  cbn [seq map]. f_equal.
  rewrite <- seq_shift, map_map.
  apply map_ext. intros i. lia.
Qed.

(** X15.  An exception of [DesigniteRunner.run] leaves the clone on the
    snapshot commit.  When the first year is due, the checkout of its
    commit detaches the tree on it and the output directory of the tool
    cannot be created, [process_repo] raises right after the checkout: no
    restore is attempted, and the working tree stays detached on that
    commit. *)
Theorem process_repo_raise_leaves_detached r env dir first t c c' :
  has_designite a = true -> dry_run a = false ->
  clone env = Some dir -> get_first_commit_date env = Some first ->
  1 <= max_years a ->
  Dates.add_days first (1 * DAYS_PER_YEAR) = Some t -> t <= now env 1 ->
  last_commit_before env (Dates.strftime_ymd t) = Some c ->
  resolve env c = Git.IsCommit c' ->
  Parser.makedirs_ok (designite_run env 1) = false ->
  exists s',
    process_repo a r env = (Raised, s')
    /\ head s' = Git.Detached c'
    /\ events s' = [Designite 1; Checkout c true; Year 1 t].
Proof.
  intros Hd Hdry Hclone Hfirst Hmax Hadd Hdue Hc Hco Hmk.
  unfold process_repo. rewrite Hclone, Hfirst.
  rewrite (range_from_cons _ Hmax). cbn [years].
  unfold year_body. rewrite Hadd.
  destruct (Z.ltb_spec (now env 1) t) as [Hlt|_]; [lia|].
  rewrite Hc. unfold designite_step. rewrite Hd, Hdry. cbn [negb andb].
  unfold checkout, Git.checkout, Git.checkout_ref. rewrite Hco.
  unfold Parser.run. rewrite Hmk.
  eexists. split; [reflexivity|]. split; reflexivity.
Qed.



(** X17.  A dry run touches neither the working tree, nor the tool, nor
    the API: the turn of a due year with a commit only logs the year and
    appends a row made of the identity fields and the commit count. *)
Theorem dry_run_row r env first n t c s :
  dry_run a = true ->
  Dates.add_days first (n * DAYS_PER_YEAR) = Some t -> t <= now env n ->
  last_commit_before env (Dates.strftime_ymd t) = Some c ->
  exists s',
    year_body a r env first n s = (Next, s')
    /\ results s'
       = results s
         ++ [ <["commit_count"%string := VInt (commit_count_until env n)]>
                (year_result r n t first c) ]
    /\ events s' = Year n t :: events s
    /\ head s' = head s.
Proof.
  intros Hdry Hadd Hdue Hc. unfold year_body. rewrite Hadd.
  destruct (Z.ltb_spec (now env n) t) as [Hlt|_]; [lia|].
  rewrite Hc. unfold designite_step, social_step. rewrite Hdry.
  rewrite !andb_false_r.
  eexists. split; [reflexivity|]. cbn [results events head append log].
  split; [|split; reflexivity].
  unfold update. rewrite <- insert_union_singleton_l. reflexivity.
Qed.

Variable env : nat -> repo_env.




End PipelineMore.

(** ** The columns of the tables *)

Section ColumnFacts.
Import Columns.

Lemma insert_sorted_perm x l : insert_sorted x l ≡ₚ x :: l.
Proof.
  induction l as [|y l IH]; cbn [insert_sorted]; [reflexivity|].
  destruct (String.leb x y); [reflexivity|].
  rewrite IH. apply Permutation_swap.
Qed.

Lemma sorted_perm l : sorted l ≡ₚ l.
Proof.
  induction l as [|x l IH]; [reflexivity|].
  cbn [sorted foldr]. fold (sorted l).
  rewrite insert_sorted_perm, IH. reflexivity.
Qed.

Lemma insert_sorted_Sorted x l :
  Sorted in_order l -> Sorted in_order (insert_sorted x l).
Proof.
  induction 1 as [|y l Hs IH Hhd]; cbn [insert_sorted].
  - repeat constructor.
  - destruct (String.leb x y) eqn:Hxy.
    + constructor; [constructor; assumption|]. constructor. exact Hxy.
    + constructor; [exact IH|].
      assert (in_order y x) as Hyx
        by (destruct (String.leb_total x y) as [H|H]; [congruence | exact H]).
      destruct Hhd as [|z l Hyz]; cbn [insert_sorted].
      * constructor. exact Hyx.
      * destruct (String.leb x z); constructor; assumption.
Qed.

Lemma sorted_Sorted l : Sorted in_order (sorted l).
Proof.
  induction l as [|x l IH]; [constructor|].
  cbn [sorted foldr]. apply insert_sorted_Sorted. exact IH.
Qed.

(** What the appending loop adds: the columns not there yet, each once. *)
Lemma append_new_spec cols : forall fieldnames,
  exists added,
    append_new fieldnames cols = fieldnames ++ added
    /\ (forall k, k ∈ added <-> k ∈ cols /\ k ∉ fieldnames)
    /\ NoDup added.
Proof.
  unfold append_new.
  induction cols as [|col cols IH]; intros fieldnames; cbn [fold_left].
  - exists []. rewrite app_nil_r. split; [reflexivity|].
    split; [|constructor].
    intros k. split; [intros H; apply elem_of_nil in H; contradiction|].
    intros [H _]. exact H.
  - destruct (bool_decide_reflect (col ∈ fieldnames)) as [Hin|Hnotin].
    + destruct (IH fieldnames) as (added & Heq & Hmem & Hnd).
      exists added. split; [exact Heq|]. split; [|exact Hnd].
      intros k. rewrite Hmem, elem_of_cons. split; [tauto|].
      intros [[->|Hk] Hnot]; [contradiction | tauto].
    + destruct (IH (fieldnames ++ [col])) as (added & Heq & Hmem & Hnd).
      exists (col :: added).
      split; [rewrite Heq, <- app_assoc; reflexivity|].
      split.
      * intros k. rewrite !elem_of_cons, Hmem, elem_of_app, list_elem_of_singleton.
        destruct (decide (k = col)) as [->|Hne]; [tauto|]. tauto.
      * constructor; [|exact Hnd].
        rewrite Hmem, elem_of_app, list_elem_of_singleton. tauto.
Qed.

Lemma fixed_cols_plain :
  Forall (fun k => is_smell_col k = false)
    (meta_cols ++ social_cols ++ indicator_cols)
  /\ NoDup (meta_cols ++ social_cols ++ indicator_cols).
Proof.
  split.
  - repeat constructor.
  - refine (bool_decide_unpack _ _). vm_compute. exact I.
Qed.

Lemma smell_cols_spec keys :
  (forall k, k ∈ smell_cols keys <-> k ∈ keys /\ is_smell_col k = true)
  /\ NoDup (smell_cols keys).
Proof.
  unfold smell_cols. split.
  - intros k. rewrite sorted_perm, list_elem_of_filter, elem_of_elements.
    split; intros [H1 H2]; split; auto.
    apply Is_true_true. exact H1.
  - rewrite sorted_perm. apply NoDup_filter, NoDup_elements.
Qed.

Lemma filter_Forall_id {A} (P : A -> Prop) `{forall x, Decision (P x)}
    (l : list A) :
  Forall P l -> filter P l = l.
Proof.
  induction 1 as [|x l Hx _ IH]; [reflexivity|].
  rewrite filter_cons, decide_True by exact Hx. rewrite IH. reflexivity.
Qed.

Lemma fieldnames_spec keys :
  NoDup (fieldnames keys)
  /\ (forall k, k ∈ fieldnames keys <-> k ∈ keys)
  /\ Sorted in_order (smell_cols keys)
  /\ exists rest,
       fieldnames keys
       = filter (fun col => col ∈ keys)
           (meta_cols ++ social_cols ++ indicator_cols)
         ++ smell_cols keys ++ rest.
Proof.
  destruct fixed_cols_plain as [Hplain Hnd_fixed].
  destruct (smell_cols_spec keys) as [Hsmell Hnd_smell].
  unfold fieldnames. cbv zeta.
  set (fixed := meta_cols ++ social_cols ++ indicator_cols) in *.
  replace (meta_cols ++ social_cols ++ indicator_cols ++ smell_cols keys)
    with (fixed ++ smell_cols keys)
    by (unfold fixed; rewrite <- !app_assoc; reflexivity).
  assert (filter (fun col => col ∈ keys) (fixed ++ smell_cols keys)
          = filter (fun col => col ∈ keys) fixed ++ smell_cols keys)
    as Hfirst.
  { rewrite filter_app. f_equal. apply filter_Forall_id.
    apply Forall_forall. intros k Hk. apply Hsmell in Hk as [Hk _]. exact Hk. }
  rewrite Hfirst.
  set (first := filter (fun col => col ∈ keys) fixed ++ smell_cols keys).
  assert (NoDup first) as Hnd_first.
  { apply NoDup_app. split; [apply NoDup_filter; exact Hnd_fixed|].
    split; [|exact Hnd_smell].
    intros k Hk Hk'. apply list_elem_of_filter in Hk as [_ Hk].
    rewrite Forall_forall in Hplain. apply Hplain in Hk.
    apply Hsmell in Hk' as [_ Hk']. congruence. }
  assert (forall k, k ∈ first -> k ∈ keys) as Hfirst_keys.
  { intros k Hk. apply elem_of_app in Hk as [Hk|Hk].
    - apply list_elem_of_filter in Hk as [Hk _]. exact Hk.
    - apply Hsmell in Hk as [Hk _]. exact Hk. }
  destruct (append_new_spec (sorted (elements keys)) first)
    as (added & Heq & Hmem & Hnd_added).
  rewrite Heq.
  split; [|split; [|split; [apply sorted_Sorted|]]].
  - apply NoDup_app. split; [exact Hnd_first|]. split; [|exact Hnd_added].
    intros k Hk Hk'. apply Hmem in Hk' as [_ Hk']. contradiction.
  - intros k. rewrite elem_of_app, Hmem, sorted_perm, elem_of_elements.
    split; [intros [Hk|[Hk _]]; [apply Hfirst_keys; exact Hk | exact Hk]|].
    intros Hk. destruct (decide (k ∈ first)); [left | right]; auto.
  - exists added. unfold first. rewrite <- app_assoc. reflexivity.
Qed.

(** X19.  The header [_save_results] builds has every key of the rows
    exactly once: no column is written twice and no key lacks a column.  It
    starts with the identity, social and indicator columns that occur, in
    their fixed order, followed by the code-smell columns in sorted
    order. *)
Theorem fieldnames_columns keys :
  NoDup (fieldnames keys)
  /\ (forall k, k ∈ fieldnames keys <-> k ∈ keys)
  /\ Sorted in_order (smell_cols keys)
  /\ exists rest,
       fieldnames keys
       = filter (fun col => col ∈ keys)
           (meta_cols ++ social_cols ++ indicator_cols)
         ++ smell_cols keys ++ rest.
Proof. exact (fieldnames_spec keys). Qed.

(** X20.  Nothing is dropped when the table is written: there is one line
    for each row, each line has one cell for each column, and every value
    of every row is in the cell of its column. *)
Theorem table_keeps_values results :
  let fields := fst (table results) in
  let lines := snd (table results) in
  length lines = length results
  /\ Forall (fun ln => length ln = length fields) lines
  /\ forall (i : nat) r k v,
       results !! i = Some r -> r !! k = Some v ->
       exists (j : nat) ln,
         fields !! j = Some k /\ lines !! i = Some ln
         /\ ln !! j = Some (Some v).
Proof.
  cbv zeta. unfold table. cbn [fst snd].
  set (fields := fieldnames (all_keys results)).
  split; [apply length_map|]. split.
  - apply Forall_forall. intros ln Hln.
    apply list_elem_of_fmap in Hln as (r & -> & _).
    unfold line. apply length_map.
  - intros i r k v Hr Hk.
    assert (k ∈ all_keys results) as Hkey.
    { unfold all_keys. apply elem_of_union_list.
      exists (dom r). split.
      - apply list_elem_of_fmap. exists r. split; [reflexivity|].
        apply list_elem_of_lookup. eauto.
      - apply elem_of_dom. eauto. }
    destruct (fieldnames_spec (all_keys results)) as (_ & Hmem & _).
    destruct (Hmem k) as [_ Hin].
    apply Hin, list_elem_of_lookup in Hkey as [j Hj].
    exists j, (line fields r).
    split; [exact Hj|]. split.
    + rewrite list_lookup_fmap, Hr. reflexivity.
    + unfold line, fields. rewrite list_lookup_fmap, Hj.
      cbn. rewrite Hk. reflexivity.
Qed.

(** X21.  The header [_save] of 08b_run_designite_temporal.py builds keeps
    the columns of the input table first and in their order, and adds, each
    once, exactly the smell keys that are not among them. *)
Theorem save_fields_columns original smell_keys :
  exists added,
    save_fields original smell_keys = original ++ added
    /\ (forall k, k ∈ added <-> k ∈ smell_keys /\ k ∉ original)
    /\ NoDup added
    /\ (NoDup original -> NoDup (save_fields original smell_keys)).
Proof.
  unfold save_fields.
  destruct (append_new_spec (sorted (elements smell_keys)) original)
    as (added & Heq & Hmem & Hnd).
  exists added. split; [exact Heq|]. split; [|split; [exact Hnd|]].
  - intros k. rewrite Hmem, sorted_perm, elem_of_elements. reflexivity.
  - intros Hnd0. rewrite Heq. apply NoDup_app.
    split; [exact Hnd0|]. split; [|exact Hnd].
    intros k Hk Hk'. apply Hmem in Hk' as [_ Hk']. contradiction.
Qed.

End ColumnFacts.

(** ** [main] of 08b_run_designite_temporal.py *)

Section Main08bFacts.
Import Temporal08b.

Variable start : Z.
Variable env : nat -> row_env.

Lemma div20_step p :
  (p + 1) / 20 = p / 20 + (if (p + 1) mod 20 =? 0 then 1 else 0).
Proof.
  pose proof (Z.div_mod (p + 1) 20 ltac:(lia)).
  pose proof (Z.div_mod p 20 ltac:(lia)).
  pose proof (Z.mod_pos_bound (p + 1) 20 ltac:(lia)).
  pose proof (Z.mod_pos_bound p 20 ltac:(lia)).
  destruct (Z.eqb_spec ((p + 1) mod 20) 0); lia.
Qed.

(** What one turn below the start test does: the row is either counted as
    a failure and left alone, or replaced by itself updated with the smell
    counts and counted as processed, with a partial table written when the
    count reaches a multiple of 20. *)
Lemma handle08b_effect i r st st' :
  handle env i r st = Returned st' ->
  visited st' = visited st ++ [i]
  /\ ((rows st' = rows st /\ processed st' = processed st
       /\ failed st' = failed st + 1 /\ saved st' = saved st)
      \/ (exists sm,
            rows st' = <[i := update r sm]> (rows st)
            /\ processed st' = processed st + 1 /\ failed st' = failed st
            /\ saved st'
               = if processed st' mod 20 =? 0
                 then (true, rows st') :: saved st else saved st)).
Proof.
  unfold handle. intros Hh.
  destruct (field r "repo_name"); [|discriminate].
  destruct (field r "project_year"); [|discriminate].
  destruct (field r "snapshot_commit"); [|discriminate].
  destruct (is_dir (env i)); cbn [negb] in Hh;
    [|injection Hh as <-; split; [reflexivity | left; repeat split]].
  destruct (checkout_commit (env i)); cbn [negb] in Hh;
    [|injection Hh as <-; split; [reflexivity | left; repeat split]].
  destruct (Parser08b.run_designite (designite_run (env i))) as [sm| |];
    try discriminate.
  cbv zeta in Hh. cbn [processed] in Hh.
  destruct ((processed st + 1) mod 20 =? 0) eqn:Hmod;
    injection Hh as <-; (split; [reflexivity|]); right;
    exists (VInt <$> sm); cbn [rows processed failed saved _save];
    rewrite Hmod; repeat split.
Qed.

Lemma loop08b_accounting input : forall todo i st st',
  todo = drop i input ->
  loop start env i todo st = Returned st' ->
  length (rows st) = length input ->
  (forall j r', rows st !! j = Some r' ->
     exists r0, input !! j = Some r0 /\ dom r0 ⊆ dom r') ->
  length (rows st') = length input
  /\ processed st <= processed st' /\ failed st <= failed st'
  /\ processed st' + failed st' - Z.of_nat (length (visited st'))
     = processed st + failed st - Z.of_nat (length (visited st))
  /\ (forall j, (j < i)%nat \/ Z.of_nat j < start ->
        rows st' !! j = rows st !! j)
  /\ (forall j r', rows st' !! j = Some r' ->
        exists r0, input !! j = Some r0 /\ dom r0 ⊆ dom r')
  /\ exists partials,
       saved st' = partials ++ saved st
       /\ Forall (fun p => p.1 = true /\ length p.2 = length input) partials
       /\ Z.of_nat (length partials) = processed st' / 20 - processed st / 20.
Proof.
  induction todo as [|r rest IH]; intros i st st' Htodo Hloop Hlen Hdom.
  - simpl in Hloop. injection Hloop as <-.
    split; [exact Hlen|]. split; [lia|]. split; [lia|]. split; [lia|].
    split; [reflexivity|]. split; [exact Hdom|].
    exists []. split; [reflexivity|]. split; [constructor | simpl; lia].
  - assert (input !! i = Some r) as Hi.
    { pose proof (lookup_drop input i 0) as H.
      rewrite <- Htodo, Nat.add_0_r in H. symmetry. exact H. }
    assert (rest = drop (S i) input) as Hrest.
    { replace (S i) with (i + 1)%nat by lia.
      rewrite <- drop_drop, <- Htodo. reflexivity. }
    cbn [loop] in Hloop.
    destruct (Z.ltb_spec (Z.of_nat i) start) as [Hlt|Hge].
    + destruct (IH (S i) st st' Hrest Hloop Hlen Hdom)
        as (Hl & Hp & Hf & Hsum & Hkeep & Hd & Hsaved).
      split; [exact Hl|]. split; [exact Hp|]. split; [exact Hf|].
      split; [exact Hsum|]. split; [|split; [exact Hd | exact Hsaved]].
      intros j Hj. apply Hkeep. lia.
    + destruct (handle env i r st) as [st1| |] eqn:Hh; try discriminate.
      apply handle08b_effect in Hh as [Hvis Hcases].
      assert (length (rows st1) = length input
              /\ (forall j, j <> i -> rows st1 !! j = rows st !! j)
              /\ (forall j r', rows st1 !! j = Some r' ->
                    exists r0, input !! j = Some r0 /\ dom r0 ⊆ dom r'))
        as (Hlen1 & Hother & Hdom1).
      { destruct Hcases as [(-> & _)|(sm & -> & _)].
        - split; [exact Hlen|]. split; [reflexivity | exact Hdom].
        - split; [rewrite length_insert; exact Hlen|]. split.
          + intros j Hj. apply list_lookup_insert_ne. congruence.
          + intros j r' Hj. destruct (decide (j = i)) as [->|Hne].
            * apply list_lookup_insert_Some in Hj
                as [(_ & <- & _)|(Hne & _)]; [|congruence].
              exists r. split; [exact Hi|].
              unfold update. rewrite dom_union. apply union_subseteq_r.
            * rewrite list_lookup_insert_ne in Hj by congruence.
              apply Hdom. exact Hj. }
      destruct (IH (S i) st1 st' Hrest Hloop Hlen1 Hdom1)
        as (Hl & Hp & Hf & Hsum & Hkeep & Hd & partials & Hsaved & Hall & Hn).
      assert (length (visited st1) = S (length (visited st))) as Hvlen
        by (rewrite Hvis, length_app; simpl; lia).
      split; [exact Hl|].
      destruct Hcases as [(Hr & Hp1 & Hf1 & Hs1)|(sm & Hr & Hp1 & Hf1 & Hs1)].
      * split; [lia|]. split; [lia|]. split; [lia|]. split.
        { intros j Hj. rewrite Hkeep by lia. apply Hother. lia. }
        split; [exact Hd|].
        exists partials. rewrite Hsaved, Hs1, <- Hp1.
        split; [reflexivity|]. split; [exact Hall | exact Hn].
      * split; [lia|]. split; [lia|]. split; [lia|]. split.
        { intros j Hj. rewrite Hkeep by lia. apply Hother. lia. }
        split; [exact Hd|].
        pose proof (div20_step (processed st)) as Hdiv.
        rewrite <- Hp1 in Hdiv.
        destruct (processed st1 mod 20 =? 0).
        { exists (partials ++ [(true, rows st1)]).
          rewrite Hsaved, Hs1, <- app_assoc.
          split; [reflexivity|]. split.
          - apply Forall_app. split; [exact Hall|].
            apply Forall_singleton. split; [reflexivity | exact Hlen1].
          - rewrite length_app. simpl. lia. }
        { exists partials. rewrite Hsaved, Hs1.
          split; [reflexivity|]. split; [exact Hall | lia]. }
Qed.

(** X22.  The bookkeeping of [main] of 08b_run_designite_temporal.py, when
    it returns.  The table written at the end has one row for each row read.
    Every position from [--start-from] on is either processed or failed.
    The rows before [--start-from] are written as they were read, and no
    row loses a column.  Besides the final table, one partial table is
    written for every 20 rows processed, each with all the rows. *)
Theorem main08b_accounting input st :
  main start env input = Returned st ->
  length (rows st) = length input
  /\ 0 <= processed st /\ 0 <= failed st
  /\ processed st + failed st
     = Z.of_nat (length (filter (fun j => start <= Z.of_nat j)
                           (seq 0 (length input))))
  /\ (forall j, Z.of_nat j < start -> rows st !! j = input !! j)
  /\ (forall j r', rows st !! j = Some r' ->
        exists r0, input !! j = Some r0 /\ dom r0 ⊆ dom r')
  /\ exists partials,
       saved st = (false, rows st) :: partials
       /\ Forall (fun p => p.1 = true /\ length p.2 = length input) partials
       /\ Z.of_nat (length partials) = processed st / 20.
Proof.
  unfold main.
  set (st0 := {| rows := input; processed := 0; failed := 0; saved := [];
                 visited := [] |}).
  destruct (loop start env 0 input st0) as [st1| |] eqn:Hloop;
    try discriminate.
  intros [= <-].
  pose proof (loop08b_visited _ _ _ _ _ _ Hloop) as Hvis.
  apply (loop08b_accounting input) in Hloop;
    [| reflexivity | reflexivity
     | intros j r' Hj; exists r'; split; [exact Hj | reflexivity]].
  destruct Hloop as (Hl & Hp & Hf & Hsum & Hkeep & Hd & partials & Hsaved
                     & Hall & Hn).
  cbn [rows processed failed saved visited _save st0 app length] in *.
  split; [exact Hl|]. split; [exact Hp|]. split; [exact Hf|].
  split; [rewrite <- Hvis; lia|].
  split; [intros j Hj; apply Hkeep; right; exact Hj|].
  split; [exact Hd|].
  exists partials. rewrite Hsaved, app_nil_r.
  split; [reflexivity|]. split; [exact Hall|].
  rewrite Hn. change (0 / 20) with 0. lia.
Qed.

End Main08bFacts.

(** ** With the tool off *)

Section ToolOff.
Import Pipeline.

Variable a : args.
Variable r : repo.
Variable env : repo_env.

Hypothesis tool_off : has_designite a = false \/ dry_run a = true.





End ToolOff.

(** ** The further statements at concrete inputs *)

Lemma get_success_witness :
  let s := GitHubAPI.init 0 in
  let s' := snd (GitHubAPI.get Scenarios.rest_low s) in
  GitHubAPI.answer (Scenarios.rest_low (GitHubAPI.issued s))
  = GitHubAPI.Success (IntValue 10) (IntValue 3600) (Some [])
  /\ fst (GitHubAPI.get Scenarios.rest_low s) = Returned (Some [])
  /\ GitHubAPI.remaining s' = 10
  /\ GitHubAPI.reset_time s' = 3600
  /\ GitHubAPI.request_count s' = GitHubAPI.request_count s + 1.
Proof.
  cbv zeta.
  pose proof (get_success Scenarios.rest_low (GitHubAPI.init 0)
                (IntValue 10) (IntValue 3600) [] eq_refl
                ltac:(discriminate) ltac:(discriminate)) as H.
  cbv zeta in H. destruct H as (Hres & Hrem & Hreset & Hcount & _).
  split; [reflexivity|]. split; [exact Hres|]. split; [exact Hrem|].
  split; [exact Hreset | exact Hcount].
Defined.

Lemma get_definitive_absence_witness :
  let s := GitHubAPI.init 0 in
  GitHubAPI.answer (Cases.rest_404 (GitHubAPI.issued s))
  = GitHubAPI.HTTPError 404 Absent
  /\ fst (GitHubAPI.get Cases.rest_404 s) = Returned None
  /\ GitHubAPI.issued (snd (GitHubAPI.get Cases.rest_404 s)) = 1%nat
  /\ fst (GitHubAPI._count_issues_or_prs Cases.rest_404 "issue" "2020-01-01"
            s) = Returned 0.
Proof.
  cbv zeta.
  destruct (get_definitive_absence Cases.rest_404 (GitHubAPI.init 0) 404
              Absent "issue" "2020-01-01" eq_refl (or_introl eq_refl))
    as [Hget Hcount].
  split; [reflexivity|].
  split; [rewrite Hget; reflexivity|].
  split; [rewrite Hget; reflexivity|].
  rewrite Hcount. reflexivity.
Defined.

Lemma graphql_no_attempt_witness :
  0 <= 0
  /\ Graphql.runGraphqlRequest Scenarios.graphql_502 (fun _ => 0) 0
       Scenarios.graphql_start
     = (Raised, Scenarios.graphql_start).
Proof.
  split; [lia|].
  apply (graphql_no_attempt Scenarios.graphql_502 (fun _ => 0) 0
           Scenarios.graphql_start).
  lia.
Defined.

Lemma graphql_fatal_status_witness :
  let g := Scenarios.graphql_start in
  Graphql.answer (Cases.graphql_401 (Graphql.posted g))
  = Graphql.Response 401 Absent Graphql.Neither
  /\ Graphql.is_transient 401 = false
  /\ fst (Graphql.runGraphqlRequest Cases.graphql_401 (fun _ => 0) 5 g)
     = Raised
  /\ Graphql.posted
       (snd (Graphql.runGraphqlRequest Cases.graphql_401 (fun _ => 0) 5 g))
     = 1%nat.
Proof.
  cbv zeta.
  pose proof (graphql_fatal_status Cases.graphql_401 (fun _ => 0) 5
                Scenarios.graphql_start 401 Absent Graphql.Neither
                ltac:(lia) eq_refl ltac:(discriminate) eq_refl) as H.
  split; [reflexivity|]. split; [reflexivity|].
  rewrite H. split; reflexivity.
Defined.

Lemma graphql_succeeds_after_retries_witness :
  let g := Scenarios.graphql_start in
  Survey.succeeds_after Cases.graphql_recovers (Graphql.posted g) 1 tt
  /\ fst (Graphql.runGraphqlRequest Cases.graphql_recovers (fun _ => 0) 5 g)
     = Returned tt
  /\ Graphql.posted
       (snd (Graphql.runGraphqlRequest Cases.graphql_recovers (fun _ => 0) 5
               g))
     = 2%nat.
Proof.
  cbv zeta.
  assert (Survey.succeeds_after Cases.graphql_recovers
            (Graphql.posted Scenarios.graphql_start) 1 tt) as Hok.
  { split.
    - intros j Hj. assert (j = 0%nat) as -> by (simpl in Hj; lia).
      reflexivity.
    - exists 200, Absent. split; reflexivity. }
  destruct (graphql_succeeds_after_retries Cases.graphql_recovers
              (fun _ => 0) 5 Scenarios.graphql_start 1 tt Hok ltac:(lia))
    as [Hres Hposted].
  split; [exact Hok|]. split; [exact Hres | exact Hposted].
Defined.

Lemma checkout_default_head_fallback_witness :
  let h := Git.Detached Scenarios.commit_sha in
  Cases.only_head "main" = Git.Fails
  /\ Cases.only_head "HEAD" = Git.KeepsHead
  /\ Git.checkout_default Cases.only_head h = (true, h)
  /\ Git.checkout_default_branch Cases.only_head h = (false, h).
Proof.
  cbv zeta.
  destruct (checkout_default_head_fallback Cases.only_head
              (Git.Detached Scenarios.commit_sha) eq_refl eq_refl eq_refl)
    as [H08b H08].
  split; [reflexivity|]. split; [reflexivity|].
  split; [exact H08b | exact H08].
Defined.

Lemma parse_results_sums_when_distinct_witness :
  let m := Parser._parse_results Cases.one_design_row Csv.Missing in
  Survey.distinct_names "Design Smell" Cases.one_design_row
  /\ sum_with_prefix "design_" m = 1
  /\ sum_with_prefix "impl_" m = 0
  /\ m !! "total_design_smells"%string = Some 1.
Proof.
  cbv zeta.
  assert (Survey.distinct_names "Design Smell" Cases.one_design_row) as Hd.
  { exists [("Feature Envy"%string, 1)].
    split; [vm_compute; reflexivity | apply NoDup_singleton]. }
  pose proof (parse_results_sums_when_distinct Cases.one_design_row
                Csv.Missing Hd I) as H.
  cbv zeta in H. destruct H as (Hdesign & Himpl & Htotal & _).
  split; [exact Hd|]. split; [exact Hdesign|]. split; [exact Himpl|].
  exact Htotal.
Defined.

Lemma run_designite_identities_witness :
  let inv :=
    Scenarios.tool_ok (Csv.Table Scenarios.colliding_rows) Csv.Missing in
  Parser.makedirs_ok inv = true
  /\ exists (m : gmap string Z) d i,
       Parser08b.run_designite inv = Returned m
       /\ m !! "total_design_smells"%string = Some d
       /\ m !! "total_code_smells"%string = Some (d + i)
       /\ sum_with_prefix "design_" m = d.
Proof.
  cbv zeta.
  pose proof (run_designite_identities
                (Scenarios.tool_ok (Csv.Table Scenarios.colliding_rows)
                   Csv.Missing) eq_refl) as H.
  cbv beta iota delta [Parser.tool Scenarios.tool_ok] in H.
  destruct H as (m & d & i & Hrun & Hd & _ & Hc & Hsum & _).
  split; [reflexivity|].
  exists m, d, i. split; [exact Hrun|]. split; [exact Hd|].
  split; [exact Hc | exact Hsum].
Defined.

Lemma process_repo_raise_leaves_detached_witness :
  let a := Scenarios.full_args 1 in
  let env := Scenarios.env_no_dir in
  Pipeline.has_designite a = true
  /\ Pipeline.resolve env Scenarios.commit_sha
     = Git.IsCommit Scenarios.commit_sha
  /\ Parser.makedirs_ok (Pipeline.designite_run env 1) = false
  /\ exists s',
       Pipeline.process_repo a Scenarios.demo env = (Raised, s')
       /\ Pipeline.head s' = Git.Detached Scenarios.commit_sha.
Proof.
  cbv zeta.
  assert (Dates.of_ymd 2020 1 1 <= Pipeline.now Scenarios.env_no_dir 1) as Hdue
    by (vm_compute; discriminate).
  destruct (process_repo_raise_leaves_detached (Scenarios.full_args 1)
              Scenarios.demo Scenarios.env_no_dir "out/repos/demo"
              (Dates.of_ymd 2019 1 1) (Dates.of_ymd 2020 1 1)
              Scenarios.commit_sha Scenarios.commit_sha
              eq_refl eq_refl eq_refl eq_refl ltac:(cbn; lia) eq_refl Hdue
              eq_refl eq_refl eq_refl)
    as (s' & Hres & Hhead & _).
  split; [reflexivity|]. split; [reflexivity|]. split; [reflexivity|].
  exists s'. split; [exact Hres | exact Hhead].
Defined.


Lemma dry_run_row_witness :
  let env := Scenarios.env2019 in
  let first := Dates.of_ymd 2019 1 1 in
  Pipeline.dry_run Cases.dry_args = true
  /\ Dates.of_ymd 2020 1 1 <= Pipeline.now env 1
  /\ exists s',
       Pipeline.year_body Cases.dry_args Scenarios.demo env first 1
         (Observe.start env)
       = (Pipeline.Next, s')
       /\ Pipeline.events s'
          = Pipeline.Year 1 (Dates.of_ymd 2020 1 1)
            :: Pipeline.events (Observe.start env)
       /\ Pipeline.head s' = Pipeline.head (Observe.start env).
Proof.
  cbv zeta.
  assert (Dates.of_ymd 2020 1 1 <= Pipeline.now Scenarios.env2019 1) as Hdue
    by (vm_compute; discriminate).
  destruct (dry_run_row Cases.dry_args Scenarios.demo Scenarios.env2019
              (Dates.of_ymd 2019 1 1) 1 (Dates.of_ymd 2020 1 1)
              Scenarios.commit_sha (Observe.start Scenarios.env2019)
              eq_refl eq_refl Hdue eq_refl)
    as (s' & Hbody & _ & Hev & Hhead).
  split; [reflexivity|]. split; [exact Hdue|].
  exists s'. split; [exact Hbody|]. split; [exact Hev | exact Hhead].
Defined.

Lemma main08b_accounting_witness :
  let env := fun _ : nat => Scenarios.env08b in
  exists st,
    Temporal08b.main 1 env Cases.two_rows = Returned st
    /\ length (Temporal08b.rows st) = 2%nat
    /\ Temporal08b.processed st + Temporal08b.failed st = 1
    /\ Temporal08b.rows st !! 0%nat = Some (Scenarios.input_row "alpha" 1).
Proof.
  cbv zeta.
  destruct (Temporal08b.main 1 (fun _ => Scenarios.env08b) Cases.two_rows)
    as [st| |] eqn:Hmain;
    [|exfalso; vm_compute in Hmain; discriminate
     |exfalso; vm_compute in Hmain; discriminate].
  destruct (main08b_accounting 1 (fun _ => Scenarios.env08b) Cases.two_rows
              st Hmain)
    as (Hlen & _ & _ & Hsum & Hkeep & _).
  exists st. split; [reflexivity|]. split; [exact Hlen|].
  split; [rewrite Hsum; reflexivity|].
  rewrite (Hkeep 0%nat) by lia. reflexivity.
Defined.

